(** * crono-api: the energy-expenditure reconciliation core

    A shallow embedding of the decision logic of [src/energy-scrape.js]
    and of the HTTP server module (the weekly-average-deficit route and
    its helpers), followed by the properties established about it.

    Conventions of the embedding.
    - A JavaScript string is the list of its UTF-16 code units
      ([list N]); [u "text"] builds one from an ASCII literal.
    - A finite JavaScript number is an exact rational ([Q]); [NaN] and
      the two infinities are separate constructors of [number].  The
      rounding of IEEE-754 doubles and the sign of zero are not
      represented: sums, differences and quotients are exact.  The code
      is sensitive to the rounding in three places: the plausibility
      ratio of [normalizeScrapedEntry] when the rounded quotient falls
      beside 0.7 or 1.8 and the exact one on it, the number
      [StringToNumber] reads from a text of more than 17 significant
      digits, and identities such as [a - (a + b) = - b] or
      [(a / n) * n = a] on fractional amounts.  The statements about
      [computeCalorieBalance], [balanceDay] and the averages of
      [aggregate] are therefore about the operations the code performs,
      their order and the signs of their results, never about such
      identities.
    - [null] and a finite number, the only shapes the scraped fields
      take once they crossed the JSON boundary, are [option Q].
    - Objects used as dictionaries are [gmap]s keyed by strings; a plain
      object also answers to the names it inherits ([inheritedNames]),
      which the statements about such dictionaries leave out. *)

From Stdlib Require Import QArith Qabs ZArith NArith List String Ascii.
From Stdlib Require Import Sorted Permutation Lia Lqa.
From stdpp Require Import gmap list.

Set Default Proof Using "Type".

(* ===================================================================== *)
(** * Part I: definitions                                                 *)
(* ===================================================================== *)

(** ** The fragment of JavaScript the program relies on *)

Module Js.

Abbreviation jstring := (list N).

(** Code units of an ASCII literal. *)
Definition u (s : string) : jstring :=
  List.map N_of_ascii (list_ascii_of_string s).

(** WhiteSpace and LineTerminator code units, as [String.prototype.trim]
    and the numeric-string grammar see them. *)
Definition isWhiteSpace (c : N) : bool :=
  match c with
  | 9 | 10 | 11 | 12 | 13 | 32 | 160 | 5760
  | 8232 | 8233 | 8239 | 8287 | 12288 | 65279 => true
  | _ => (8192 <=? c) && (c <=? 8202)
  end%N.

Fixpoint trimStart (s : jstring) : jstring :=
  match s with
  | c :: r => if isWhiteSpace c then trimStart r else s
  | [] => []
  end.

Definition trimEnd (s : jstring) : jstring := rev (trimStart (rev s)).

Definition trim (s : jstring) : jstring := trimEnd (trimStart s).

(** [a < b] on strings: lexicographic on code units. *)
Fixpoint strLt (a b : jstring) : bool :=
  match a, b with
  | _, [] => false
  | [], _ :: _ => true
  | x :: a', y :: b' => (x <? y)%N || ((x =? y)%N && strLt a' b')
  end.

Definition strEqb (a b : jstring) : bool := bool_decide (a = b).

(** [toLowerCase], on the letters A-Z; no other code unit lowercases to
    an ASCII letter used by the program's comparisons. *)
Definition lowerUnit (c : N) : N :=
  if ((65 <=? c) && (c <=? 90))%N then (c + 32)%N else c.

Definition toLowerCase (s : jstring) : jstring := List.map lowerUnit s.

(** Numbers. *)
Inductive number : Type :=
| Finite (q : Q)
| NaN
| Infinity (negative : bool).

Definition Qltb (a b : Q) : bool := negb (Qle_bool b a).

(** Magnitudes at or beyond this bound round to an infinity. *)
Definition overflowBound : Z := (2 ^ 1024 - 2 ^ 970)%Z.

Definition roundFinite (q : Q) : number :=
  if Qle_bool (inject_Z overflowBound) (Qabs q)
  then Infinity (Qltb q 0)
  else Finite q.

Definition negate (n : number) : number :=
  match n with
  | Finite q => Finite (- q)
  | NaN => NaN
  | Infinity s => Infinity (negb s)
  end.

(** *** [Number(string)]: the StringNumericLiteral grammar *)

Definition digitOfBase (base : Z) (c : N) : option Z :=
  let d :=
    if ((48 <=? c) && (c <=? 57))%N then Some (Z.of_N c - 48)%Z
    else if ((97 <=? c) && (c <=? 102))%N then Some (Z.of_N c - 87)%Z
    else if ((65 <=? c) && (c <=? 70))%N then Some (Z.of_N c - 55)%Z
    else None in
  match d with
  | Some v => if (v <? base)%Z then Some v else None
  | None => None
  end.

(** The longest prefix of digits of the base, and what follows it. *)
Fixpoint spanDigits (base : Z) (s : jstring) : list Z * jstring :=
  match s with
  | c :: r =>
      match digitOfBase base c with
      | Some d => let '(ds, rest) := spanDigits base r in (d :: ds, rest)
      | None => ([], s)
      end
  | [] => ([], [])
  end.

Definition digitsToZ (base : Z) (ds : list Z) : Z :=
  fold_left (fun acc d => (base * acc + d)%Z) ds 0%Z.

(** [0x..], [0o..], [0b..] (either case of the letter), unsigned. *)
Definition parseNonDecimal (s : jstring) : option Z :=
  match s with
  | 48%N :: p :: r =>
      let base :=
        match p with
        | 120 | 88 => Some 16%Z
        | 111 | 79 => Some 8%Z
        | 98 | 66 => Some 2%Z
        | _ => None
        end%N in
      match base with
      | Some b =>
          match spanDigits b r with
          | ((_ :: _) as ds, []) => Some (digitsToZ b ds)
          | _ => None
          end
      | None => None
      end
  | _ => None
  end.

(** ExponentPart, or nothing: the decimal exponent it denotes. *)
Definition parseExponent (s : jstring) : option Z :=
  match s with
  | [] => Some 0%Z
  | c :: r =>
      if ((c =? 101) || (c =? 69))%N then
        let '(neg, r') :=
          match r with
          | 43%N :: t => (false, t)
          | 45%N :: t => (true, t)
          | _ => (false, r)
          end in
        match spanDigits 10 r' with
        | ((_ :: _) as ds, []) =>
            Some (if neg : bool then - digitsToZ 10 ds else digitsToZ 10 ds)%Z
        | _ => None
        end
      else None
  end.

(** [m * 10^e] as a rational. *)
Definition scale10 (m e : Z) : Q :=
  if (0 <=? e)%Z then inject_Z (m * 10 ^ e)
  else Qmake m (Z.to_pos (10 ^ (- e))).

(** StrUnsignedDecimalLiteral. *)
Definition parseUnsignedDecimal (s : jstring) : number :=
  if strEqb s (u "Infinity") then Infinity false
  else
    let '(ip, r1) := spanDigits 10 s in
    let '(dot, fp, r2) :=
      match r1 with
      | 46%N :: r => let '(fp, r2) := spanDigits 10 r in (true, fp, r2)
      | _ => (false, [], r1)
      end in
    match ip, fp with
    | [], [] => NaN
    | _, _ =>
        match parseExponent r2 with
        | Some e =>
            roundFinite
              (scale10 (digitsToZ 10 (ip ++ fp)) (e - Z.of_nat (length fp)))
        | None => NaN
        end
    end.

(** [Number(s)] for a string [s]. *)
Definition StringToNumber (s : jstring) : number :=
  match trim s with
  | [] => Finite 0
  | t =>
      match parseNonDecimal t with
      | Some z => roundFinite (inject_Z z)
      | None =>
          match t with
          | 43%N :: r => parseUnsignedDecimal r
          | 45%N :: r => negate (parseUnsignedDecimal r)
          | _ => parseUnsignedDecimal t
          end
      end
  end.

(** Values found in parsed JSON and in query strings.  A non-primitive
    (array or object) is represented by the result of [String(v)], the
    only observation the program makes of one. *)
Inductive value : Type :=
| VUndefined
| VNull
| VBool (b : bool)
| VNumber (n : number)
| VString (s : jstring)
| VObject (str : jstring).

(** ToBoolean. *)
Definition truthy (v : value) : bool :=
  match v with
  | VUndefined | VNull => false
  | VBool b => b
  | VNumber (Finite q) => negb (Qeq_bool q 0)
  | VNumber NaN => false
  | VNumber (Infinity _) => true
  | VString s => negb (strEqb s [])
  | VObject _ => true
  end.

(** [typeof v === "string" ? v : dflt]. *)
Definition stringOr (dflt : option jstring) (v : value) : option jstring :=
  match v with VString s => Some s | _ => dflt end.

End Js.

Import Js.

(** ** The collaborators: environment, credential store, export
    command, remote browser

    Each interaction with the outside is a command, and a program is the
    tree of commands it issues.  A command may raise; its continuation
    receives either the exception or the answer. *)

Module Collab.

Abbreviation Row := (gmap jstring value).

(** What the export command printed, parsed: nothing, an array of
    records, or one record. *)
Inductive Json : Type :=
| JNothing
| JArray (rows : list Row)
| JSingle (row : Row).

(** One entry as the extraction script returns it: the requested date
    and seven readings, each a finite number or [null]. *)
Record RawEntry : Type := {
  raw_date : value;
  raw_bmr : option Q;
  raw_tef : option Q;
  raw_exercise : option Q;
  raw_trackerActivity : option Q;
  raw_baseline : option Q;
  raw_energyBurned : option Q;
  raw_energyBalance : option Q;
}.

Record ExecResult (D : Type) : Type := {
  exec_success : value;
  exec_result : option D;
  exec_error : value;
}.
Arguments exec_success {D}.
Arguments exec_result {D}.
Arguments exec_error {D}.

Record LoginData : Type := {
  login_loggedIn : value;
  login_error : value;
  login_loginError : value;
}.

Record ScrapeData : Type := {
  scrape_success : value;
  scrape_error : value;
  (** [Some] when [data.entries] is an array *)
  scrape_entries : option (list RawEntry);
}.

(** The [message] of an [Error].  One built from a template string is
    kept structured: the constructor stands for the template, its
    argument for the interpolated value. *)
Inductive Message : Type :=
| MissingCredential (envKey : jstring)
| LoginFailed (explicitError : value)
| ScrapeAutomationFailed (error : value)
| ScrapeFailed (error : value)
| Text (message : jstring).

(** The [extra] of the [HttpError] raised for unreconciled days. *)
Record Unreconciled : Type := {
  extra_range : jstring;
  daysWithoutBurnSource : list value;
  extra_scrapeError : option Message;
  exercisesFallbackError : option Message;
}.

(** What can be thrown: an [Error], or the server's [HttpError]. *)
Inductive Exn : Type :=
| Error (message : Message)
| HttpError (status : Z) (message : Message) (extra : option Unreconciled).

(** [error.message]. *)
Definition messageOf (e : Exn) : Message :=
  match e with Error m | HttpError _ m _ => m end.

(** The commands.  An [execute] answers with [{success, result, error}];
    [exec_result] is [None] when [result] is missing or falsy. *)
Inductive Cmd : Type → Type :=
(** [raw[envKey]], a read of [process.env] *)
| ReadEnv (key : jstring) : Cmd value
(** [process.env[key] = val] *)
| WriteEnv (key val : jstring) : Cmd unit
(** [loadCredentialsModule(process.env)] *)
| LoadCredentialsModule : Cmd unit
(** [credentialsModule.getCredential(credKey)] *)
| GetCredential (credKey : jstring) : Cmd value
(** [loadKernelClass(process.env)] and [new Kernel()] *)
| LoadKernelClass : Cmd unit
(** [onStatus(message)] *)
| OnStatus (message : jstring) : Cmd unit
(** [kernel.browsers.create(..)]: the [session_id] of the browser *)
| BrowsersCreate : Cmd jstring
(** [kernel.browsers.playwright.execute] of [buildAutoLoginCode(..)] *)
| ExecuteLogin (session username password : jstring) (timeout_sec : Z)
  : Cmd (ExecResult LoginData)
(** [kernel.browsers.playwright.execute] of [buildEnergyScrapeCode(dates)] *)
| ExecuteScrape (session : jstring) (dates : list jstring) (timeout_sec : Z)
  : Cmd (ExecResult ScrapeData)
(** [kernel.browsers.deleteByID(session)] *)
| BrowsersDeleteByID (session : jstring) : Cmd unit
(** [formatLocalDate(new Date())] *)
| TodayLocal : Cmd jstring
(** [buildTrailingRangeExcludingToday(days)]: its [start] and [end] *)
| TrailingRange (days : Z) : Cmd (jstring * jstring)
(** [runCronoJsonWithRetry(["export", kind, "--range", range, "--json"])] *)
| ExportJson (kind range : jstring) : Cmd Json.

Inductive Prog (A : Type) : Type :=
| Ret (a : A)
| Throw (e : Exn)
| Do {X : Type} (c : Cmd X) (k : Exn + X → Prog A).
Arguments Ret {A}.
Arguments Throw {A}.
Arguments Do {A X}.

(** [await c], the exception propagating. *)
Definition call {A X : Type} (c : Cmd X) (k : X → Prog A) : Prog A :=
  Do c (fun r => match r with inl e => Throw e | inr x => k x end).

(** [try { body } catch (e) { .. }], continued by [k] either way. *)
Fixpoint tryCatch {A B : Type} (body : Prog A) (k : Exn + A → Prog B)
  : Prog B :=
  match body with
  | Ret a => k (inr a)
  | Throw e => k (inl e)
  | Do c k' => Do c (fun r => tryCatch (k' r) k)
  end.

(** [try { body } finally { try { await c } catch {} }]. *)
Definition tryFinally {A X : Type} (body : Prog A) (cleanup : Cmd X)
  : Prog A :=
  tryCatch body
    (fun r =>
       Do cleanup
         (fun _ => match r with inl e => Throw e | inr a => Ret a end)).

(** Running a program against the collaborators: [answer] gives the
    outcome of each command in a state [W] of the outside world. *)
Section Run.
Context {W : Type} (answer : ∀ X, Cmd X → W → (Exn + X) * W).

Fixpoint run {A : Type} (p : Prog A) (w : W) : (Exn + A) * W :=
  match p with
  | Ret a => (inr a, w)
  | Throw e => (inl e, w)
  | Do c k => let '(r, w') := answer _ c w in run (k r) w'
  end.

(** The commands issued, in order. *)
Fixpoint trace {A : Type} (p : Prog A) (w : W) : list {X & Cmd X} :=
  match p with
  | Ret _ | Throw _ => []
  | Do c k => let '(r, w') := answer _ c w in existT _ c :: trace (k r) w'
  end.
End Run.

End Collab.

Import Collab.

(** ** The scrape module ([energy-scrape.js]) *)

Module EnergyScrape.

(** [DATE_RE], the pattern [^\d{4}-\d{2}-\d{2}$]. *)
Definition isDigit (c : N) : bool := ((48 <=? c) && (c <=? 57))%N.

Definition DATE_RE_test (s : jstring) : bool :=
  match s with
  | [y1; y2; y3; y4; h1; m1; m2; h2; d1; d2] =>
      forallb isDigit [y1; y2; y3; y4; m1; m2; d1; d2]
      && (h1 =? 45)%N && (h2 =? 45)%N
  | _ => false
  end.

(** A [Set] of strings, kept in insertion order. *)
Definition setAdd (x : jstring) (s : list jstring) : list jstring :=
  if bool_decide (x ∈ s) then s else s ++ [x].

(** [Array.prototype.sort] with a comparator: the stable ordering, built
    by insertion.  [Lt] stands for a negative result of the comparator,
    [Gt] for a positive one. *)
Section Sort.
Context {A : Type} (cmp : A → A → comparison).

Fixpoint insertSorted (x : A) (l : list A) : list A :=
  match l with
  | [] => [x]
  | y :: r =>
      match cmp x y with
      | Gt => y :: insertSorted x r
      | _ => x :: l
      end
  end.

Definition sort (l : list A) : list A := fold_right insertSorted [] l.
End Sort.

(** The comparator of [normalizeDates]: [a < b ? 1 : a > b ? -1 : 0]. *)
Definition descending (a b : jstring) : comparison :=
  if strLt a b then Gt else if strLt b a then Lt else Eq.

(** [normalizeDates]. *)
Definition normalizeDates (dates : list value) : list jstring :=
  let unique :=
    fold_left
      (fun unique date =>
         match date with
         | VString date =>
             let trimmed := trim date in
             if DATE_RE_test trimmed then setAdd trimmed unique else unique
         | _ => unique
         end)
      dates [] in
  sort descending unique.

(** [str.replace(/[−–—]/g, "-")]. *)
Definition normalizeMinus (s : jstring) : jstring :=
  List.map (fun c => match c with 8722 | 8211 | 8212 => 45 | _ => c end%N) s.

(** [str.replace(/,/g, "")]. *)
Definition stripCommas (s : jstring) : jstring :=
  List.filter (fun c => negb (c =? 44)%N) s.

(** [num], the numeric reader of the in-page extraction script. *)
Definition num (v : value) : option Q :=
  match v with
  | VString str =>
      let cleaned := trim (stripCommas (normalizeMinus str)) in
      match StringToNumber cleaned with
      | Finite n => Some n
      | _ => None
      end
  | _ => None
  end.

Record Components : Type := {
  bmr : option Q;
  tef : option Q;
  exercise : option Q;
  trackerActivity : option Q;
  baseline : option Q;
}.

Record ScrapedEntry : Type := {
  date : value;
  components : Components;
  energyBurned : option Q;
  energyBalance : option Q;
  missingComponents : list jstring;
  hasAllCoreComponents : bool;
  componentTotalCore : Q;
  componentTotalWithBaseline : Q;
  burnCandidates : list (jstring * option Q);
  resolvedBurnedSource : option jstring;
  resolvedBurnedTotal : Q;
  componentTotal : Q;
}.

(** [value || 0] on a reading. *)
Definition orZero (v : option Q) : Q :=
  match v with
  | Some q => if Qeq_bool q 0 then 0 else q
  | None => 0
  end.

(** ToNumber on a reading ([null] is 0). *)
Definition toNumber (v : option Q) : Q :=
  match v with Some q => q | None => 0 end.

(** [Number.isFinite(value) && value > 0]. *)
Definition finitePositive (v : option Q) : bool :=
  match v with Some q => Qltb 0 q | None => false end.

(** The comparator [(a, b) => b[1] - a[1]]. *)
Definition byValueDescending (a b : jstring * option Q) : comparison :=
  (toNumber (snd b) ?= toNumber (snd a))%Q.

(** [normalizeScrapedEntry]. *)
Definition normalizeScrapedEntry (entry : RawEntry) : ScrapedEntry :=
  let bmr := raw_bmr entry in
  let tef := raw_tef entry in
  let exercise := raw_exercise entry in
  let trackerActivity := raw_trackerActivity entry in
  let baseline := raw_baseline entry in
  let energyBurned := raw_energyBurned entry in
  let energyBalance := raw_energyBalance entry in
  let core :=
    [(u "bmr", bmr); (u "tef", tef); (u "exercise", exercise);
     (u "trackerActivity", trackerActivity)] in
  let missingComponents :=
    List.map fst
      (List.filter
         (fun kv => match snd kv with None => true | Some _ => false end)
         core) in
  let componentTotalCore :=
    fold_left (fun sum value => (sum + Qabs (orZero value))%Q)
      (List.map snd core) 0%Q in
  let componentTotalWithBaseline :=
    (componentTotalCore + Qabs (orZero baseline))%Q in
  let energyBurnedAbs := option_map Qabs energyBurned in
  let energyBalanceRaw := energyBalance in
  let energyBalanceAbs := option_map Qabs energyBalanceRaw in
  let balanceCandidate :=
    match energyBalanceRaw with
    | Some raw => if Qltb 0 raw then energyBalanceAbs else None
    | None => None
    end in
  let balanceCandidate :=
    match balanceCandidate with
    | Some balance =>
        if Qltb 0 componentTotalWithBaseline then
          let ratio := (balance / componentTotalWithBaseline)%Q in
          if Qltb ratio 0.7 || Qltb 1.8 ratio then None
          else balanceCandidate
        else balanceCandidate
    | None => None
    end in
  let burnCandidates :=
    [(u "energyBurned", energyBurnedAbs);
     (u "energyBalance", balanceCandidate);
     (u "componentTotalWithBaseline", Some componentTotalWithBaseline)] in
  let resolvedBurnedEntry :=
    head
      (sort byValueDescending
         (List.filter (fun kv => finitePositive (snd kv)) burnCandidates)) in
  {| date := if truthy (raw_date entry) then raw_date entry else VNull;
     components :=
       {| bmr := option_map Qabs bmr;
          tef := option_map Qabs tef;
          exercise := option_map Qabs exercise;
          trackerActivity := option_map Qabs trackerActivity;
          baseline := option_map Qabs baseline |};
     energyBurned := energyBurnedAbs;
     energyBalance := energyBalanceRaw;
     missingComponents := missingComponents;
     hasAllCoreComponents := (length missingComponents =? 0)%nat;
     componentTotalCore := componentTotalCore;
     componentTotalWithBaseline := componentTotalWithBaseline;
     burnCandidates := burnCandidates;
     resolvedBurnedSource := option_map fst resolvedBurnedEntry;
     resolvedBurnedTotal :=
       match resolvedBurnedEntry with
       | Some e => toNumber (snd e)
       | None => 0
       end;
     componentTotal := componentTotalWithBaseline |}.

(** *** The scrape driver *)

(** [a || b] on values. *)
Definition orElse (a b : value) : value := if truthy a then a else b.

(** [typeof v === "string" && v.trim() !== ""], giving [v.trim()]. *)
Definition nonBlank (v : value) : option jstring :=
  match v with
  | VString s => if strEqb (trim s) [] then None else Some (trim s)
  | _ => None
  end.

(** [getRequiredCredential]. *)
Definition getRequiredCredential {A : Type} (envKey credKey : jstring)
    (k : jstring → Prog A) : Prog A :=
  call (ReadEnv envKey) (fun envValue =>
  match nonBlank envValue with
  | Some s => k s
  | None =>
      call (GetCredential credKey) (fun fromStore =>
      match nonBlank fromStore with
      | Some s => k s
      | None => Throw (Error (MissingCredential envKey))
      end)
  end).

(** [onStatus?.(message)]. *)
Definition status {A : Type} (onStatus : bool) (message : jstring)
    (k : Prog A) : Prog A :=
  if onStatus then call (OnStatus message) (fun _ => k) else k.

(** [scrapeEnergySummaryForDates]; [onStatus] tells whether the caller
    passed the callback. *)
Definition scrapeEnergySummaryForDates (dates : list value) (onStatus : bool)
  : Prog (list ScrapedEntry) :=
  let normalizedDates := normalizeDates dates in
  if (length normalizedDates =? 0)%nat then Ret []
  else
    call LoadCredentialsModule (fun _ =>
    getRequiredCredential (u "CRONO_KERNEL_API_KEY") (u "kernel-api-key")
      (fun kernelApiKey =>
    getRequiredCredential (u "CRONO_CRONOMETER_EMAIL") (u "cronometer-username")
      (fun username =>
    getRequiredCredential (u "CRONO_CRONOMETER_PASSWORD")
      (u "cronometer-password") (fun password =>
    call (WriteEnv (u "KERNEL_API_KEY") kernelApiKey) (fun _ =>
    call LoadKernelClass (fun _ =>
    status onStatus (u "Creating Kernel browser session...") (
    call BrowsersCreate (fun session_id =>
    tryFinally
      (status onStatus (u "Logging into Cronometer...") (
       call (ExecuteLogin session_id username password 90) (fun loginResult =>
       let loginData :=
         match exec_result loginResult with
         | Some d => d
         | None =>
             {| login_loggedIn := VUndefined; login_error := VUndefined;
                login_loginError := VUndefined |}
         end in
       if negb (truthy (exec_success loginResult))
          || negb (truthy (login_loggedIn loginData))
       then
         Throw
           (Error
              (LoginFailed
                 (orElse (login_error loginData)
                    (orElse (login_loginError loginData)
                       (orElse (exec_error loginResult)
                          (VString (u "unknown")))))))
       else
         status onStatus (u "Scraping energy summary components...") (
         call (ExecuteScrape session_id normalizedDates 180)
           (fun scrapeResult =>
         if negb (truthy (exec_success scrapeResult))
         then Throw (Error (ScrapeAutomationFailed (exec_error scrapeResult)))
         else
           match exec_result scrapeResult with
           | None => Throw (Error (ScrapeFailed (VString (u "unknown"))))
           | Some data =>
               if negb (truthy (scrape_success data))
               then
                 Throw
                   (Error
                      (ScrapeFailed
                         (orElse (scrape_error data) (VString (u "unknown")))))
               else
                 let entries :=
                   match scrape_entries data with
                   | Some entries => entries
                   | None => []
                   end in
                 Ret (List.map normalizeScrapedEntry entries)
           end)))))
      (BrowsersDeleteByID session_id))))))))).

End EnergyScrape.

(** ** The HTTP server module: helpers of the summary routes *)

Module Server.

(** [parseNumber]. *)
Definition parseNumber (v : value) : option Q :=
  match v with
  | VNumber (Finite q) => Some q
  | VString s =>
      if strEqb (trim s) [] then None
      else match StringToNumber s with
           | Finite parsed => Some parsed
           | _ => None
           end
  | _ => None
  end.

(** [entry?.key] on a record. *)
Definition get (entry : Row) (key : jstring) : value :=
  default VUndefined (entry !! key).

Record Found : Type := { found_value : Q; found_key : jstring }.

(** [getNumericField]. *)
Fixpoint getNumericField (entry : Row) (keys : list jstring) : option Found :=
  match keys with
  | [] => None
  | key :: keys' =>
      match entry !! key with
      | Some v =>
          match parseNumber v with
          | Some value => Some {| found_value := value; found_key := key |}
          | None => getNumericField entry keys'
          end
      | None => getNumericField entry keys'
      end
  end.

Record InferredBurned : Type := { burned : Q; source : jstring }.

(** [inferBurnedCalories]. *)
Definition inferBurnedCalories (entry : Row) : option InferredBurned :=
  match
    getNumericField entry
      [u "Energy Burned (kcal)"; u "Calories Burned (kcal)";
       u "Expenditure (kcal)"; u "Total Burned (kcal)"; u "Burned (kcal)";
       u "TDEE (kcal)"; u "Total Energy Expenditure (kcal)"]
  with
  | Some directBurned =>
      Some {| burned := found_value directBurned;
              source := u "entry:" ++ found_key directBurned |}
  | None => None
  end.

Definition BURN_COMPONENT_KEYS : list (jstring * list jstring) :=
  [(u "bmr",
    [u "BMR (kcal)"; u "Basal Metabolic Rate (kcal)";
     u "Resting Metabolic Rate (kcal)"; u "RMR (kcal)"]);
   (u "tef",
    [u "TEF (kcal)"; u "Thermic Effect of Food (kcal)";
     u "Thermal Effect of Food (kcal)"]);
   (u "exercise",
    [u "Exercise (kcal)"; u "Exercises (kcal)"; u "Active Exercise (kcal)";
     u "Workout (kcal)"]);
   (u "trackerActivity",
    [u "Tracker Activity (kcal)"; u "Tracker Calories (kcal)";
     u "Daily Activity (kcal)"; u "Activity (kcal)"])].

Definition OPTIONAL_BURN_COMPONENT_KEYS : list (jstring * list jstring) :=
  [(u "baseline",
    [u "Baseline (kcal)"; u "Baseline Activity (kcal)"; u "Base (kcal)";
     u "Resting Expenditure (kcal)"])].

Record Component : Type := {
  value_ : Q;
  rawValue : Q;
  sourceKey : jstring;
}.

Record BurnedComponents : Type := {
  hasAny : bool;
  hasAll : bool;
  total : Q;
  rawTotal : Q;
  components : gmap jstring Component;
  missingComponents : list jstring;
  missingOptionalComponents : list jstring;
}.

(** One turn of either loop of [extractBurnedComponents]; [missing] is
    the list that loop pushes to. *)
Definition extractStep (entry : Row)
    (acc : gmap jstring Component * list jstring * Q * Q)
    (ck : jstring * list jstring)
  : gmap jstring Component * list jstring * Q * Q :=
  let '(components, missing, total, rawTotal) := acc in
  let '(component, keys) := ck in
  match getNumericField entry keys with
  | Some found =>
      let raw := found_value found in
      let abs := Qabs raw in
      (<[component :=
           {| value_ := abs; rawValue := raw; sourceKey := found_key found |}]>
         components,
       missing, (total + abs)%Q, (rawTotal + raw)%Q)
  | None => (components, missing ++ [component], total, rawTotal)
  end.

(** [extractBurnedComponents]. *)
Definition extractBurnedComponents (entry : Row) : BurnedComponents :=
  let '(components, missing, total, rawTotal) :=
    fold_left (extractStep entry) BURN_COMPONENT_KEYS (∅, [], 0%Q, 0%Q) in
  let '(components, missingOptional, total, rawTotal) :=
    fold_left (extractStep entry) OPTIONAL_BURN_COMPONENT_KEYS
      (components, [], total, rawTotal) in
  {| hasAny := negb (size components =? 0)%nat;
     hasAll := (length missing =? 0)%nat;
     total := total;
     rawTotal := rawTotal;
     components := components;
     missingComponents := missing;
     missingOptionalComponents := missingOptional |}.

(** [normalizeNutritionList], [normalizeExerciseList]. *)
Definition normalizeNutritionList (data : Json) : list Row :=
  match data with
  | JNothing => []
  | JArray rows => rows
  | JSingle row => [row]
  end.

Definition normalizeExerciseList (data : Json) : list Row :=
  match data with
  | JNothing => []
  | JArray rows => rows
  | JSingle row => [row]
  end.

(** [typeof v === "string" ? v : null], then the [!date] test. *)
Definition dateKey (v : value) : option jstring :=
  match v with
  | VString date => if strEqb date [] then None else Some date
  | _ => None
  end.

(** [mapEnergyScrapeByDate]. *)
Definition mapEnergyScrapeByDate (entries : list EnergyScrape.ScrapedEntry)
  : gmap jstring EnergyScrape.ScrapedEntry :=
  fold_left
    (fun map entry =>
       match dateKey (EnergyScrape.date entry) with
       | Some date => <[date := entry]> map
       | None => map
       end)
    entries ∅.

Record Aggregate : Type := {
  agg_burnedRawCalories : Q;
  agg_burnedCalories : Q;
  agg_entries : Z;
  agg_components : gmap jstring Q;
}.

(** [aggregateBurnedByDate]. *)
Definition aggregateBurnedByDate (exercises : list Row)
  : gmap jstring Aggregate :=
  fold_left
    (fun byDate entry =>
       match dateKey (get entry (u "date")) with
       | None => byDate
       | Some date =>
           let raw := default 0%Q (parseNumber (get entry (u "caloriesBurned"))) in
           let abs := Qabs raw in
           let existing :=
             default
               {| agg_burnedRawCalories := 0; agg_burnedCalories := 0;
                  agg_entries := 0; agg_components := ∅ |}
               (byDate !! date) in
           let component :=
             default (u "Unknown") (stringOr None (get entry (u "exercise"))) in
           <[date :=
               {| agg_burnedRawCalories := agg_burnedRawCalories existing + raw;
                  agg_burnedCalories := agg_burnedCalories existing + abs;
                  agg_entries := agg_entries existing + 1;
                  agg_components :=
                    <[component :=
                        (EnergyScrape.orZero (agg_components existing !! component)
                         + abs)%Q]>
                      (agg_components existing) |}]>
             byDate
       end)
    exercises ∅.

(** *** The weekly-average-deficit route *)

(** [burnedBreakdown], by the branch that filled it. *)
Inductive Breakdown : Type :=
| NoBreakdown
| ScrapeTotalBreakdown (components : EnergyScrape.Components)
    (energyBurned componentTotalCore componentTotalWithBaseline : Q)
| ScrapeBreakdown (components : EnergyScrape.Components)
| NutritionBreakdown (components : gmap jstring Component)
| InferredBreakdown (inferred : Q)
| ExerciseBreakdown (components : gmap jstring Q).

Record ReconciledDay : Type := {
  date : value;
  consumedCalories : Q;
  burnedCalories : Q;
  burnedRawCalories : Q;
  burnedSource : jstring;
  burnedBreakdown : Breakdown;
  missingBurnComponents : list jstring;
  netCalories : Q;
  status : jstring;
}.

(** [v || null]. *)
Definition orNull (v : value) : value := if truthy v then v else VNull.

(** [date ? map.get(date) : null]; the keys of the map are strings. *)
Definition getByDate {A : Type} (map : gmap jstring A) (date : value)
  : option A :=
  if truthy date then
    match date with VString d => map !! d | _ => None end
  else None.

(** The body of [completedEntries.map((entry) => ..)]: one day.  The
    chain of [if]s is kept in its order; the three tests on [scraped] are
    grouped under the case where the map has the date, since without an
    entry [scraped?.energyBurned] and [scraped?.hasAllCoreComponents] are
    undefined and [scrapedComponentTotal] is 0. *)
Definition reconcileDay
    (scrapedByDate : gmap jstring EnergyScrape.ScrapedEntry)
    (burnedByDate : gmap jstring Aggregate) (entry : Row) : ReconciledDay :=
  let date := orNull (get entry (u "date")) in
  let consumed := default 0%Q (parseNumber (get entry (u "calories"))) in
  let burnedAgg := getByDate burnedByDate date in
  let inferredBurned := inferBurnedCalories entry in
  let burnComponents := extractBurnedComponents entry in
  let scraped := getByDate scrapedByDate date in
  let allKeys := List.map fst BURN_COMPONENT_KEYS in
  let scrapedComponentTotal :=
    match scraped with
    | Some s => EnergyScrape.componentTotalWithBaseline s
    | None => 0%Q
    end in
  let afterScrape :=
    if hasAny burnComponents then
      (Some (total burnComponents), Some (rawTotal burnComponents),
       if hasAll burnComponents then u "nutrition_components_complete"
       else u "nutrition_components_partial",
       NutritionBreakdown (components burnComponents),
       missingComponents burnComponents)
    else
      match inferredBurned, burnedAgg with
      | Some inferred, _ =>
          (Some (burned inferred), Some (burned inferred), source inferred,
           InferredBreakdown (burned inferred), allKeys)
      | None, Some agg =>
          (Some (agg_burnedCalories agg), Some (agg_burnedRawCalories agg),
           u "exercise_export_abs", ExerciseBreakdown (agg_components agg),
           [u "bmr"; u "tef"])
      | None, None => (None, None, u "none", NoBreakdown, allKeys)
      end in
  let '(burned, burnedRaw, burnedSource, burnedBreakdown,
        missingBurnComponents) :=
    match scraped with
    | Some s =>
        match EnergyScrape.energyBurned s with
        | Some energyBurned =>
            (Some (Qabs energyBurned), Some energyBurned,
             u "scrape_energy_burned_total",
             ScrapeTotalBreakdown (EnergyScrape.components s) energyBurned
               (EnergyScrape.componentTotalCore s)
               (EnergyScrape.componentTotalWithBaseline s),
             EnergyScrape.missingComponents s)
        | None =>
            if EnergyScrape.hasAllCoreComponents s
               && Qltb 0 scrapedComponentTotal
            then
              (Some scrapedComponentTotal, Some scrapedComponentTotal,
               u "scrape_components_complete",
               ScrapeBreakdown (EnergyScrape.components s), [])
            else if Qltb 0 scrapedComponentTotal then
              (Some scrapedComponentTotal, Some scrapedComponentTotal,
               u "scrape_components_partial",
               ScrapeBreakdown (EnergyScrape.components s),
               EnergyScrape.missingComponents s)
            else afterScrape
        end
    | None => afterScrape
    end in
  let burnedFinal := default 0%Q burned in
  let burnedRawFinal := default 0%Q burnedRaw in
  let net := (consumed - burnedFinal)%Q in
  {| date := date;
     consumedCalories := consumed;
     burnedCalories := burnedFinal;
     burnedRawCalories := burnedRawFinal;
     burnedSource := burnedSource;
     burnedBreakdown := burnedBreakdown;
     missingBurnComponents := missingBurnComponents;
     netCalories := net;
     status :=
       if Qltb net 0 then u "deficit"
       else if Qltb 0 net then u "surplus" else u "at_target" |}.

(** [String(v || "").toLowerCase() === "true"].  The string of a number
    is made of digits, a sign, a dot and an exponent, or is [NaN] or
    [Infinity]: it never reads "true". *)
Definition readsTrue (v : value) : bool :=
  if truthy v then
    match v with
    | VBool b => b
    | VString s | VObject s => strEqb (toLowerCase s) (u "true")
    | _ => false
    end
  else false.

(** The filter that keeps the completed days other than today. *)
Definition isCompletedNotToday (todayLocal : jstring) (entry : Row) : bool :=
  let date := default [] (stringOr None (get entry (u "date"))) in
  let isCompleted := readsTrue (get entry (u "Completed")) in
  let notToday := negb (strEqb date todayLocal) in
  isCompleted && notToday.

(** The predicate of [needsExerciseFallback]. *)
Definition lacksBurnSource
    (scrapedByDate : gmap jstring EnergyScrape.ScrapedEntry) (entry : Row)
  : bool :=
  let date := get entry (u "date") in
  if negb (truthy date) then true
  else
    match match date with VString d => scrapedByDate !! d | _ => None end with
    | Some scraped =>
        if EnergyScrape.hasAllCoreComponents scraped
           || bool_decide (EnergyScrape.energyBurned scraped ≠ None)
           || Qltb 0 (EnergyScrape.componentTotal scraped)
        then false
        else
          negb (hasAny (extractBurnedComponents entry))
          && negb (bool_decide (is_Some (inferBurnedCalories entry)))
    | None =>
        negb (hasAny (extractBurnedComponents entry))
        && negb (bool_decide (is_Some (inferBurnedCalories entry)))
    end.

Record Totals : Type := {
  totalConsumedCalories : Q;
  totalBurnedCalories : Q;
  totalBurnedRawCalories : Q;
  totalNetCalories : Q;
}.

Record Diagnostics : Type := {
  dataQuality : jstring;
  daysWithCompleteComponents : nat;
  daysWithPartialComponents : nat;
  daysUsingFallback : nat;
  missingComponentCounts : gmap jstring Z;
  burnSourceCounts : gmap jstring Z;
  scrapeAttempted : bool;
  scrapeDaysRequested : nat;
  scrapeDaysReturned : nat;
  scrapeError : option Message;
  scrapePreview : list EnergyScrape.ScrapedEntry;
  exercisesFallbackAttempted : bool;
  exercisesFallbackError : option Message;
  fallbackReason : option jstring;
}.

(** The body of the response; its constant fields ([completedOnly],
    [formula], [notes]) and [burnRelatedNutritionKeys] are left out. *)
Record Summary : Type := {
  range : jstring;
  trailingWindowExcludingToday : option (jstring * jstring);
  daysRequested : Z;
  daysUsed : nat;
  totals : Totals;
  averageNetCaloriesPerDay : Q;
  averageDeficitPerDay : Q;
  averageSurplusPerDay : Q;
  averageStatus : jstring;
  diagnostics : Diagnostics;
  perDay : list ReconciledDay;
}.

(** What the route knows when it starts folding the days. *)
Record Context : Type := {
  ctx_rangeSpec : jstring;
  ctx_explicitRange : option jstring;
  ctx_trailing : jstring * jstring;
  ctx_days : Z;
  ctx_completedDates : list jstring;
  ctx_scrapedEntries : list EnergyScrape.ScrapedEntry;
  ctx_scrapeError : option Message;
  ctx_needsExerciseFallback : bool;
  ctx_exercisesError : option Message;
}.

Definition completeBurnSources : list jstring :=
  [u "scrape_components_complete"; u "scrape_energy_burned_total";
   u "nutrition_components_complete"].

Definition partialBurnSources : list jstring :=
  [u "scrape_components_partial"; u "nutrition_components_partial"].

Definition has (set : list jstring) (x : jstring) : bool :=
  bool_decide (x ∈ set).

(** [perDay.reduce((sum, d) => sum + d.field, 0)]. *)
Definition sumOf (field : ReconciledDay → Q) (perDay : list ReconciledDay) : Q :=
  fold_left (fun sum d => (sum + field d)%Q) perDay 0%Q.

(** [counts[key] = (counts[key] || 0) + 1]. *)
Definition bump (key : jstring) (counts : gmap jstring Z) : gmap jstring Z :=
  <[key := (default 0 (counts !! key) + 1)%Z]> counts.

(** The range aggregation: from the check for days without a burn
    source to the response. *)
Definition aggregate (ctx : Context) (perDay : list ReconciledDay)
  : Exn + Summary :=
  let daysWithoutBurnSource :=
    List.filter truthy
      (List.map date
         (List.filter (fun day => strEqb (burnedSource day) (u "none"))
            perDay)) in
  if (0 <? length daysWithoutBurnSource)%nat then
    inl
      (HttpError 503
         (Text
            (u "Unable to determine burned calories for one or more completed days."))
         (Some
            {| extra_range := ctx_rangeSpec ctx;
               daysWithoutBurnSource := daysWithoutBurnSource;
               extra_scrapeError := ctx_scrapeError ctx;
               Collab.exercisesFallbackError := ctx_exercisesError ctx |}))
  else
    let daysUsed := length perDay in
    let consumedTotal := sumOf consumedCalories perDay in
    let burnedTotal := sumOf burnedCalories perDay in
    let burnedRawTotal := sumOf burnedRawCalories perDay in
    let netTotal := (consumedTotal - burnedTotal)%Q in
    let averagePerDay :=
      if (daysUsed =? 0)%nat then 0%Q
      else (netTotal / inject_Z (Z.of_nat daysUsed))%Q in
    let averageDeficitPerDay :=
      if Qltb averagePerDay 0 then Qabs averagePerDay else 0%Q in
    let averageSurplusPerDay :=
      if Qltb 0 averagePerDay then averagePerDay else 0%Q in
    let daysWithCompleteComponents :=
      length
        (List.filter (fun d => has completeBurnSources (burnedSource d)) perDay) in
    let daysWithPartialComponents :=
      length
        (List.filter (fun d => has partialBurnSources (burnedSource d)) perDay) in
    let daysUsingFallback :=
      length
        (List.filter
           (fun d => negb (has completeBurnSources (burnedSource d))
                     && negb (has partialBurnSources (burnedSource d)))
           perDay) in
    let missingComponentCounts :=
      fold_left
        (fun counts day =>
           fold_left
             (fun counts component =>
                match counts !! component with
                | Some n => <[component := (n + 1)%Z]> counts
                | None => counts
                end)
             (missingBurnComponents day) counts)
        perDay
        (list_to_map
           [(u "bmr", 0%Z); (u "tef", 0%Z); (u "exercise", 0%Z);
            (u "trackerActivity", 0%Z)]) in
    let dataQuality :=
      if (daysWithCompleteComponents =? daysUsed)%nat && (0 <? daysUsed)%nat
      then u "component_complete"
      else if (0 <? daysWithPartialComponents)%nat
              || (0 <? daysUsingFallback)%nat
      then u "component_incomplete"
      else u "no_completed_days" in
    let burnSourceCounts :=
      fold_left (fun counts day => bump (burnedSource day) counts) perDay ∅ in
    inr
      {| range := ctx_rangeSpec ctx;
         trailingWindowExcludingToday :=
           match ctx_explicitRange ctx with
           | None => Some (ctx_trailing ctx)
           | Some _ => None
           end;
         daysRequested := ctx_days ctx;
         daysUsed := daysUsed;
         totals :=
           {| totalConsumedCalories := consumedTotal;
              totalBurnedCalories := burnedTotal;
              totalBurnedRawCalories := burnedRawTotal;
              totalNetCalories := netTotal |};
         averageNetCaloriesPerDay := averagePerDay;
         averageDeficitPerDay := averageDeficitPerDay;
         averageSurplusPerDay := averageSurplusPerDay;
         averageStatus :=
           if Qltb averagePerDay 0 then u "deficit"
           else if Qltb 0 averagePerDay then u "surplus" else u "at_target";
         diagnostics :=
           {| dataQuality := dataQuality;
              daysWithCompleteComponents := daysWithCompleteComponents;
              daysWithPartialComponents := daysWithPartialComponents;
              daysUsingFallback := daysUsingFallback;
              missingComponentCounts := missingComponentCounts;
              burnSourceCounts := burnSourceCounts;
              scrapeAttempted := (0 <? length (ctx_completedDates ctx))%nat;
              scrapeDaysRequested := length (ctx_completedDates ctx);
              scrapeDaysReturned := length (ctx_scrapedEntries ctx);
              scrapeError := ctx_scrapeError ctx;
              scrapePreview := ctx_scrapedEntries ctx;
              exercisesFallbackAttempted := ctx_needsExerciseFallback ctx;
              exercisesFallbackError := ctx_exercisesError ctx;
              fallbackReason :=
                if strEqb dataQuality (u "component_incomplete")
                then
                  Some
                    (u "Missing complete burn components in scrape/export for one or more completed days.")
                else None |};
         perDay := perDay |}.

Record Query : Type := { query_days : value; query_range : value }.

(** [Math.trunc]. *)
Definition trunc (q : Q) : Z := Z.quot (Qnum q) (Z.pos (Qden q)).

(** The handler of [GET /api/v1/summary/weekly-average-deficit]. *)
Definition weeklyAverageDeficit (query : Query) : Prog Summary :=
  let daysRaw := parseNumber (query_days query) in
  let days := match daysRaw with None => 7%Z | Some d => trunc d end in
  if (days <=? 0)%Z || (365 <? days)%Z then
    Throw (HttpError 400 (Text (u "days must be between 1 and 365")) None)
  else
    let explicitRange := EnergyScrape.nonBlank (query_range query) in
    call (TrailingRange days) (fun trailing =>
    let rangeSpec :=
      default (fst trailing ++ u ":" ++ snd trailing) explicitRange in
    call TodayLocal (fun todayLocal =>
    call (ExportJson (u "nutrition") rangeSpec) (fun nutritionRaw =>
    let nutritionEntries := normalizeNutritionList nutritionRaw in
    let completedEntries :=
      List.filter (isCompletedNotToday todayLocal) nutritionEntries in
    let completedDates :=
      omap (fun entry => dateKey (get entry (u "date"))) completedEntries in
    tryCatch
      (if (0 <? length completedDates)%nat
       then
         EnergyScrape.scrapeEnergySummaryForDates
           (List.map VString completedDates) false
       else Ret [])
      (fun scrapeOutcome =>
    let scrapeError :=
      match scrapeOutcome with inl e => Some (messageOf e) | inr _ => None end in
    let scrapedEntries :=
      match scrapeOutcome with inl _ => [] | inr entries => entries end in
    let scrapedByDate := mapEnergyScrapeByDate scrapedEntries in
    let needsExerciseFallback :=
      existsb (lacksBurnSource scrapedByDate) completedEntries in
    tryCatch
      (if needsExerciseFallback
       then
         call (ExportJson (u "exercises") rangeSpec) (fun exercisesRetried =>
         Ret (aggregateBurnedByDate (normalizeExerciseList exercisesRetried)))
       else Ret ∅)
      (fun exercisesOutcome =>
    let exercisesError :=
      match exercisesOutcome with
      | inl e => Some (messageOf e)
      | inr _ => None
      end in
    let burnedByDate :=
      match exercisesOutcome with inl _ => ∅ | inr byDate => byDate end in
    let perDay :=
      List.map (reconcileDay scrapedByDate burnedByDate) completedEntries in
    match
      aggregate
        {| ctx_rangeSpec := rangeSpec;
           ctx_explicitRange := explicitRange;
           ctx_trailing := trailing;
           ctx_days := days;
           ctx_completedDates := completedDates;
           ctx_scrapedEntries := scrapedEntries;
           ctx_scrapeError := scrapeError;
           ctx_needsExerciseFallback := needsExerciseFallback;
           ctx_exercisesError := exercisesError |}
        perDay
    with
    | inl e => Throw e
    | inr summary => Ret summary
    end))))).

End Server.

(** ** Vocabulary of the statements *)

Import Server.

(** Code units a numeric literal can be made of: letters, digits, the
    two signs and the dot. *)
Definition literalUnit (c : N) : bool :=
  ((48 <=? c) && (c <=? 57) || (65 <=? c) && (c <=? 90)
   || (97 <=? c) && (c <=? 122) || (c =? 43) || (c =? 45) || (c =? 46))%N.

(** A thousands separator or one of the three Unicode dashes. *)
Definition separatorOrDash (c : N) : Prop :=
  c = 44%N ∨ c = 8722%N ∨ c = 8211%N ∨ c = 8212%N.

(** The text [−1,234.5], its first unit being U+2212. *)
Definition unicodeMinusText : jstring := 8722%N :: u "1,234.5".

(** The same text written with an ASCII minus and no separator. *)
Definition asciiMinusText : jstring := u "-1234.5".

(** An export record whose only field is a burned total holding the
    text [−1,234.5]. *)
Definition unicodeMinusRecord : Row :=
  {[ u "Energy Burned (kcal)" := VString unicodeMinusText ]}.

(** The four core components, by the names both extractors use. *)
Definition coreComponents : list jstring :=
  [u "bmr"; u "tef"; u "exercise"; u "trackerActivity"].

(** [burnCandidates[name]] of a normalized entry. *)
Definition candidate (name : jstring) (normal : EnergyScrape.ScrapedEntry)
  : option Q :=
  match
    List.find (λ kv, strEqb (fst kv) name) (EnergyScrape.burnCandidates normal)
  with
  | Some kv => snd kv
  | None => None
  end.

(** A scraped day whose components add up to 2000 and whose balance
    reads 4500. *)
Definition implausibleBalanceEntry : RawEntry :=
  {| raw_date := VString (u "2024-03-01");
     raw_bmr := Some 1500%Q;
     raw_tef := Some 200%Q;
     raw_exercise := None;
     raw_trackerActivity := Some 300%Q;
     raw_baseline := None;
     raw_energyBurned := None;
     raw_energyBalance := Some 4500%Q |}.

(** A scraped day with a negative total of 1900 on the page, components
    adding up to 2000 and a balance of 1500; and one with no reading. *)
Definition threeCandidatesEntry : RawEntry :=
  {| raw_date := VString (u "2024-03-02");
     raw_bmr := Some 1500%Q;
     raw_tef := Some (-200)%Q;
     raw_exercise := None;
     raw_trackerActivity := Some 300%Q;
     raw_baseline := None;
     raw_energyBurned := Some (-1900)%Q;
     raw_energyBalance := Some 1500%Q |}.

Definition emptyEntry : RawEntry :=
  {| raw_date := VString (u "2024-03-03");
     raw_bmr := None;
     raw_tef := None;
     raw_exercise := None;
     raw_trackerActivity := None;
     raw_baseline := None;
     raw_energyBurned := None;
     raw_energyBalance := None |}.

(** The tiers of the selection, in their order, as the specification
    lists them: each gives its tag and its figure when it applies. *)
Definition tiers (scraped : option EnergyScrape.ScrapedEntry)
    (export : BurnedComponents) (inferred : option InferredBurned)
    (exercise : option Aggregate) : list (option (jstring * Q)) :=
  [ (* 1: the scraped entry reports a direct burned figure *)
    match scraped with
    | Some s =>
        match EnergyScrape.energyBurned s with
        | Some direct => Some (u "scrape_energy_burned_total", Qabs direct)
        | None => None
        end
    | None => None
    end;
    (* 2: all four core components, and a positive component total *)
    match scraped with
    | Some s =>
        if EnergyScrape.hasAllCoreComponents s
           && Qltb 0 (EnergyScrape.componentTotalWithBaseline s)
        then Some (u "scrape_components_complete",
                   EnergyScrape.componentTotalWithBaseline s)
        else None
    | None => None
    end;
    (* 3: a positive component total, some core component missing *)
    match scraped with
    | Some s =>
        if negb (EnergyScrape.hasAllCoreComponents s)
           && Qltb 0 (EnergyScrape.componentTotalWithBaseline s)
        then Some (u "scrape_components_partial",
                   EnergyScrape.componentTotalWithBaseline s)
        else None
    | None => None
    end;
    (* 4: the export record has burn components *)
    if hasAny export
    then Some (if hasAll export then u "nutrition_components_complete"
               else u "nutrition_components_partial",
               total export)
    else None;
    (* 5: the export's inferred burned field, under its own label *)
    match inferred with
    | Some i => Some (source i, burned i)
    | None => None
    end;
    (* 6: the exercise-log aggregate *)
    match exercise with
    | Some agg => Some (u "exercise_export_abs", agg_burnedCalories agg)
    | None => None
    end ].

(** The first tier that applies, or [none] with no figure (reported 0). *)
Fixpoint firstApplicable (l : list (option (jstring * Q))) : jstring * Q :=
  match l with
  | Some choice :: _ => choice
  | None :: l' => firstApplicable l'
  | [] => (u "none", 0%Q)
  end.

(** A completed day whose export record carries the four core
    components, adding up to 480, and the page scraped for it, showing a
    burned total of 500. *)
Definition bothSourcesRecord : Row :=
  list_to_map
    [(u "date", VString (u "2024-03-04"));
     (u "Completed", VString (u "true"));
     (u "calories", VNumber (Finite 2200));
     (u "BMR (kcal)", VNumber (Finite 300));
     (u "TEF (kcal)", VNumber (Finite 60));
     (u "Exercise (kcal)", VNumber (Finite 70));
     (u "Tracker Activity (kcal)", VNumber (Finite 50))].

Definition bothSourcesScrape : RawEntry :=
  {| raw_date := VString (u "2024-03-04");
     raw_bmr := None;
     raw_tef := None;
     raw_exercise := None;
     raw_trackerActivity := None;
     raw_baseline := None;
     raw_energyBurned := Some 500%Q;
     raw_energyBalance := None |}.

(** The exercise-log rows logged on a date, the calories of a row (0
    when the field does not parse) and the sum of a list of numbers. *)
Definition rowsOn (date : jstring) (exercises : list Row) : list Row :=
  List.filter
    (λ row, bool_decide (dateKey (get row (u "date")) = Some date))
    exercises.

Definition caloriesOf (row : Row) : Q :=
  default 0%Q (parseNumber (get row (u "caloriesBurned"))).

Definition Qsum (l : list Q) : Q := fold_right Qplus 0%Q l.






(** A world in which the export command answers with the given data,
    today is 2024-03-10, and every other collaborator is unavailable. *)
Definition exportOnlyWorld (nutrition exercises : Json)
  : ∀ X, Cmd X → unit → (Exn + X) * unit :=
  λ X c w,
    match c in Cmd X return (Exn + X) * unit with
    | TodayLocal => (inr (u "2024-03-10"), w)
    | TrailingRange _ => (inr (u "2024-03-03", u "2024-03-09"), w)
    | ExportJson kind _ =>
        (inr (if strEqb kind (u "nutrition") then nutrition else exercises), w)
    | _ => (inl (Error (Text (u "unavailable"))), w)
    end.

(** The query [?days=7]. *)
Definition sevenDays : Query :=
  {| query_days := VString (u "7"); query_range := VUndefined |}.

(** A completed record without a date and without any burn field. *)
Definition undatedRecord : Row :=
  list_to_map
    [(u "Completed", VString (u "true"));
     (u "calories", VNumber (Finite 2000))].

(** A completed day with no burn field in the export, and the page
    scraped for it, whose Energy Burned reads -500. *)
Definition plainRecord : Row :=
  list_to_map
    [(u "date", VString (u "2024-03-07"));
     (u "Completed", VString (u "true"));
     (u "calories", VNumber (Finite 2100))].

Definition negativeTotalScrape : RawEntry :=
  {| raw_date := VString (u "2024-03-07");
     raw_bmr := None;
     raw_tef := None;
     raw_exercise := None;
     raw_trackerActivity := None;
     raw_baseline := None;
     raw_energyBurned := Some (-500)%Q;
     raw_energyBalance := None |}.

(** A completed day whose export record carries a negative burned total
    and nothing else about expenditure. *)
Definition negativeInferredRecord : Row :=
  list_to_map
    [(u "date", VString (u "2024-03-08"));
     (u "Completed", VString (u "true"));
     (u "calories", VNumber (Finite 2100));
     (u "Energy Burned (kcal)", VNumber (Finite (-2500)))].

(** The page scraped for the day of [plainRecord], its Energy Burned
    reading 0. *)
Definition zeroTotalScrape : RawEntry :=
  {| raw_date := VString (u "2024-03-07");
     raw_bmr := Some 1500%Q;
     raw_tef := None;
     raw_exercise := None;
     raw_trackerActivity := None;
     raw_baseline := None;
     raw_energyBurned := Some 0%Q;
     raw_energyBalance := None |}.

(** A context of the aggregation, for the trailing week before
    2024-03-10. *)
Definition sampleContext : Context :=
  {| ctx_rangeSpec := u "2024-03-03:2024-03-09";
     ctx_explicitRange := None;
     ctx_trailing := (u "2024-03-03", u "2024-03-09");
     ctx_days := 7;
     ctx_completedDates := [u "2024-03-07"];
     ctx_scrapedEntries := [];
     ctx_scrapeError := None;
     ctx_needsExerciseFallback := false;
     ctx_exercisesError := None |}.

(** The calendar reading of a date text: year, month and day as one
    number, [yyyymmdd]. *)
Definition digitValue (c : N) : N := (c - 48)%N.

Definition dateOrdinal (s : jstring) : N :=
  match s with
  | [y1; y2; y3; y4; _; m1; m2; _; d1; d2] =>
      (digitValue y1 * 10000000 + digitValue y2 * 1000000
       + digitValue y3 * 100000 + digitValue y4 * 10000
       + digitValue m1 * 1000 + digitValue m2 * 100
       + digitValue d1 * 10 + digitValue d2)%N
  | _ => 0%N
  end.

(** A request for dates, some of them unusable. *)
Definition requestedDates : list value :=
  [VString (u " 2024-01-02 "); VNull; VString (u "2024-01-05");
   VString (u "2024-01-02"); VString (u "2024-1-05"); VNumber (Finite 20240107);
   VString (u "2023-12-31"); VString (u "yesterday")].

(** A world in which everything works: the credentials are in the
    environment, the login succeeds, the page of each requested date is
    read by [page], the export command answers with the given data and
    today is 2024-03-10. *)
Definition workingWorld (nutrition exercises : Json) (page : jstring → RawEntry)
  : ∀ X, Cmd X → unit → (Exn + X) * unit :=
  λ X c w,
    match c in Cmd X return (Exn + X) * unit with
    | ReadEnv _ => (inr (VString (u "configured")), w)
    | WriteEnv _ _ => (inr tt, w)
    | LoadCredentialsModule => (inr tt, w)
    | GetCredential _ => (inr VUndefined, w)
    | LoadKernelClass => (inr tt, w)
    | OnStatus _ => (inr tt, w)
    | BrowsersCreate => (inr (u "session-1"), w)
    | ExecuteLogin _ _ _ _ =>
        (inr {| exec_success := VBool true;
                exec_result :=
                  Some {| login_loggedIn := VBool true;
                          login_error := VUndefined;
                          login_loginError := VNull |};
                exec_error := VUndefined |}, w)
    | ExecuteScrape _ dates _ =>
        (inr {| exec_success := VBool true;
                exec_result :=
                  Some {| scrape_success := VBool true;
                          scrape_error := VUndefined;
                          scrape_entries := Some (List.map page dates) |};
                exec_error := VUndefined |}, w)
    | BrowsersDeleteByID _ => (inr tt, w)
    | TodayLocal => (inr (u "2024-03-10"), w)
    | TrailingRange _ => (inr (u "2024-03-03", u "2024-03-09"), w)
    | ExportJson kind _ =>
        (inr (if strEqb kind (u "nutrition") then nutrition else exercises), w)
    end.

(** Three completed days, consuming 2200, 2000 and 2100, and the pages
    scraped for them, showing burned totals of 2500, 1800 and 2100. *)
Definition threeDays : list Row :=
  [list_to_map
     [(u "date", VString (u "2024-03-07")); (u "Completed", VString (u "true"));
      (u "calories", VNumber (Finite 2200))];
   list_to_map
     [(u "date", VString (u "2024-03-08")); (u "Completed", VString (u "true"));
      (u "calories", VNumber (Finite 2000))];
   list_to_map
     [(u "date", VString (u "2024-03-09")); (u "Completed", VBool true);
      (u "calories", VString (u "2100"))];
   list_to_map
     [(u "date", VString (u "2024-03-10")); (u "Completed", VString (u "true"));
      (u "calories", VNumber (Finite 900))];
   list_to_map
     [(u "date", VString (u "2024-03-06")); (u "Completed", VString (u "false"));
      (u "calories", VNumber (Finite 1200))]].

Definition threePages (date : jstring) : RawEntry :=
  {| raw_date := VString date;
     raw_bmr := None;
     raw_tef := None;
     raw_exercise := None;
     raw_trackerActivity := None;
     raw_baseline := None;
     raw_energyBurned :=
       if strEqb date (u "2024-03-07") then Some 2500%Q
       else if strEqb date (u "2024-03-08") then Some 1800%Q
       else Some 2100%Q;
     raw_energyBalance := None |}.

(** ** The HTTP server module: the calorie-balance summary *)

Module Balance.

Record InferredTarget : Type := { target : Q; source : jstring }.

(** The two lists of column names [inferTargetCalories] looks up. *)
Definition targetKeys : list jstring :=
  [u "Energy Target (kcal)"; u "Calorie Target (kcal)"; u "Calories Target";
   u "Target Calories"; u "Energy Budget (kcal)"].

Definition remainingKeys : list jstring :=
  [u "Energy Remaining (kcal)"; u "Calories Remaining";
   u "Remaining Calories"].

(** [inferTargetCalories]. *)
Definition inferTargetCalories (entry : Row) : option InferredTarget :=
  match getNumericField entry targetKeys with
  | Some directTarget =>
      Some {| target := found_value directTarget;
              source := u "entry:" ++ found_key directTarget |}
  | None =>
      let remaining := getNumericField entry remainingKeys in
      let intake := parseNumber (get entry (u "calories")) in
      match remaining, intake with
      | Some remaining, Some intake =>
          Some {| target := intake + found_value remaining;
                  source := u "derived:calories+" ++ found_key remaining |}
      | _, _ => None
      end
  end.

Record Day : Type := {
  date : value;
  calories : option Q;
  targetCalories : option Q;
  netCalories : option Q;
  status : jstring;
  targetSource : jstring;
}.

(** The body of the loop of [computeCalorieBalance]: one day.  The
    [source] of an inferred target is never empty, so that
    [inferred?.source || "none"] is ["none"] only without one. *)
Definition balanceDay (explicitTarget : option Q) (entry : Row) : Day :=
  let intake := parseNumber (get entry (u "calories")) in
  let inferred := inferTargetCalories entry in
  let target :=
    match explicitTarget with
    | Some explicit => Some explicit
    | None => option_map target inferred
    end in
  let delta :=
    match intake, target with
    | Some intake, Some target => Some (intake - target)%Q
    | _, _ => None
    end in
  {| date := orNull (get entry (u "date"));
     calories := intake;
     targetCalories := target;
     netCalories := delta;
     status :=
       match delta with
       | None => u "unknown"
       | Some delta =>
           if Qltb 0 delta then u "surplus"
           else if Qltb delta 0 then u "deficit" else u "at_target"
       end;
     targetSource :=
       match explicitTarget with
       | Some _ => u "explicit"
       | None =>
           match inferred with
           | Some inferred => source inferred
           | None => u "none"
           end
       end |}.

Record Balance : Type := {
  days : nat;
  daysWithTarget : nat;
  totalNetCalories : Q;
  totalDeficitCalories : Q;
  totalSurplusCalories : Q;
  trend : jstring;
  perDay : list Day;
}.

(** [d.netCalories] where a number is expected ([null] is 0). *)
Definition net (d : Day) : Q := EnergyScrape.toNumber (netCalories d).

(** [computeCalorieBalance]; [explicitTarget] is a number or [null]. *)
Definition computeCalorieBalance (entries : list Row)
    (explicitTarget : option Q) : Balance :=
  let perDay := List.map (balanceDay explicitTarget) entries in
  let complete :=
    List.filter (fun d => bool_decide (netCalories d ≠ None)) perDay in
  let totalNet := fold_left (fun sum d => (sum + net d)%Q) complete 0%Q in
  let totalDeficit :=
    fold_left (fun sum d => (sum + Qabs (net d))%Q)
      (List.filter (fun d => Qltb (net d) 0) complete) 0%Q in
  let totalSurplus :=
    fold_left (fun sum d => (sum + net d)%Q)
      (List.filter (fun d => Qltb 0 (net d)) complete) 0%Q in
  {| days := length perDay;
     daysWithTarget := length complete;
     totalNetCalories := totalNet;
     totalDeficitCalories := totalDeficit;
     totalSurplusCalories := totalSurplus;
     trend :=
       if Qltb 0 totalNet then u "surplus"
       else if Qltb totalNet 0 then u "deficit" else u "at_target";
     perDay := perDay |}.

End Balance.

(** ** The HTTP server module: retrying the export command *)

Module Cli.

(** [String.prototype.startsWith] and [String.prototype.includes]. *)
Fixpoint startsWith (s search : jstring) : bool :=
  match search, s with
  | [], _ => true
  | _ :: _, [] => false
  | p :: search', c :: s' => (c =? p)%N && startsWith s' search'
  end.

Fixpoint includes (s search : jstring) : bool :=
  startsWith s search
  || match s with
     | [] => false
     | _ :: s' => includes s' search
     end.

(** What [isRateLimitError] reads of an error: its [message] and, of
    its [extra], [stdout] and [stderr], each a string or absent. *)
Record CliError : Type := {
  message : option jstring;
  stdout : option jstring;
  stderr : option jstring;
}.

(** [String(x || "")] on a string or [undefined]. *)
Definition orEmpty (x : option jstring) : jstring := default [] x.

(** [isRateLimitError], on an error that is not falsy.  [toLowerCase]
    lowers the letters A-Z; no other character lowercases to a letter of
    the pattern followed by the next one (U+0130 gives an [i] followed
    by U+0307). *)
Definition isRateLimitError (error : CliError) : bool :=
  let stdout := orEmpty (stdout error) in
  let stderr := orEmpty (stderr error) in
  let message := orEmpty (message error) in
  let combined :=
    toLowerCase (stdout ++ [10%N] ++ stderr ++ [10%N] ++ message) in
  includes combined (u "rate limit").

Section Retry.
Context {W : Type}.
(** [runCronoJson(args)] and [sleep(ms)], on the state of the outside. *)
Variable runCronoJson : list jstring → W → (CliError + Json) * W.
Variable sleep : Z → W → W.

(** The loop of [runCronoJsonWithRetry], [remaining] being
    [attempts - i]; the result is the value returned or the value
    thrown, [lastError] being [null] before the first failure. *)
Fixpoint retryLoop (args : list jstring) (delayMs : Z) (remaining : nat)
    (lastError : option CliError) (w : W) : (option CliError + Json) * W :=
  match remaining with
  | O => (inl lastError, w)
  | S remaining' =>
      match runCronoJson args w with
      | (inr json, w') => (inr json, w')
      | (inl error, w') =>
          if isRateLimitError error && (0 <? remaining')%nat
          then retryLoop args delayMs remaining' (Some error) (sleep delayMs w')
          else (inl (Some error), w')
      end
  end.

(** [runCronoJsonWithRetry(args, { attempts, delayMs })], for a whole
    number of attempts. *)
Definition runCronoJsonWithRetry (args : list jstring) (attempts : nat)
    (delayMs : Z) (w : W) : (option CliError + Json) * W :=
  retryLoop args delayMs attempts None w.
End Retry.

End Cli.

(** ** The HTTP server module: the API key *)

Module Auth.

(** [API_KEY] and [ALLOW_NO_API_KEY], read from two variables of the
    environment, each a string or absent. *)
Record Config : Type := {
  API_KEY : jstring;
  ALLOW_NO_API_KEY : bool;
}.

Definition configOf (CRONO_API_KEY CRONO_ALLOW_NO_API_KEY : option jstring)
  : Config :=
  {| API_KEY := default [] CRONO_API_KEY;
     ALLOW_NO_API_KEY :=
       let flag :=
         match CRONO_ALLOW_NO_API_KEY with
         | Some flag => if strEqb flag [] then u "false" else flag
         | None => u "false"
         end in
       strEqb (trim (toLowerCase flag)) (u "true") |}.

Definition REQUIRE_API_KEY (config : Config) : bool :=
  negb (ALLOW_NO_API_KEY config) && (0 <? length (API_KEY config))%nat.

(** The two headers [pickApiKey] reads with [req.get], each a string or
    absent. *)
Record Request : Type := {
  x_api_key : option jstring;
  authorization : option jstring;
}.

(** [pickApiKey]. *)
Definition pickApiKey (req : Request) : jstring :=
  let fromAuthorization :=
    match authorization req with
    | Some auth =>
        if negb (strEqb auth [])
           && Cli.startsWith (toLowerCase auth) (u "bearer ")
        then trim (drop 7 auth)
        else []
    | None => []
    end in
  match x_api_key req with
  | Some apiKeyHeader =>
      if strEqb apiKeyHeader [] then fromAuthorization
      else trim apiKeyHeader
  | None => fromAuthorization
  end.

(** [apiKeyMiddleware]: the error handed to [next], if any. *)
Definition apiKeyMiddleware (config : Config) (req : Request) : option Exn :=
  if negb (REQUIRE_API_KEY config) then None
  else
    let provided := pickApiKey req in
    if negb (strEqb provided (API_KEY config)) then
      Some
        (HttpError 401
           (Text
              (u "Unauthorized. Provide x-api-key or Authorization: Bearer <key>."))
           None)
    else None.

End Auth.

(** ** The credentials synchronisation ([credentials-sync.js]) *)

Module CredentialsSync.

Definition DEFAULT_CREDENTIALS_MODULE : jstring :=
  u "/app/runtime/node_modules/@milldr/crono/dist/credentials.js".

(** What [syncCredentials] can throw: its two errors, or whatever the
    outside raised. *)
Inductive Failure : Type :=
| MissingRequired (name : jstring)
| InvalidModule (path : jstring)
| Raised (what : jstring).

(** What it asks of the outside: the import of the credentials module
    at a path (answered by whether its [setCredential] is a function),
    a call of [setCredential], and the assignment of a variable of
    [process.env]. *)
Inductive Op : Type :=
| Import (path : jstring)
| SetCredential (key value : jstring)
| SetEnv (key value : jstring).

Inductive Sync (A : Type) : Type :=
| Done (a : A)
| Fail (e : Failure)
| Step (op : Op) (k : bool → Sync A).
Arguments Done {A}.
Arguments Fail {A}.
Arguments Step {A}.

(** [required], on a variable of the environment: a string or absent. *)
Definition required (name : jstring) (value : option jstring)
  : Failure + jstring :=
  match value with
  | Some value =>
      if strEqb value [] || strEqb (trim value) [] then
        inl (MissingRequired name)
      else inr (trim value)
  | None => inl (MissingRequired name)
  end.

(** [syncCredentials(raw)], [raw] mapping names to strings as
    [process.env] does. *)
Definition syncCredentials (raw : gmap jstring jstring) : Sync (list jstring) :=
  match required (u "CRONO_KERNEL_API_KEY") (raw !! u "CRONO_KERNEL_API_KEY") with
  | inl e => Fail e
  | inr kernelApiKey =>
  match
    required (u "CRONO_CRONOMETER_EMAIL") (raw !! u "CRONO_CRONOMETER_EMAIL")
  with
  | inl e => Fail e
  | inr email =>
  match
    required (u "CRONO_CRONOMETER_PASSWORD")
      (raw !! u "CRONO_CRONOMETER_PASSWORD")
  with
  | inl e => Fail e
  | inr password =>
      let credentialsModulePath :=
        match raw !! u "CRONO_CREDENTIALS_MODULE" with
        | Some path =>
            if strEqb path [] then DEFAULT_CREDENTIALS_MODULE else path
        | None => DEFAULT_CREDENTIALS_MODULE
        end in
      Step (Import credentialsModulePath) (fun hasSetCredential =>
      if negb hasSetCredential then Fail (InvalidModule credentialsModulePath)
      else
        Step (SetCredential (u "kernel-api-key") kernelApiKey) (fun _ =>
        Step (SetCredential (u "cronometer-username") email) (fun _ =>
        Step (SetCredential (u "cronometer-password") password) (fun _ =>
        Step (SetEnv (u "KERNEL_API_KEY") kernelApiKey) (fun _ =>
        Done
          [u "kernel-api-key"; u "cronometer-username";
           u "cronometer-password"])))))
  end end end.

(** Running against the outside: [answer] gives the outcome of each
    request, an exception or an answer, in a state [W]. *)
Section Run.
Context {W : Type} (answer : Op → W → (Failure + bool) * W).

Fixpoint run {A : Type} (p : Sync A) (w : W) : (Failure + A) * W :=
  match p with
  | Done a => (inr a, w)
  | Fail e => (inl e, w)
  | Step op k =>
      match answer op w with
      | (inl e, w') => (inl e, w')
      | (inr x, w') => run (k x) w'
      end
  end.

(** The requests made, in order. *)
Fixpoint requests {A : Type} (p : Sync A) (w : W) : list Op :=
  match p with
  | Done _ | Fail _ => []
  | Step op k =>
      op :: match answer op w with
            | (inl _, _) => []
            | (inr x, w') => requests (k x) w'
            end
  end.
End Run.

End CredentialsSync.

(** ** The HTTP server module: the keys of the export, and local dates *)

Module Report.

(** The alternatives of the pattern of
    [collectBurnRelatedNutritionKeys]. *)
Definition burnRelatedWords : list jstring :=
  [u "bmr"; u "tef"; u "therm"; u "exercise"; u "tracker"; u "activity";
   u "burn"; u "expend"; u "balance"; u "energy"].

(** The test of the pattern, which ignores the case of the letters
    A-Z: some alternative occurs in the key. *)
Definition burnRelated (key : jstring) : bool :=
  existsb (Cli.includes (toLowerCase key)) burnRelatedWords.

(** The comparison of [Array.prototype.sort] without a comparator, on
    strings: by code units. *)
Definition ascending (a b : jstring) : comparison :=
  if strLt a b then Lt else if strLt b a then Gt else Eq.

(** [collectBurnRelatedNutritionKeys].  The keys of a record are met in
    the order of [map_to_list]; the order in which they are met does
    not show in what is returned, which is sorted. *)
Definition collectBurnRelatedNutritionKeys (entries : list Row)
  : list jstring :=
  let keys :=
    fold_left
      (fun keys entry =>
         fold_left
           (fun keys key =>
              if burnRelated key then EnergyScrape.setAdd key keys else keys)
           (List.map fst (map_to_list entry)) keys)
      entries [] in
  EnergyScrape.sort ascending keys.

(** What [formatLocalDate] reads of a [Date]: [getFullYear()],
    [getMonth()] and [getDate()]. *)
Record LocalDate : Type := {
  getFullYear : Z;
  getMonth : N;
  getDate : N;
}.

(** [String(n)] for a natural number [n]. *)
Fixpoint digitsOf (fuel : nat) (n : N) (acc : jstring) : jstring :=
  let acc' := (48 + n mod 10)%N :: acc in
  match fuel with
  | O => acc'
  | S fuel' => if (n <? 10)%N then acc' else digitsOf fuel' (n / 10)%N acc'
  end.

Definition decimal (n : N) : jstring :=
  digitsOf (N.to_nat (N.log2 n)) n [].

(** [String(z)] for an integer [z]. *)
Definition decimalZ (z : Z) : jstring :=
  if (z <? 0)%Z then 45%N :: decimal (Z.to_N (- z)) else decimal (Z.to_N z).

(** [s.padStart(2, "0")]. *)
Definition padStart2 (s : jstring) : jstring :=
  replicate (2 - length s) 48%N ++ s.

(** [formatLocalDate]. *)
Definition formatLocalDate (date : LocalDate) : jstring :=
  let y := getFullYear date in
  let m := padStart2 (decimal (getMonth date + 1)) in
  let d := padStart2 (decimal (getDate date)) in
  decimalZ y ++ u "-" ++ m ++ u "-" ++ d.

End Report.

(** ** Vocabulary of the further statements *)

(** The five component tables, required ones first. *)
Definition burnTables : list (jstring * list jstring) :=
  BURN_COMPONENT_KEYS ++ OPTIONAL_BURN_COMPONENT_KEYS.

(** What a component contributes to the totals of a record: its raw
    value and its magnitude, 0 when no alias gives a number. *)
Definition foundRaw (entry : Row) (keys : list jstring) : Q :=
  match getNumericField entry keys with
  | Some found => found_value found
  | None => 0%Q
  end.

Definition foundMagnitude (entry : Row) (keys : list jstring) : Q :=
  Qabs (foundRaw entry keys).

(** The normalized entries of a date, in the order they were scraped. *)
Definition entriesOn (date : jstring)
    (entries : list EnergyScrape.ScrapedEntry)
  : list EnergyScrape.ScrapedEntry :=
  List.filter
    (λ entry, bool_decide (dateKey (EnergyScrape.date entry) = Some date))
    entries.



(** The property names every object inherits from [Object.prototype]. *)
Definition inheritedNames : list jstring :=
  [u "constructor"; u "__proto__"; u "hasOwnProperty"; u "isPrototypeOf";
   u "propertyIsEnumerable"; u "toLocaleString"; u "toString"; u "valueOf";
   u "__defineGetter__"; u "__defineSetter__"; u "__lookupGetter__";
   u "__lookupSetter__"].

(** The magnitude of a reading, a missing one counting for 0. *)
Definition magnitudeOf (v : option Q) : Q := Qabs (default 0%Q v).

(** The four core readings of a scraped page. *)
Definition coreReadings (raw : RawEntry) : list (option Q) :=
  [raw_bmr raw; raw_tef raw; raw_exercise raw; raw_trackerActivity raw].

(** The page scraped for the day of [plainRecord], each core component
    reading 0 and nothing else being shown. *)
Definition allZeroScrape : RawEntry :=
  {| raw_date := VString (u "2024-03-07");
     raw_bmr := Some 0%Q;
     raw_tef := Some 0%Q;
     raw_exercise := Some 0%Q;
     raw_trackerActivity := Some 0%Q;
     raw_baseline := None;
     raw_energyBurned := None;
     raw_energyBalance := None |}.

(** The days of a list tagged with a burn source, and the number of
    times a component is reported missing over the days of a list. *)
Definition daysTagged (tag : jstring) (perDay : list ReconciledDay)
  : list ReconciledDay :=
  List.filter (λ day, bool_decide (burnedSource day = tag)) perDay.

Definition timesMissing (component : jstring) (perDay : list ReconciledDay)
  : nat :=
  length
    (List.filter (λ c, bool_decide (c = component))
       (concat (List.map missingBurnComponents perDay))).

(** A week of one day: a completed day that took the negative burned
    total of its export record. *)
Definition oneInferredDay : list ReconciledDay :=
  [reconcileDay ∅ ∅ negativeInferredRecord].

(** The record of a run: the commands issued, each with the outcome it
    had, in order. *)
Definition Event : Type := {X : Type & (Cmd X * (Exn + X))%type}.

Definition event {X : Type} (c : Cmd X) (outcome : Exn + X) : Event :=
  existT X (c, outcome).

Fixpoint history {W A : Type} (answer : ∀ X, Cmd X → W → (Exn + X) * W)
    (p : Prog A) (w : W) : list Event :=
  match p with
  | Ret _ | Throw _ => []
  | Do c k =>
      let '(r, w') := answer _ c w in
      event c r :: history answer (k r) w'
  end.

(** The exception an event ended with, if it did. *)
Definition raised (ev : Event) : option Exn :=
  match ev with
  | existT _ (_, inl e) => Some e
  | existT _ (_, inr _) => None
  end.

(** The commands the route issues before it tolerates a failure: the
    clock, and the export of the nutrition records. *)
Definition beforeSources (ev : Event) : bool :=
  match ev with
  | existT _ (c, _) =>
      match c with
      | TrailingRange _ | TodayLocal => true
      | ExportJson kind _ => strEqb kind (u "nutrition")
      | _ => false
      end
  end.

(** The number of days a query asks for. *)
Definition requestedDays (query : Query) : Z :=
  match parseNumber (query_days query) with
  | None => 7%Z
  | Some d => trunc d
  end.

(** What an event tells of the remote browser: the session it created,
    the session it deleted, whether it is a login that succeeded, and
    the scrape or the login it asked for. *)
Definition sessionCreated (ev : Event) : option jstring :=
  match ev with
  | existT _ (c, outcome) =>
      match c in Cmd X return Exn + X → option jstring with
      | BrowsersCreate =>
          λ outcome,
            match outcome with inr session => Some session | inl _ => None end
      | _ => λ _, None
      end outcome
  end.

Definition sessionDeleted (ev : Event) : option jstring :=
  match ev with
  | existT _ (c, _) =>
      match c with BrowsersDeleteByID session => Some session | _ => None end
  end.

Definition loggedIn (ev : Event) : bool :=
  match ev with
  | existT _ (c, outcome) =>
      match c in Cmd X return Exn + X → bool with
      | ExecuteLogin _ _ _ _ =>
          λ outcome,
            match outcome with
            | inr result =>
                truthy (exec_success result)
                && match exec_result result with
                   | Some data => truthy (login_loggedIn data)
                   | None => false
                   end
            | inl _ => false
            end
      | _ => λ _, false
      end outcome
  end.

Definition scrapeRequested (ev : Event)
  : option (jstring * list jstring * Z) :=
  match ev with
  | existT _ (c, _) =>
      match c with
      | ExecuteScrape session dates timeout => Some (session, dates, timeout)
      | _ => None
      end
  end.

Definition loginRequested (ev : Event)
  : option (jstring * jstring * jstring * Z) :=
  match ev with
  | existT _ (c, _) =>
      match c with
      | ExecuteLogin session username password timeout =>
          Some (session, username, password, timeout)
      | _ => None
      end
  end.

(** A text that [trim] leaves as it is and that is not empty. *)
Definition trimmedNonEmpty (s : jstring) : Prop := trim s = s ∧ s ≠ [].

(** The reads of a credential: of the environment, then of the store. *)
Definition credentialRead (ev : Event) : bool :=
  match ev with
  | existT _ (c, _) =>
      match c with ReadEnv _ | GetCredential _ => true | _ => false end
  end.

(** The net calories of the days of a balance that have one. *)
Definition netsOf (balance : Balance.Balance) : list Q :=
  omap Balance.netCalories (Balance.perDay balance).

(** [list.reduce((sum, x) => sum + x, 0)]: the sum of a list taken from
    the left, one addition per element, as the code adds. *)
Definition sumLeft (l : list Q) : Q := fold_left Qplus l 0%Q.

(** An outside that answers the export command from a script of
    outcomes: what is left of the script, the number of calls made and
    the pauses taken.  A call beyond the script answers [null]. *)
Record Scripted : Type := {
  script : list (Cli.CliError + Json);
  calls : nat;
  pauses : list Z;
}.

Definition scriptedRun (args : list jstring) (w : Scripted)
  : (Cli.CliError + Json) * Scripted :=
  match script w with
  | outcome :: rest =>
      (outcome,
       {| script := rest; calls := S (calls w); pauses := pauses w |})
  | [] =>
      (inr JNothing,
       {| script := []; calls := S (calls w); pauses := pauses w |})
  end.

Definition scriptedSleep (ms : Z) (w : Scripted) : Scripted :=
  {| script := script w; calls := calls w; pauses := pauses w ++ [ms] |}.

Definition startOf (outcomes : list (Cli.CliError + Json)) : Scripted :=
  {| script := outcomes; calls := 0; pauses := [] |}.

(** An outcome that is a rate-limit error. *)
Definition rateLimited (outcome : Cli.CliError + Json) : bool :=
  match outcome with
  | inl error => Cli.isRateLimitError error
  | inr _ => false
  end.

(** What the caller sees of an outcome. *)
Definition seen (outcome : Cli.CliError + Json) : option Cli.CliError + Json :=
  match outcome with
  | inl error => inl (Some error)
  | inr json => inr json
  end.

(** The error of a command that failed with a rate limit on its
    standard error, and one that failed otherwise. *)
Definition rateLimitError : Cli.CliError :=
  {| Cli.message := Some (u "crono command failed");
     Cli.stdout := Some [];
     Cli.stderr := Some (u "Error: Rate limit exceeded, retry later") |}.

Definition otherError : Cli.CliError :=
  {| Cli.message := Some (u "crono command failed");
     Cli.stdout := Some [];
     Cli.stderr := Some (u "Error: not logged in") |}.

(** The three variables [syncCredentials] requires, in the order it
    checks them, and the first of them that is absent or blank. *)
Definition requiredNames : list jstring :=
  [u "CRONO_KERNEL_API_KEY"; u "CRONO_CRONOMETER_EMAIL";
   u "CRONO_CRONOMETER_PASSWORD"].

Definition blankIn (raw : gmap jstring jstring) (name : jstring) : bool :=
  match raw !! name with
  | Some value => strEqb (trim value) []
  | None => true
  end.

Definition firstBlank (raw : gmap jstring jstring) : option jstring :=
  List.find (blankIn raw) requiredNames.

(** The trimmed value of a variable. *)
Definition trimmedOf (raw : gmap jstring jstring) (name : jstring) : jstring :=
  trim (default [] (raw !! name)).

(** The path of the credentials module an environment designates. *)
Definition modulePathOf (raw : gmap jstring jstring) : jstring :=
  match raw !! u "CRONO_CREDENTIALS_MODULE" with
  | Some path =>
      if strEqb path [] then CredentialsSync.DEFAULT_CREDENTIALS_MODULE
      else path
  | None => CredentialsSync.DEFAULT_CREDENTIALS_MODULE
  end.

(** The requests of a synchronisation that goes through. *)
Definition fullSync (raw : gmap jstring jstring) : list CredentialsSync.Op :=
  [CredentialsSync.Import (modulePathOf raw);
   CredentialsSync.SetCredential (u "kernel-api-key")
     (trimmedOf raw (u "CRONO_KERNEL_API_KEY"));
   CredentialsSync.SetCredential (u "cronometer-username")
     (trimmedOf raw (u "CRONO_CRONOMETER_EMAIL"));
   CredentialsSync.SetCredential (u "cronometer-password")
     (trimmedOf raw (u "CRONO_CRONOMETER_PASSWORD"));
   CredentialsSync.SetEnv (u "KERNEL_API_KEY")
     (trimmedOf raw (u "CRONO_KERNEL_API_KEY"))].

(** An outside in which the request number [n], counted from 0, raises
    and every other request is answered; the state counts the requests
    made. *)
Definition raisingAt (n : nat) (op : CredentialsSync.Op) (made : nat)
  : (CredentialsSync.Failure + bool) * nat :=
  (if (made =? n)%nat then inl (CredentialsSync.Raised (u "refused"))
   else inr true,
   S made).

(** The credentials a list of requests stores, in order. *)
Definition storedBy (made : list CredentialsSync.Op) : list jstring :=
  omap
    (λ op, match op with
           | CredentialsSync.SetCredential key _ => Some key
           | _ => None
           end)
    made.

(** The calendar reading of a local date, [yyyymmdd]; the tenth of March
    2024 and the last day of 2023. *)
Definition ordinalOf (date : Report.LocalDate) : N :=
  (Z.to_N (Report.getFullYear date) * 10000
   + (Report.getMonth date + 1) * 100 + Report.getDate date)%N.

Definition tenthOfMarch : Report.LocalDate :=
  {| Report.getFullYear := 2024; Report.getMonth := 2; Report.getDate := 10 |}.

Definition lastOfDecember : Report.LocalDate :=
  {| Report.getFullYear := 2023; Report.getMonth := 11; Report.getDate := 31 |}.

(** A date of the calendar whose year has four digits. *)
Definition fourDigitYear (date : Report.LocalDate) : Prop :=
  (1000 <= Report.getFullYear date <= 9999)%Z
  ∧ (Report.getMonth date <= 11)%N
  ∧ (1 <= Report.getDate date <= 31)%N.

(* ===================================================================== *)
(** * Part II: properties                                                 *)
(* ===================================================================== *)

(** ** Reading numbers from text *)

Section NumericText.

Lemma digitOfBase_literal base c d :
  digitOfBase base c = Some d → literalUnit c = true.
Proof.
  unfold digitOfBase, literalUnit.
  destruct (N.leb_spec 48 c), (N.leb_spec c 57), (N.leb_spec 97 c),
    (N.leb_spec c 102), (N.leb_spec 65 c), (N.leb_spec c 70),
    (N.leb_spec c 90), (N.leb_spec c 122);
    simpl; try done; lia.
Qed.

Lemma spanDigits_split base s ds rest :
  spanDigits base s = (ds, rest) →
  ∃ pre, s = pre ++ rest ∧ Forall (λ c, literalUnit c = true) pre.
Proof.
  revert ds rest. induction s as [|c r IH]; intros ds rest; simpl.
  - intros [= <- <-]. by exists [].
  - destruct (digitOfBase base c) as [d|] eqn:Hd.
    + destruct (spanDigits base r) as [ds' rest'] eqn:Hr.
      intros [= <- <-]. destruct (IH _ _ eq_refl) as (pre & -> & Hpre).
      exists (c :: pre). split; [done|].
      constructor; [by eapply digitOfBase_literal | done].
    + intros [= <- <-]. by exists [].
Qed.

Lemma spanDigits_all base s ds :
  spanDigits base s = (ds, []) → Forall (λ c, literalUnit c = true) s.
Proof.
  intros H. destruct (spanDigits_split _ _ _ _ H) as (pre & -> & Hpre).
  by rewrite app_nil_r.
Qed.

Lemma parseExponent_literal s e :
  parseExponent s = Some e → Forall (λ c, literalUnit c = true) s.
Proof.
  destruct s as [|c r]; simpl; [by constructor|].
  destruct ((c =? 101) || (c =? 69))%N eqn:Ec; [|done].
  assert (literalUnit c = true) as Hc.
  { unfold literalUnit.
    destruct (N.eqb_spec c 101) as [->|]; [done|].
    destruct (N.eqb_spec c 69) as [->|]; [done|]. done. }
  intros H. constructor; [done|].
  assert (∀ t, (∃ ds, spanDigits 10 t = (ds, [])) →
               Forall (λ c, literalUnit c = true) t) as Hall.
  { intros t [ds Hds]. by eapply spanDigits_all. }
  assert (∀ (neg : bool) t,
            match spanDigits 10 t with
            | ((_ :: _) as ds, []) =>
                Some (if neg then - digitsToZ 10 ds else digitsToZ 10 ds)%Z
            | _ => None
            end = Some e → Forall (λ c, literalUnit c = true) t) as Hsp.
  { intros neg t Ht. apply Hall.
    destruct (spanDigits 10 t) as [[|d ds] [|x rest]]; try done.
    by eexists. }
  destruct r as [|x t].
  - by constructor.
  - destruct (N.eq_dec x 43%N) as [->|Hx43].
    { constructor; [done|]. by eapply (Hsp false). }
    destruct (N.eq_dec x 45%N) as [->|Hx45].
    { constructor; [done|]. by eapply (Hsp true). }
    apply (Hsp false).
    revert H. clear -Hx43 Hx45.
    destruct x as [|p]; [done|].
    do 6 (destruct p as [p|p|]; try done).
Qed.

Lemma parseUnsignedDecimal_literal s q :
  parseUnsignedDecimal s = Finite q → Forall (λ c, literalUnit c = true) s.
Proof.
  unfold parseUnsignedDecimal.
  destruct (strEqb s (u "Infinity")); [done|].
  destruct (spanDigits 10 s) as [ip r1] eqn:Hip.
  destruct (spanDigits_split _ _ _ _ Hip) as (pre & -> & Hpre).
  intros H. apply Forall_app. split; [done|].
  assert (∀ fp r2,
            match ip, fp with
            | [], [] => NaN
            | _, _ =>
                match parseExponent r2 with
                | Some e =>
                    roundFinite
                      (scale10 (digitsToZ 10 (ip ++ fp))
                         (e - Z.of_nat (length fp)))
                | None => NaN
                end
            end = Finite q → Forall (λ c, literalUnit c = true) r2) as Hexp.
  { intros fp r2 Hm.
    destruct (parseExponent r2) as [e|] eqn:He.
    - by eapply parseExponent_literal.
    - by destruct ip, fp. }
  destruct r1 as [|x r].
  { constructor. }
  destruct (N.eq_dec x 46%N) as [->|Hx].
  - destruct (spanDigits 10 r) as [fp r2] eqn:Hfp.
    destruct (spanDigits_split _ _ _ _ Hfp) as (pre' & -> & Hpre').
    constructor; [done|]. apply Forall_app. split; [done|].
    by eapply Hexp.
  - apply (Hexp []). revert H. clear -Hx.
    destruct x as [|p]; [done|].
    do 6 (destruct p as [p|p|]; try done).
Qed.

Lemma parseNonDecimal_literal s z :
  parseNonDecimal s = Some z → Forall (λ c, literalUnit c = true) s.
Proof.
  destruct s as [|c [|p r]]; simpl; try done.
  { destruct c as [|q0]; [done|].
    do 6 (destruct q0 as [q0|q0|]; try done). }
  intros H.
  assert (c = 48%N) as ->.
  { destruct c as [|q0]; [done|].
    do 6 (destruct q0 as [q0|q0|]; try done). }
  set (base := match p with
               | 120 | 88 => Some 16%Z
               | 111 | 79 => Some 8%Z
               | 98 | 66 => Some 2%Z
               | _ => None
               end%N) in *.
  assert (is_Some base → literalUnit p = true) as Hp.
  { subst base. intros [b Hb]. destruct p as [|q0]; [done|].
    do 7 (destruct q0 as [q0|q0|]; try done). }
  destruct base as [b|]; [|done].
  constructor; [done|]. constructor; [by apply Hp|].
  destruct (spanDigits b r) as [[|d ds] [|x rest]] eqn:Hr; try done.
  by eapply spanDigits_all.
Qed.

Lemma StringToNumber_literal s q :
  StringToNumber s = Finite q → Forall (λ c, literalUnit c = true) (trim s).
Proof.
  unfold StringToNumber.
  destruct (trim s) as [|c t] eqn:Ht; [by constructor|].
  destruct (parseNonDecimal (c :: t)) as [z|] eqn:Hnd.
  { intros _. by eapply parseNonDecimal_literal. }
  destruct (N.eq_dec c 43%N) as [->|H43].
  { intros H. constructor; [done|]. by eapply parseUnsignedDecimal_literal. }
  destruct (N.eq_dec c 45%N) as [->|H45].
  { intros H. constructor; [done|].
    destruct (parseUnsignedDecimal t) as [q'| |] eqn:Hq; try done.
    by eapply parseUnsignedDecimal_literal. }
  intros H. apply (parseUnsignedDecimal_literal _ q).
  revert H. clear -H43 H45.
  destruct c as [|p]; [done|].
  do 6 (destruct p as [p|p|]; try done).
Qed.

Lemma elem_of_trimStart c s :
  c ∈ s → isWhiteSpace c = false → c ∈ trimStart s.
Proof.
  intros Hin Hc. induction s as [|x r IH]; simpl; [done|].
  destruct (isWhiteSpace x) eqn:Hx; [|done].
  apply IH. apply elem_of_cons in Hin as [->|]; [congruence | done].
Qed.

Lemma elem_of_trim c s : c ∈ s → isWhiteSpace c = false → c ∈ trim s.
Proof.
  intros Hin Hc. unfold trim, trimEnd.
  rewrite list_elem_of_In, <- in_rev, <- list_elem_of_In.
  apply elem_of_trimStart; [|done].
  rewrite list_elem_of_In, <- in_rev, <- list_elem_of_In.
  by apply elem_of_trimStart.
Qed.

Lemma separatorOrDash_not_space c :
  separatorOrDash c → isWhiteSpace c = false ∧ literalUnit c = false.
Proof. by intros [-> | [-> | [-> | ->]]]. Qed.

(** No text with a separator or a Unicode dash reads as a number. *)
Lemma StringToNumber_separator s c q :
  c ∈ s → separatorOrDash c → StringToNumber s ≠ Finite q.
Proof.
  intros Hin Hc H.
  destruct (separatorOrDash_not_space _ Hc) as [Hws Hlit].
  apply StringToNumber_literal in H.
  rewrite Forall_forall in H.
  specialize (H c (elem_of_trim _ _ Hin Hws)). congruence.
Qed.

End NumericText.

(** ** The structured-field extractor ([parseNumber], [getNumericField]) *)

Section FieldExtractor.

Lemma parseNumber_separator s c :
  c ∈ s → separatorOrDash c → parseNumber (VString s) = None.
Proof.
  intros Hin Hc. simpl.
  destruct (strEqb (trim s) []); [done|].
  destruct (StringToNumber s) as [q| |] eqn:Hq; try done.
  by destruct (StringToNumber_separator s c q Hin Hc).
Qed.

Lemma getNumericField_skip entry key keys v :
  entry !! key = Some v → parseNumber v = None →
  getNumericField entry (key :: keys) = getNumericField entry keys.
Proof. intros Hk Hv. simpl. by rewrite Hk, Hv. Qed.

(** C3, the claim as stated, fails: the record whose burned field holds
    the text [−1,234.5] yields no value at all, so it is not true that
    every record whose alias field holds that text yields -1234.5. *)
Lemma getNumericField_unicode_minus_counterexample :
  getNumericField unicodeMinusRecord [u "Energy Burned (kcal)"] = None
  ∧ ¬ (∀ (entry : Row) (key : jstring),
         entry !! key = Some (VString unicodeMinusText) →
         ∃ found, getNumericField entry [key] = Some found
                  ∧ (found_value found == -1234.5)%Q).
Proof.
  assert (getNumericField unicodeMinusRecord [u "Energy Burned (kcal)"]
          = None) as Hnone by (by vm_compute).
  split; [done|]. intros Hall.
  destruct (Hall unicodeMinusRecord (u "Energy Burned (kcal)"))
    as (found & Hfound & _); [by vm_compute|].
  congruence.
Qed.

(** What [parseNumber] accepts, and with which value: a finite native
    number, and text that is not blank and that [Number] reads as a
    finite number. *)
Lemma parseNumber_accepts (v : value) (q : Q) :
  parseNumber v = Some q
  ↔ v = VNumber (Finite q)
    ∨ ∃ t, v = VString t ∧ trim t ≠ [] ∧ StringToNumber t = Finite q.
Proof.
  split.
  - destruct v as [| |b|[n| |negative]|t|str]; cbn [parseNumber]; try done.
    + intros [= ->]. by left.
    + unfold strEqb. case_bool_decide as Hblank; [done|].
      destruct (StringToNumber t) as [parsed| |] eqn:Hparsed; try done.
      intros [= ->]. right. by exists t.
  - intros [-> | (t & -> & Hblank & Hparsed)]; [done|].
    cbn [parseNumber]. unfold strEqb.
    rewrite bool_decide_eq_false_2 by done. by rewrite Hparsed.
Qed.

Lemma parseNumber_rejects (v : value) :
  parseNumber v = None
  ↔ match v with
    | VNumber n => ∀ q, n ≠ Finite q
    | VString t => trim t = [] ∨ ∀ q, StringToNumber t ≠ Finite q
    | _ => True
    end.
Proof.
  destruct v as [| |b|[n| |negative]|t|str]; cbn [parseNumber]; try done.
  - split; [done|]. intros Hnot. by destruct (Hnot n).
  - unfold strEqb. case_bool_decide as Hblank.
    + split; [by left|done].
    + destruct (StringToNumber t) as [parsed| |] eqn:Hparsed.
      * split; [done|]. intros [Hnil | Hnot]; [done|]. by destruct (Hnot parsed).
      * split; [by right|done].
      * split; [by right|done].
Qed.

(** Removing the commas and replacing the dashes a second time changes
    nothing. *)
Lemma cleaned_twice (t : jstring) :
  EnergyScrape.stripCommas
    (EnergyScrape.normalizeMinus
       (EnergyScrape.stripCommas (EnergyScrape.normalizeMinus t)))
  = EnergyScrape.stripCommas (EnergyScrape.normalizeMinus t).
Proof.
  unfold EnergyScrape.stripCommas, EnergyScrape.normalizeMinus.
  set (replace := λ c : N, match c with
                           | 8722%N | 8211%N | 8212%N => 45%N
                           | _ => c
                           end).
  assert (∀ c, replace c ≠ 44%N → replace (replace c) = replace c
                                  ∧ c ≠ 44%N) as Hreplace.
  { intros c. subst replace. cbv beta.
    destruct (N.eq_dec c 8722%N) as [->|H1]; [done|].
    destruct (N.eq_dec c 8211%N) as [->|H2]; [done|].
    destruct (N.eq_dec c 8212%N) as [->|H3]; [done|].
    assert (match c with
            | 8722%N | 8211%N | 8212%N => 45%N
            | _ => c
            end = c) as Hsame; [|by rewrite !Hsame].
    destruct c as [|p]; [done|].
    do 14 (destruct p as [p|p|]; try done). }
  induction t as [|c t IH]; [done|]. cbn [List.map List.filter].
  destruct (N.eqb_spec (replace c) 44%N) as [Hcomma|Hcomma]; cbn [negb];
    [done|].
  cbn [List.map List.filter].
  destruct (Hreplace c Hcomma) as [-> _].
  rewrite (proj2 (N.eqb_neq _ _) Hcomma). cbn [negb]. by rewrite IH.
Qed.

(** C3, amended: [parseNumber] accepts a finite native number and text
    that is not blank and that [Number] reads as finite, with the value
    read, and nothing else: this is an equivalence, so that plain text
    such as [2100] or [-1234.5] is accepted and [getNumericField]
    returns its value under the alias.  It neither strips thousands
    separators nor rewrites Unicode minus signs, so any text holding a
    comma or one of the dashes U+2212, U+2013, U+2014 gives no value and
    [getNumericField] moves on to the next alias.  The stripping and
    rewriting are done by [num], the reader of the scraped page, which
    reads every text as it reads the text without its commas and with
    ASCII minus signs: there [−1,234.5] reads as -1234.5 exactly as
    [-1234.5] does. *)
Theorem parseNumber_plain_text_only (s : jstring) (c : N) (entry : Row)
    (key : jstring) (keys : list jstring) :
  c ∈ s → separatorOrDash c → entry !! key = Some (VString s) →
  parseNumber (VString s) = None
  ∧ getNumericField entry (key :: keys) = getNumericField entry keys
  ∧ (∀ v q, parseNumber v = Some q
            ↔ v = VNumber (Finite q)
              ∨ ∃ t, v = VString t ∧ trim t ≠ []
                     ∧ StringToNumber t = Finite q)
  ∧ (∀ v, parseNumber v = None
          ↔ match v with
            | VNumber n => ∀ q, n ≠ Finite q
            | VString t => trim t = [] ∨ ∀ q, StringToNumber t ≠ Finite q
            | _ => True
            end)
  ∧ (∀ (record : Row) alias aliases t q,
       record !! alias = Some (VString t) →
       trim t ≠ [] → StringToNumber t = Finite q →
       getNumericField record (alias :: aliases)
       = Some {| found_value := q; found_key := alias |})
  ∧ (∀ q, parseNumber (VNumber (Finite q)) = Some q)
  ∧ parseNumber (VNumber NaN) = None
  ∧ (∀ negative, parseNumber (VNumber (Infinity negative)) = None)
  ∧ (∀ t q, parseNumber (VString t) = Some q → StringToNumber t = Finite q)
  ∧ (∃ q, parseNumber (VString (u "2100")) = Some q ∧ (q == 2100)%Q)
  ∧ parseNumber (VString (u "Infinity")) = None
  ∧ parseNumber (VString (u "1e999")) = None
  ∧ parseNumber (VString (u "12 kcal")) = None
  ∧ parseNumber (VString (u "  ")) = None
  ∧ (∃ q, parseNumber (VString asciiMinusText) = Some q ∧ (q == -1234.5)%Q)
  ∧ (∃ q, EnergyScrape.num (VString unicodeMinusText) = Some q
          ∧ (q == -1234.5)%Q)
  ∧ EnergyScrape.num (VString unicodeMinusText)
    = EnergyScrape.num (VString asciiMinusText)
  ∧ (∀ t, EnergyScrape.num (VString t)
          = EnergyScrape.num
              (VString
                 (EnergyScrape.stripCommas (EnergyScrape.normalizeMinus t)))).
Proof.
  intros Hin Hc Hk.
  pose proof (parseNumber_separator s c Hin Hc) as Hnone.
  split; [done|]. split; [by eapply getNumericField_skip|].
  split; [apply parseNumber_accepts|].
  split; [apply parseNumber_rejects|].
  split.
  { intros record alias aliases t q Halias Hblank Hparsed.
    cbn [getNumericField]. rewrite Halias.
    assert (parseNumber (VString t) = Some q) as ->; [|done].
    apply parseNumber_accepts. right. by exists t. }
  split; [done|]. split; [done|]. split; [done|].
  split.
  { intros t q Ht. apply parseNumber_accepts in Ht as [Ht | (t' & Ht & _ & Hq)];
      [done|]. by injection Ht as ->. }
  split; [by eexists; split; [by vm_compute|]|].
  split; [by vm_compute|]. split; [by vm_compute|].
  split; [by vm_compute|]. split; [by vm_compute|].
  split; [by eexists; split; [by vm_compute|]|].
  split; [by eexists; split; [by vm_compute|]|].
  split; [by vm_compute|].
  intros t. cbn [EnergyScrape.num]. by rewrite cleaned_twice.
Qed.

Lemma parseNumber_plain_text_only_witness :
  44%N ∈ unicodeMinusText
  ∧ separatorOrDash 44
  ∧ unicodeMinusRecord !! u "Energy Burned (kcal)"
    = Some (VString unicodeMinusText)
  ∧ parseNumber (VString unicodeMinusText) = None
  ∧ getNumericField unicodeMinusRecord
      [u "Energy Burned (kcal)"; u "TDEE (kcal)"]
    = getNumericField unicodeMinusRecord [u "TDEE (kcal)"].
Proof.
  assert (44%N ∈ unicodeMinusText) as Hin by (vm_compute; repeat constructor).
  assert (separatorOrDash 44) as Hc by (by left).
  assert (unicodeMinusRecord !! u "Energy Burned (kcal)"
          = Some (VString unicodeMinusText)) as Hk by (vm_compute; reflexivity).
  split; [exact Hin|]. split; [exact Hc|]. split; [exact Hk|].
  destruct (parseNumber_plain_text_only unicodeMinusText 44 unicodeMinusRecord
              (u "Energy Burned (kcal)") [u "TDEE (kcal)"] Hin Hc Hk)
    as (Hnone & Hskip & _).
  split; [exact Hnone | exact Hskip].
Defined.

End FieldExtractor.

(** ** Per-day component extraction *)

Section ComponentExtraction.

(** What a loop of [extractBurnedComponents] pushes to its [missing]
    list: the components, in order, for which no alias gave a number. *)
Lemma extractStep_fold_missing (entry : Row) (table : list (jstring * list jstring))
    (acc : gmap jstring Component * list jstring * Q * Q) :
  (fold_left (extractStep entry) table acc).1.1.2
  = (acc.1.1.2)
    ++ List.map fst
         (List.filter
            (λ ck, bool_decide (getNumericField entry (snd ck) = None))
            table).
Proof.
  revert acc. induction table as [|[component keys] table IH]; intros acc.
  { simpl. by rewrite app_nil_r. }
  cbn [fold_left List.filter snd]. rewrite IH.
  destruct acc as [[[comps missing] total] rawTotal]. unfold extractStep.
  destruct (getNumericField entry keys) as [found|] eqn:Hf; simpl.
  - done.
  - by rewrite <- app_assoc.
Qed.

Lemma extractBurnedComponents_missing (entry : Row) :
  missingComponents (extractBurnedComponents entry)
  = List.map fst
      (List.filter
         (λ ck, bool_decide (getNumericField entry (snd ck) = None))
         BURN_COMPONENT_KEYS).
Proof.
  unfold extractBurnedComponents.
  pose proof (extractStep_fold_missing entry BURN_COMPONENT_KEYS (∅, [], 0%Q, 0%Q))
    as H.
  destruct (fold_left (extractStep entry) BURN_COMPONENT_KEYS _)
    as [[[comps missing] total] rawTotal].
  destruct (fold_left (extractStep entry) OPTIONAL_BURN_COMPONENT_KEYS _)
    as [[[comps' missing'] total'] rawTotal'].
  exact H.
Qed.

Lemma extractBurnedComponents_hasAll (entry : Row) :
  hasAll (extractBurnedComponents entry)
  = (length (missingComponents (extractBurnedComponents entry)) =? 0)%nat.
Proof.
  unfold extractBurnedComponents.
  destruct (fold_left (extractStep entry) BURN_COMPONENT_KEYS _)
    as [[[comps missing] total] rawTotal].
  by destruct (fold_left (extractStep entry) OPTIONAL_BURN_COMPONENT_KEYS _)
    as [[[comps' missing'] total'] rawTotal'].
Qed.

Lemma normalizeScrapedEntry_missing (entry : RawEntry) :
  EnergyScrape.missingComponents (EnergyScrape.normalizeScrapedEntry entry)
  = List.map fst
      (List.filter (λ kv, bool_decide (snd kv = None))
         [(u "bmr", raw_bmr entry); (u "tef", raw_tef entry);
          (u "exercise", raw_exercise entry);
          (u "trackerActivity", raw_trackerActivity entry)]).
Proof.
  unfold EnergyScrape.normalizeScrapedEntry.
  cbn [EnergyScrape.missingComponents].
  by destruct (raw_bmr entry), (raw_tef entry), (raw_exercise entry),
    (raw_trackerActivity entry).
Qed.

Lemma map_fst_filter_subset {A B : Type} (P : A * B → bool) (l : list (A * B)) :
  List.map fst (List.filter P l) ⊆ List.map fst l.
Proof.
  intros x. rewrite !list_elem_of_In, !in_map_iff.
  intros (kv & <- & Hkv). apply filter_In in Hkv as [Hkv _]. eauto.
Qed.

Lemma length_zero_nil {A : Type} (l : list A) :
  (length l =? 0)%nat = true ↔ l = [].
Proof. destruct l; simpl; split; congruence. Qed.

(** C7: for the export extractor and for the scraped-entry normalizer
    alike, the all-core-components flag is true exactly when the list of
    missing components is empty, and that list holds core components
    only, namely those for which nothing was found: [baseline] is never
    in it. *)
Theorem missing_components_invariant (entry : Row) (scraped : RawEntry) :
  let export := extractBurnedComponents entry in
  let normal := EnergyScrape.normalizeScrapedEntry scraped in
  (hasAll export = true ↔ missingComponents export = [])
  ∧ missingComponents export ⊆ coreComponents
  ∧ (u "baseline" ∉ missingComponents export)
  ∧ (EnergyScrape.hasAllCoreComponents normal = true
     ↔ EnergyScrape.missingComponents normal = [])
  ∧ EnergyScrape.missingComponents normal ⊆ coreComponents
  ∧ (u "baseline" ∉ EnergyScrape.missingComponents normal)
  ∧ (∀ c, c ∈ missingComponents export ↔
          ∃ keys, (c, keys) ∈ BURN_COMPONENT_KEYS
                  ∧ getNumericField entry keys = None)
  ∧ (∀ c, c ∈ EnergyScrape.missingComponents normal ↔
          (c, None) ∈ [(u "bmr", raw_bmr scraped); (u "tef", raw_tef scraped);
                       (u "exercise", raw_exercise scraped);
                       (u "trackerActivity", raw_trackerActivity scraped)]).
Proof.
  intros export normal.
  assert (u "baseline" ∉ coreComponents) as Hbase.
  { intros H. vm_compute in H.
    repeat (apply elem_of_cons in H as [H|H]; [done|]).
    by apply elem_of_nil in H. }
  assert (missingComponents export ⊆ coreComponents) as Hexport.
  { subst export. rewrite extractBurnedComponents_missing.
    intros x Hx. apply map_fst_filter_subset in Hx. exact Hx. }
  assert (EnergyScrape.missingComponents normal ⊆ coreComponents) as Hnormal.
  { subst normal. rewrite normalizeScrapedEntry_missing.
    intros x Hx. apply map_fst_filter_subset in Hx. exact Hx. }
  split.
  { subst export. rewrite extractBurnedComponents_hasAll.
    apply length_zero_nil. }
  split; [done|]. split; [by intros H; apply Hbase, Hexport|].
  split; [apply length_zero_nil|].
  split; [done|]. split; [by intros H; apply Hbase, Hnormal|].
  split.
  - intros c. subst export. rewrite extractBurnedComponents_missing.
    rewrite list_elem_of_In, in_map_iff. split.
    + intros ([c' keys] & <- & Hin). apply filter_In in Hin as [Hin Hnone].
      exists keys. rewrite list_elem_of_In. split; [done|].
      by apply bool_decide_eq_true in Hnone.
    + intros (keys & Hin & Hnone). exists (c, keys). split; [done|].
      apply filter_In. rewrite <- list_elem_of_In. split; [done|].
      by apply bool_decide_eq_true.
  - intros c. subst normal. rewrite normalizeScrapedEntry_missing.
    rewrite list_elem_of_In, in_map_iff. split.
    + intros ([c' v] & <- & Hin). apply filter_In in Hin as [Hin Hnone].
      apply bool_decide_eq_true in Hnone. cbn [snd fst] in *. subst v.
      by rewrite list_elem_of_In.
    + intros Hin. exists (c, None). split; [done|].
      apply filter_In. rewrite <- list_elem_of_In. split; [done|].
      by apply bool_decide_eq_true.
Qed.

End ComponentExtraction.

(** ** Sorting with a comparator *)

Section SortFacts.
Context {A : Type} (cmp : A → A → comparison).

(** [a] may stand before [b]: the comparator does not put it after. *)
Let before (a b : A) : Prop := cmp a b ≠ Gt.

Hypothesis before_trans : ∀ a b c, before a b → before b c → before a c.
Hypothesis before_total : ∀ a b, cmp a b = Gt → before b a.

Lemma insertSorted_Permutation (x : A) (l : list A) :
  EnergyScrape.insertSorted cmp x l ≡ₚ x :: l.
Proof.
  induction l as [|y r IH]; simpl; [done|].
  destruct (cmp x y); try done.
  rewrite IH. apply Permutation_swap.
Qed.

Lemma sort_Permutation (l : list A) : EnergyScrape.sort cmp l ≡ₚ l.
Proof.
  induction l as [|x r IH]; simpl; [done|].
  by rewrite insertSorted_Permutation, IH.
Qed.

Lemma insertSorted_sorted (x : A) (l : list A) :
  StronglySorted before l → StronglySorted before (EnergyScrape.insertSorted cmp x l).
Proof using before_trans before_total.
  induction 1 as [|y r Hr IH Hy]; simpl.
  { repeat constructor. }
  destruct (cmp x y) eqn:Hxy.
  - constructor; [by constructor|].
    assert (before x y) as Hb by (unfold before; congruence).
    constructor; [done|].
    eapply Forall_impl; [exact Hy|]. intros z Hz. by eapply before_trans.
  - constructor; [by constructor|].
    assert (before x y) as Hb by (unfold before; congruence).
    constructor; [done|].
    eapply Forall_impl; [exact Hy|]. intros z Hz. by eapply before_trans.
  - constructor; [done|].
    rewrite insertSorted_Permutation. constructor; [|done].
    by apply before_total.
Qed.

Lemma sort_sorted (l : list A) : StronglySorted before (EnergyScrape.sort cmp l).
Proof using before_trans before_total.
  induction l as [|x r IH]; simpl; [constructor|].
  by apply insertSorted_sorted.
Qed.

(** The first element of the sorted array stands before every element. *)
Lemma head_sort_first (l : list A) (x : A) :
  head (EnergyScrape.sort cmp l) = Some x →
  x ∈ l ∧ ∀ y, y ∈ l → y = x ∨ before x y.
Proof using before_trans before_total.
  intros Hhead. pose proof (sort_sorted l) as Hs.
  pose proof (sort_Permutation l) as Hp.
  destruct (EnergyScrape.sort cmp l) as [|x' r]; [done|].
  injection Hhead as ->. split.
  - rewrite <- Hp. by left.
  - intros y Hy. rewrite <- Hp in Hy.
    apply elem_of_cons in Hy as [->|Hy]; [by left|right].
    apply StronglySorted_inv in Hs as [_ Hall].
    rewrite Forall_forall in Hall. by apply Hall.
Qed.

Lemma head_sort_None (l : list A) :
  head (EnergyScrape.sort cmp l) = None ↔ l = [].
Proof.
  pose proof (sort_Permutation l) as Hp. split.
  - intros H. destruct (EnergyScrape.sort cmp l); [|done].
    by apply Permutation_nil in Hp.
  - by intros ->.
Qed.

End SortFacts.

(** ** Normalization of a scraped day *)

Section ScrapedEntry.

Lemma Qltb_lt (a b : Q) : Qltb a b = true ↔ (a < b)%Q.
Proof.
  unfold Qltb. rewrite negb_true_iff. split.
  - intros H. apply Qnot_le_lt. intros Hle.
    apply Qle_bool_iff in Hle. congruence.
  - intros H. destruct (Qle_bool b a) eqn:Hle; [|done].
    apply Qle_bool_iff in Hle. by apply Qlt_not_le in H.
Qed.

Lemma Qltb_ge (a b : Q) : Qltb a b = false ↔ (b <= a)%Q.
Proof.
  unfold Qltb. rewrite negb_false_iff. apply Qle_bool_iff.
Qed.

(** The three candidates, in the order of the object's keys, and what
    the middle one is. *)
Lemma burnCandidates_shape (entry : RawEntry) :
  let normal := EnergyScrape.normalizeScrapedEntry entry in
  let total := EnergyScrape.componentTotalWithBaseline normal in
  ∃ balance,
    EnergyScrape.burnCandidates normal
    = [(u "energyBurned", option_map Qabs (raw_energyBurned entry));
       (u "energyBalance", balance);
       (u "componentTotalWithBaseline", Some total)]
    ∧ (∀ b, balance = Some b ↔
            ∃ raw, raw_energyBalance entry = Some raw ∧ b = Qabs raw
                   ∧ (0 < raw)%Q
                   ∧ ((0 < total)%Q →
                      (0.7 <= b / total)%Q ∧ (b / total <= 1.8)%Q)).
Proof.
  intros normal total. subst normal total.
  unfold EnergyScrape.normalizeScrapedEntry.
  cbn [EnergyScrape.burnCandidates EnergyScrape.componentTotalWithBaseline].
  eexists. split; [reflexivity|].
  set (total := (fold_left _ _ _ + _)%Q).
  intros b. destruct (raw_energyBalance entry) as [raw|]; cbn [option_map].
  2:{ split; [done|]. by intros (raw & ? & _). }
  destruct (Qltb 0 raw) eqn:Hraw.
  2:{ split; [done|]. intros (raw' & [= <-] & _ & Hpos & _).
      apply Qltb_lt in Hpos. congruence. }
  apply Qltb_lt in Hraw.
  destruct (Qltb 0 total) eqn:Htotal.
  - apply Qltb_lt in Htotal.
    destruct (Qltb (Qabs raw / total) 0.7) eqn:Hlow; cbn [orb].
    { apply Qltb_lt in Hlow. split; [done|].
      intros (raw' & [= <-] & -> & _ & Hratio).
      destruct (Hratio Htotal) as [Hge _]. by apply Qlt_not_le in Hlow. }
    apply Qltb_ge in Hlow.
    destruct (Qltb 1.8 (Qabs raw / total)) eqn:Hhigh.
    { apply Qltb_lt in Hhigh. split; [done|].
      intros (raw' & [= <-] & -> & _ & Hratio).
      destruct (Hratio Htotal) as [_ Hle]. by apply Qlt_not_le in Hhigh. }
    apply Qltb_ge in Hhigh. split.
    + intros [= <-]. exists raw. by do 3 (split; [done|]).
    + by intros (raw' & [= <-] & -> & _).
  - apply Qltb_ge in Htotal. split.
    + intros [= <-]. exists raw.
      split; [done|]. split; [done|]. split; [done|].
      intros Hpos. by apply Qlt_not_le in Hpos.
    + by intros (raw' & [= <-] & -> & _).
Qed.

Lemma byValueDescending_before (a b : jstring * option Q) :
  EnergyScrape.byValueDescending a b ≠ Gt
  ↔ (EnergyScrape.toNumber (snd b) <= EnergyScrape.toNumber (snd a))%Q.
Proof. unfold EnergyScrape.byValueDescending. symmetry. apply Qle_alt. Qed.

Lemma byValueDescending_trans (a b c : jstring * option Q) :
  EnergyScrape.byValueDescending a b ≠ Gt →
  EnergyScrape.byValueDescending b c ≠ Gt →
  EnergyScrape.byValueDescending a c ≠ Gt.
Proof.
  rewrite !byValueDescending_before. intros Hab Hbc. by eapply Qle_trans.
Qed.

Lemma byValueDescending_total (a b : jstring * option Q) :
  EnergyScrape.byValueDescending a b = Gt →
  EnergyScrape.byValueDescending b a ≠ Gt.
Proof.
  rewrite byValueDescending_before. unfold EnergyScrape.byValueDescending.
  intros H. apply Qgt_alt in H. by apply Qlt_le_weak.
Qed.

Lemma finitePositive_Some (v : option Q) :
  EnergyScrape.finitePositive v = true ↔ ∃ q, v = Some q ∧ (0 < q)%Q.
Proof.
  destruct v as [q|]; simpl.
  - rewrite Qltb_lt. split; [by eauto|]. by intros (q' & [= <-] & ?).
  - split; [done|]. by intros (q' & ? & _).
Qed.

(** The entry picked by the filter, the sort and the [[0]]. *)
Lemma resolved_selection (entry : RawEntry) :
  let normal := EnergyScrape.normalizeScrapedEntry entry in
  let candidates := EnergyScrape.burnCandidates normal in
  match EnergyScrape.resolvedBurnedSource normal with
  | Some name =>
      ∃ v, (name, Some v) ∈ candidates ∧ (0 < v)%Q
           ∧ EnergyScrape.resolvedBurnedTotal normal = v
           ∧ ∀ name' v', (name', Some v') ∈ candidates → (0 < v')%Q →
                         (v' <= v)%Q
  | None =>
      EnergyScrape.resolvedBurnedTotal normal = 0%Q
      ∧ ∀ name' v', (name', Some v') ∈ candidates → ¬ (0 < v')%Q
  end.
Proof.
  intros normal candidates. subst normal candidates.
  unfold EnergyScrape.normalizeScrapedEntry.
  cbn [EnergyScrape.burnCandidates EnergyScrape.resolvedBurnedSource
         EnergyScrape.resolvedBurnedTotal].
  match goal with
  | |- context [List.filter ?f ?l] => set (candidates := l)
  end.
  set (positives := List.filter _ candidates).
  assert (∀ kv, kv ∈ positives ↔
                kv ∈ candidates ∧ EnergyScrape.finitePositive (snd kv) = true)
    as Hpos.
  { intros kv. subst positives. rewrite !list_elem_of_In. apply filter_In. }
  destruct (head (EnergyScrape.sort EnergyScrape.byValueDescending positives))
    as [[name v]|] eqn:Hhead; cbn [option_map fst snd].
  - apply (head_sort_first _ byValueDescending_trans byValueDescending_total)
      in Hhead as [Hin Hmax].
    apply Hpos in Hin as [Hin Hv]. cbn [snd] in Hv.
    apply finitePositive_Some in Hv as (q & -> & Hq).
    exists q. split; [done|]. split; [done|]. split; [done|].
    intros name' v' Hin' Hv'.
    destruct (Hmax (name', Some v')) as [[= _ ->]|Hbefore].
    + apply Hpos. split; [done|]. apply finitePositive_Some. eauto.
    + apply Qle_refl.
    + by apply byValueDescending_before in Hbefore.
  - apply head_sort_None in Hhead. split; [done|].
    intros name' v' Hin' Hv'.
    assert ((name', Some v') ∈ positives) as Hmem.
    { apply Hpos. split; [done|]. apply finitePositive_Some. eauto. }
    rewrite Hhead in Hmem. by apply elem_of_nil in Hmem.
Qed.

Lemma candidate_energyBalance (entry : RawEntry) (balance : option Q) a c :
  EnergyScrape.burnCandidates (EnergyScrape.normalizeScrapedEntry entry)
  = [(u "energyBurned", a); (u "energyBalance", balance);
     (u "componentTotalWithBaseline", c)] →
  candidate (u "energyBalance") (EnergyScrape.normalizeScrapedEntry entry)
  = balance.
Proof. unfold candidate. by intros ->. Qed.

Lemma resolved_energyBalance_candidate (entry : RawEntry) :
  let normal := EnergyScrape.normalizeScrapedEntry entry in
  EnergyScrape.resolvedBurnedSource normal = Some (u "energyBalance") →
  candidate (u "energyBalance") normal ≠ None.
Proof.
  intros normal Hsrc. pose proof (resolved_selection entry) as Hsel.
  cbv zeta in Hsel. fold normal in Hsel. rewrite Hsrc in Hsel.
  destruct Hsel as (v & Hin & _).
  destruct (burnCandidates_shape entry) as (balance & Hshape & _).
  fold normal in Hshape. subst normal.
  rewrite (candidate_energyBalance _ _ _ _ Hshape).
  rewrite Hshape in Hin.
  apply elem_of_cons in Hin as [Heq|Hin]; [by vm_compute in Heq|].
  apply elem_of_cons in Hin as [[= <-]|Hin]; [done|].
  apply elem_of_cons in Hin as [Heq|Hin]; [by vm_compute in Heq|].
  by apply elem_of_nil in Hin.
Qed.

(** C4: the scraped balance is a burn candidate only when its raw value
    is positive and, whenever the component total with baseline is
    positive, only when the ratio of its magnitude to that total lies in
    [0.7, 1.8]; a discarded balance is never the resolved source.  With a
    component total of 2000 and a balance of 4500 the candidate is
    discarded. *)
Theorem balance_candidate_admission (entry : RawEntry) :
  let normal := EnergyScrape.normalizeScrapedEntry entry in
  let total := EnergyScrape.componentTotalWithBaseline normal in
  (∀ b, candidate (u "energyBalance") normal = Some b →
        ∃ raw, raw_energyBalance entry = Some raw ∧ (0 < raw)%Q
               ∧ b = Qabs raw
               ∧ ((0 < total)%Q →
                  (0.7 <= b / total)%Q ∧ (b / total <= 1.8)%Q))
  ∧ (candidate (u "energyBalance") normal = None →
     EnergyScrape.resolvedBurnedSource normal ≠ Some (u "energyBalance"))
  ∧ (∀ raw, raw_energyBalance entry = Some raw →
            (total == 2000)%Q → (Qabs raw == 4500)%Q →
            candidate (u "energyBalance") normal = None
            ∧ EnergyScrape.resolvedBurnedSource normal
              ≠ Some (u "energyBalance"))
  ∧ (EnergyScrape.componentTotalWithBaseline
       (EnergyScrape.normalizeScrapedEntry implausibleBalanceEntry) = 2000%Q
     ∧ candidate (u "energyBalance")
         (EnergyScrape.normalizeScrapedEntry implausibleBalanceEntry) = None
     ∧ EnergyScrape.resolvedBurnedSource
         (EnergyScrape.normalizeScrapedEntry implausibleBalanceEntry)
       = Some (u "componentTotalWithBaseline")).
Proof.
  intros normal total.
  destruct (burnCandidates_shape entry) as (balance & Hshape & Hbalance).
  fold normal total in Hshape, Hbalance.
  pose proof (candidate_energyBalance _ _ _ _ Hshape) as Hcand.
  fold normal in Hcand.
  assert (candidate (u "energyBalance") normal = None →
          EnergyScrape.resolvedBurnedSource normal ≠ Some (u "energyBalance"))
    as Hdiscarded.
  { intros Hnone Hsrc.
    by apply (resolved_energyBalance_candidate entry) in Hsrc. }
  split.
  { intros b Hb. rewrite Hcand in Hb. apply Hbalance in Hb.
    destruct Hb as (raw & Hraw & -> & Hpos & Hratio). exists raw. eauto. }
  split; [done|]. split.
  { intros raw Hraw Htotal Habs.
    assert (candidate (u "energyBalance") normal = None) as Hnone.
    { rewrite Hcand. destruct balance as [b|]; [exfalso|done].
      destruct (proj1 (Hbalance b) eq_refl)
        as (raw' & Hraw' & -> & _ & Hratio).
      assert (raw' = raw) as -> by congruence.
      destruct Hratio as [_ Hle]; [by rewrite Htotal|].
      rewrite Habs, Htotal in Hle. by apply Qle_not_lt in Hle. }
    split; [done | by apply Hdiscarded]. }
  by vm_compute.
Qed.

(** C5: the candidates of a scraped entry are the magnitude of the
    scraped total, the balance that survived the plausibility filter and
    the component total with baseline; [resolvedBurnedTotal] is the
    largest of those that are positive and [resolvedBurnedSource] names a
    candidate holding that value; when none is positive the source is
    [null] and the total is 0. *)
Theorem resolved_total_is_largest_candidate (entry : RawEntry) :
  let normal := EnergyScrape.normalizeScrapedEntry entry in
  let candidates := EnergyScrape.burnCandidates normal in
  candidates
  = [(u "energyBurned", option_map Qabs (raw_energyBurned entry));
     (u "energyBalance", candidate (u "energyBalance") normal);
     (u "componentTotalWithBaseline",
      Some (EnergyScrape.componentTotalWithBaseline normal))]
  ∧ (∀ name, EnergyScrape.resolvedBurnedSource normal = Some name →
       ∃ v, (name, Some v) ∈ candidates ∧ (0 < v)%Q
            ∧ EnergyScrape.resolvedBurnedTotal normal = v
            ∧ ∀ name' v', (name', Some v') ∈ candidates → (0 < v')%Q →
                          (v' <= v)%Q)
  ∧ (EnergyScrape.resolvedBurnedSource normal = None
     ↔ ∀ name' v', (name', Some v') ∈ candidates → ¬ (0 < v')%Q)
  ∧ (EnergyScrape.resolvedBurnedSource normal = None →
     EnergyScrape.resolvedBurnedTotal normal = 0%Q)
  ∧ (let sample := EnergyScrape.normalizeScrapedEntry threeCandidatesEntry in
     EnergyScrape.burnCandidates sample
     = [(u "energyBurned", Some 1900%Q); (u "energyBalance", Some 1500%Q);
        (u "componentTotalWithBaseline", Some 2000%Q)]
     ∧ EnergyScrape.resolvedBurnedSource sample
       = Some (u "componentTotalWithBaseline")
     ∧ EnergyScrape.resolvedBurnedTotal sample = 2000%Q)
  ∧ (let sample := EnergyScrape.normalizeScrapedEntry emptyEntry in
     EnergyScrape.resolvedBurnedSource sample = None
     ∧ EnergyScrape.resolvedBurnedTotal sample = 0%Q).
Proof.
  intros normal candidates.
  destruct (burnCandidates_shape entry) as (balance & Hshape & _).
  pose proof (candidate_energyBalance _ _ _ _ Hshape) as Hcand.
  pose proof (resolved_selection entry) as Hsel.
  cbv zeta in Hshape, Hsel. fold normal in Hshape, Hcand, Hsel.
  fold candidates in Hshape, Hsel.
  split; [by rewrite Hcand|].
  split.
  { intros name Hname. by rewrite Hname in Hsel. }
  split.
  { destruct (EnergyScrape.resolvedBurnedSource normal) as [name|].
    - destruct Hsel as (v & Hin & Hv & _). split; [done|].
      intros Hnone. by destruct (Hnone name v).
    - by destruct Hsel as [_ Hnone]. }
  split.
  { intros Hnone. rewrite Hnone in Hsel. by destruct Hsel. }
  by vm_compute.
Qed.

End ScrapedEntry.

(** ** Reconciliation of one day *)

Section Reconciler.

(** C1: the tag and the figure of a reconciled day are those of the
    first tier that applies, in the order scraped total, scraped
    components (complete, then partial), export components, inferred
    burned field, exercise log, and [none] otherwise.  A day with a
    scraped total of 500 and a complete export component set adding up to
    480 is tagged [scrape_energy_burned_total] with 500 burned. *)
Theorem reconcileDay_first_applicable_tier
    (scrapedByDate : gmap jstring EnergyScrape.ScrapedEntry)
    (burnedByDate : gmap jstring Aggregate) (entry : Row) :
  let day := reconcileDay scrapedByDate burnedByDate entry in
  let date := orNull (get entry (u "date")) in
  (burnedSource day, burnedCalories day)
  = firstApplicable
      (tiers (getByDate scrapedByDate date) (extractBurnedComponents entry)
         (inferBurnedCalories entry) (getByDate burnedByDate date))
  ∧ (let scraped :=
       mapEnergyScrapeByDate
         [EnergyScrape.normalizeScrapedEntry bothSourcesScrape] in
     let sample := reconcileDay scraped ∅ bothSourcesRecord in
     hasAll (extractBurnedComponents bothSourcesRecord) = true
     ∧ total (extractBurnedComponents bothSourcesRecord) = 480%Q
     ∧ burnedSource sample = u "scrape_energy_burned_total"
     ∧ burnedCalories sample = 500%Q).
Proof.
  intros day date. split; [|by vm_compute].
  subst day date. unfold reconcileDay, tiers.
  destruct (getByDate scrapedByDate _) as [s|]; cbn [firstApplicable].
  - destruct (EnergyScrape.energyBurned s) as [direct|]; [done|].
    cbn [firstApplicable].
    destruct (EnergyScrape.hasAllCoreComponents s),
      (Qltb 0 (EnergyScrape.componentTotalWithBaseline s));
      cbn [andb negb firstApplicable]; try done.
    all: destruct (hasAny (extractBurnedComponents entry));
      cbn [firstApplicable]; [done|].
    all: destruct (inferBurnedCalories entry) as [i|];
      cbn [firstApplicable]; [done|].
    all: by destruct (getByDate burnedByDate _).
  - destruct (hasAny (extractBurnedComponents entry));
      cbn [firstApplicable]; [done|].
    destruct (inferBurnedCalories entry) as [i|];
      cbn [firstApplicable]; [done|].
    by destruct (getByDate burnedByDate _).
Qed.

Lemma Qsum_snoc (l : list Q) (x : Q) : (Qsum (l ++ [x]) == Qsum l + x)%Q.
Proof.
  induction l as [|y l IH]; simpl; [ring|]. rewrite IH. ring.
Qed.

Lemma aggregateBurnedByDate_snoc (exercises : list Row) (row : Row) :
  aggregateBurnedByDate (exercises ++ [row])
  = match dateKey (get row (u "date")) with
    | None => aggregateBurnedByDate exercises
    | Some date =>
        let byDate := aggregateBurnedByDate exercises in
        let existing :=
          default
            {| agg_burnedRawCalories := 0; agg_burnedCalories := 0;
               agg_entries := 0; agg_components := ∅ |}
            (byDate !! date) in
        let component :=
          default (u "Unknown") (stringOr None (get row (u "exercise"))) in
        <[date :=
            {| agg_burnedRawCalories :=
                 agg_burnedRawCalories existing + caloriesOf row;
               agg_burnedCalories :=
                 agg_burnedCalories existing + Qabs (caloriesOf row);
               agg_entries := agg_entries existing + 1;
               agg_components :=
                 <[component :=
                     (EnergyScrape.orZero (agg_components existing !! component)
                      + Qabs (caloriesOf row))%Q]>
                   (agg_components existing) |}]>
          byDate
    end.
Proof. unfold aggregateBurnedByDate. by rewrite fold_left_app. Qed.

(** What the aggregation holds for a date: nothing when no row has the
    date, and otherwise the sums over its rows. *)
Lemma aggregateBurnedByDate_lookup (exercises : list Row) (date : jstring) :
  match aggregateBurnedByDate exercises !! date with
  | Some agg =>
      rowsOn date exercises ≠ []
      ∧ (agg_burnedCalories agg
         == Qsum (List.map (λ row, Qabs (caloriesOf row)) (rowsOn date exercises)))%Q
      ∧ (agg_burnedRawCalories agg
         == Qsum (List.map caloriesOf (rowsOn date exercises)))%Q
  | None => rowsOn date exercises = []
  end.
Proof.
  induction exercises as [|row exercises IH] using rev_ind.
  { unfold aggregateBurnedByDate. cbn [fold_left]. by rewrite lookup_empty. }
  rewrite aggregateBurnedByDate_snoc. unfold rowsOn in *.
  rewrite List.filter_app. cbn [List.filter].
  destruct (dateKey (get row (u "date"))) as [d|] eqn:Hd.
  2:{ rewrite bool_decide_eq_false_2 by done. by rewrite app_nil_r. }
  cbv zeta. destruct (decide (d = date)) as [->|Hne].
  - rewrite lookup_insert_eq, bool_decide_eq_true_2 by done.
    split; [by destruct (List.filter _ exercises)|].
    rewrite !List.map_app. cbn [List.map]. rewrite !Qsum_snoc.
    destruct (aggregateBurnedByDate exercises !! date) as [agg|].
    + destruct IH as (_ & Habs & Hraw).
      cbn [default from_option id agg_burnedCalories agg_burnedRawCalories].
      by rewrite Habs, Hraw.
    + rewrite IH.
      cbn [default from_option id agg_burnedCalories agg_burnedRawCalories
             List.map Qsum fold_right].
      split; ring.
  - rewrite lookup_insert_ne by done.
    rewrite bool_decide_eq_false_2 by congruence. by rewrite app_nil_r.
Qed.

Lemma getByDate_string {A : Type} (map : gmap jstring A) (date : jstring) :
  date ≠ [] → getByDate map (orNull (VString date)) = map !! date.
Proof.
  intros Hne.
  assert (truthy (VString date) = true) as Htruthy.
  { cbn [truthy]. unfold strEqb. by rewrite bool_decide_eq_false_2. }
  unfold getByDate, orNull. by rewrite !Htruthy.
Qed.






End Reconciler.

(** ** Aggregation over the range *)

Section Aggregator.

(** The dates the aggregation reports as lacking a burn source. *)
Lemma aggregate_fails (ctx : Context) (perDay : list ReconciledDay)
    (day : ReconciledDay) :
  day ∈ perDay → burnedSource day = u "none" → truthy (date day) = true →
  ∃ dates,
    aggregate ctx perDay
    = inl
        (HttpError 503
           (Text
              (u "Unable to determine burned calories for one or more completed days."))
           (Some
              {| extra_range := ctx_rangeSpec ctx;
                 daysWithoutBurnSource := dates;
                 extra_scrapeError := ctx_scrapeError ctx;
                 Collab.exercisesFallbackError := ctx_exercisesError ctx |}))
    ∧ date day ∈ dates
    ∧ ∀ d, d ∈ dates ↔
           truthy d = true
           ∧ ∃ day', day' ∈ perDay ∧ burnedSource day' = u "none"
                     ∧ date day' = d.
Proof.
  intros Hin Hnone Hdate. unfold aggregate.
  set (dates := List.filter truthy _).
  assert (∀ d, d ∈ dates ↔
               truthy d = true
               ∧ ∃ day', day' ∈ perDay ∧ burnedSource day' = u "none"
                         ∧ date day' = d) as Hdates.
  { intros d. subst dates. rewrite list_elem_of_In, filter_In, in_map_iff.
    split.
    - intros [(day' & <- & Hday') Hd]. split; [done|].
      apply filter_In in Hday' as [Hday' Hsrc].
      exists day'. rewrite list_elem_of_In. split; [done|]. split; [|done].
      unfold strEqb in Hsrc. by apply bool_decide_eq_true in Hsrc.
    - intros [Hd (day' & Hday' & Hsrc & <-)]. split; [|done].
      exists day'. split; [done|]. apply filter_In.
      rewrite <- list_elem_of_In. split; [done|].
      unfold strEqb. by apply bool_decide_eq_true. }
  assert (date day ∈ dates) as Hmem by (apply Hdates; eauto).
  exists dates. split; [|done].
  destruct dates as [|d dates]; [by apply elem_of_nil in Hmem|done].
Qed.

(** Without a day tagged [none] the aggregation answers, and its totals
    are the sums over all the days. *)
Lemma aggregate_succeeds (ctx : Context) (perDay : list ReconciledDay) :
  Forall (λ day, burnedSource day ≠ u "none") perDay →
  ∃ summary,
    aggregate ctx perDay = inr summary
    ∧ Server.perDay summary = perDay
    ∧ daysUsed summary = length perDay
    ∧ totalConsumedCalories (totals summary) = sumOf consumedCalories perDay
    ∧ totalBurnedCalories (totals summary) = sumOf burnedCalories perDay
    ∧ totalBurnedRawCalories (totals summary)
      = sumOf burnedRawCalories perDay.
Proof.
  intros Hall. unfold aggregate.
  assert (List.filter (λ day, strEqb (burnedSource day) (u "none")) perDay = [])
    as ->.
  { induction Hall as [|day perDay Hday _ IH]; [done|].
    cbn [List.filter]. unfold strEqb at 1.
    by rewrite bool_decide_eq_false_2. }
  cbn [List.map List.filter length Nat.ltb Nat.leb].
  eexists. by split.
Qed.

Lemma aggregate_perDay (ctx : Context) (perDay : list ReconciledDay)
    (summary : Summary) :
  aggregate ctx perDay = inr summary →
  Server.perDay summary = perDay
  ∧ daysUsed summary = length perDay
  ∧ totalConsumedCalories (totals summary) = sumOf consumedCalories perDay
  ∧ totalBurnedCalories (totals summary) = sumOf burnedCalories perDay
  ∧ totalBurnedRawCalories (totals summary) = sumOf burnedRawCalories perDay
  ∧ Forall (λ day, burnedSource day = u "none" → truthy (date day) = false)
      perDay.
Proof.
  intros Hagg.
  assert (Forall (λ day, burnedSource day = u "none" → truthy (date day) = false)
            perDay) as Hdated.
  { apply Forall_forall. intros day Hday Hnone.
    destruct (truthy (date day)) eqn:Hdate; [|done].
    destruct (aggregate_fails ctx perDay day Hday Hnone Hdate) as (? & Hfail & _).
    congruence. }
  revert Hagg. unfold aggregate.
  destruct (0 <? length _)%nat; [done|]. by intros [= <-].
Qed.

Lemma run_tryCatch {W A B : Type} (answer : ∀ X, Cmd X → W → (Exn + X) * W)
    (body : Prog A) (k : Exn + A → Prog B) (w : W) :
  run answer (tryCatch body k) w
  = let '(r, w') := run answer body w in run answer (k r) w'.
Proof.
  revert w. induction body as [a|e|X c k' IH]; intros w; cbn; try done.
  destruct (answer X c w) as [r w']. apply IH.
Qed.

(** What a summary answered by the route is made of: its days are the
    reconciled completed records, its totals the sums over all of them,
    and a day tagged [none] among them has no date. *)
Lemma weeklyAverageDeficit_summary {W : Type}
    (answer : ∀ X, Cmd X → W → (Exn + X) * W) (query : Query) (w w' : W)
    (summary : Summary) :
  run answer (weeklyAverageDeficit query) w = (inr summary, w') →
  ∃ scrapedByDate burnedByDate completedEntries,
    perDay summary
    = List.map (reconcileDay scrapedByDate burnedByDate) completedEntries
    ∧ daysUsed summary = length completedEntries
    ∧ totalBurnedCalories (totals summary)
      = sumOf burnedCalories (perDay summary)
    ∧ Forall (λ day, burnedSource day = u "none" → truthy (date day) = false)
        (perDay summary).
Proof.
  unfold weeklyAverageDeficit.
  destruct (_ || _); [done|].
  unfold call at 1. cbn [run].
  destruct (answer _ (TrailingRange _) w) as [[e|trailing] w1]; [done|].
  unfold call at 1. cbn [run].
  destruct (answer _ TodayLocal w1) as [[e|todayLocal] w2]; [done|].
  unfold call at 1. cbn [run].
  destruct (answer _ (ExportJson _ _) w2) as [[e|nutritionRaw] w3]; [done|].
  rewrite run_tryCatch.
  destruct (run answer _ w3) as [scrapeOutcome w4].
  rewrite run_tryCatch.
  destruct (run answer _ w4) as [exercisesOutcome w5].
  destruct (aggregate _ _) as [e|summary'] eqn:Hagg; [done|].
  cbn [run]. intros [= <- <-].
  apply aggregate_perDay in Hagg as (Hdays & Hused & _ & Hburned & _ & Hdated).
  do 3 eexists. split; [exact Hdays|].
  split; [by rewrite Hused, length_map|].
  split; [by rewrite Hdays|]. by rewrite Hdays.
Qed.

(** C2, at the input where it fails.  The export holds one completed
    record that has no date and no burn field, and nothing else is
    available: the day reconciles to [none], yet the route answers with a
    summary in which the day counts and its burned calories are 0. *)
Theorem undated_unreconciled_day_zero_filled :
  let outcome :=
    run (exportOnlyWorld (JArray [undatedRecord]) JNothing)
      (weeklyAverageDeficit sevenDays) tt in
  ∃ summary,
    fst outcome = inr summary
    ∧ List.map burnedSource (perDay summary) = [u "none"]
    ∧ List.map date (perDay summary) = [VNull]
    ∧ daysUsed summary = 1%nat
    ∧ totalBurnedCalories (totals summary) = 0%Q
    ∧ totalNetCalories (totals summary) = 2000%Q.
Proof.
  intros outcome.
  destruct outcome as [[e|summary] w] eqn:Houtcome;
    subst outcome; vm_compute in Houtcome; [done|].
  exists summary. injection Houtcome as <- _. by vm_compute.
Qed.

(** With a date the same record fails the range: the route raises the
    error that lists it. *)
Example dated_unreconciled_day_fails :
  let outcome :=
    run (exportOnlyWorld (JArray [plainRecord]) JNothing)
      (weeklyAverageDeficit sevenDays) tt in
  ∃ message extra,
    fst outcome = inl (HttpError 503 message (Some extra))
    ∧ daysWithoutBurnSource extra = [VString (u "2024-03-07")].
Proof.
  intros outcome.
  destruct outcome as [[[m|st m [extra|]]|summary] w] eqn:Houtcome;
    subst outcome; vm_compute in Houtcome; try done.
  exists m, extra. injection Houtcome as <- <- <- _. by vm_compute.
Qed.

(** Three days consuming 2200, 2000 and 2100 and burning 2500, 1800 and
    2100: the net calories are -300, 200 and 0, their total is -100, the
    average per day is -100/3 and the range is in deficit.  Today's
    record and the record that is not completed are left out, and the
    pages are visited from the latest date to the earliest. *)
Example three_days_end_to_end :
  let world := workingWorld (JArray threeDays) JNothing threePages in
  let outcome := run world (weeklyAverageDeficit sevenDays) tt in
  ∃ summary,
    fst outcome = inr summary
    ∧ List.map burnedSource (perDay summary)
      = [u "scrape_energy_burned_total"; u "scrape_energy_burned_total";
         u "scrape_energy_burned_total"]
    ∧ List.map netCalories (perDay summary) = [(-300)%Q; 200%Q; 0%Q]
    ∧ totalNetCalories (totals summary) = (-100)%Q
    ∧ (averageNetCaloriesPerDay summary == -100 / 3)%Q
    ∧ averageStatus summary = u "deficit"
    ∧ dataQuality (diagnostics summary) = u "component_complete"
    ∧ In (existT _ (ExecuteScrape (u "session-1")
                      [u "2024-03-09"; u "2024-03-08"; u "2024-03-07"] 180))
        (trace world (weeklyAverageDeficit sevenDays) tt).
Proof.
  intros world outcome.
  destruct outcome as [[e|summary] w] eqn:Houtcome;
    subst outcome; vm_compute in Houtcome; [done|].
  exists summary. injection Houtcome as <- _.
  split. { by vm_compute. }
  split. { by vm_compute. }
  split. { by vm_compute. }
  split. { by vm_compute. }
  split. { by vm_compute. }
  split. { by vm_compute. }
  split. { by vm_compute. }
  vm_compute. do 11 right. by left.
Qed.

End Aggregator.

(** ** A scraped total of zero, and the sign of a scraped total *)

Section ScrapedTotal.

Lemma Qabs_zero (q : Q) : (q == 0)%Q → (Qabs q == 0)%Q.
Proof. intros ->. reflexivity. Qed.

(** C9: when the page scraped for a day shows an Energy Burned of 0, the
    day is tagged [scrape_energy_burned_total] with 0 burned: no later
    tier is consulted, the tag is not [none], the aggregation of the day
    answers with a summary, and the net calories of the day are its
    consumed calories. *)
Theorem zero_scraped_total_selected
    (scrapedByDate : gmap jstring EnergyScrape.ScrapedEntry)
    (burnedByDate : gmap jstring Aggregate) (entry : Row) (date : jstring)
    (raw : RawEntry) (zero : Q) (ctx : Context) :
  get entry (u "date") = VString date → date ≠ [] →
  scrapedByDate !! date = Some (EnergyScrape.normalizeScrapedEntry raw) →
  raw_energyBurned raw = Some zero → (zero == 0)%Q →
  let day := reconcileDay scrapedByDate burnedByDate entry in
  burnedSource day = u "scrape_energy_burned_total"
  ∧ (burnedCalories day == 0)%Q
  ∧ burnedSource day ≠ u "none"
  ∧ (netCalories day == consumedCalories day)%Q
  ∧ ∃ summary, aggregate ctx [day] = inr summary
               ∧ totalBurnedCalories (totals summary) = burnedCalories day.
Proof.
  intros Hdate Hne Hscraped Hraw Hzero day.
  assert (burnedSource day = u "scrape_energy_burned_total"
          ∧ burnedCalories day = Qabs (Qabs zero)
          ∧ netCalories day = (consumedCalories day - burnedCalories day)%Q)
    as (Hsrc & Hburned & Hnet).
  { subst day. unfold reconcileDay.
    assert (EnergyScrape.energyBurned (EnergyScrape.normalizeScrapedEntry raw)
            = Some (Qabs zero)) as Hdirect.
    { unfold EnergyScrape.normalizeScrapedEntry.
      cbn [EnergyScrape.energyBurned]. by rewrite Hraw. }
    rewrite Hdate, !getByDate_string by done. rewrite Hscraped, Hdirect.
    split; [reflexivity|]. split; reflexivity. }
  assert (burnedCalories day == 0)%Q as Hzero'.
  { rewrite Hburned. by do 2 apply Qabs_zero. }
  assert (burnedSource day ≠ u "none") as Hsome.
  { rewrite Hsrc. by vm_compute. }
  split; [done|]. split; [done|]. split; [done|].
  split; [rewrite Hnet, Hzero'; ring|].
  destruct (aggregate_succeeds ctx [day]) as (summary & Hsum & _ & _ & _ & Hb & _).
  { by constructor. }
  exists summary. split; [done|]. rewrite Hb.
  unfold sumOf. cbn [fold_left].
  (* 0 + x, the first turn of the reduction *)
  destruct (burnedCalories day) as [n d]. unfold Qplus. cbn.
  f_equal; lia.
Qed.

Lemma zero_scraped_total_selected_witness :
  let scrapedByDate :=
    mapEnergyScrapeByDate [EnergyScrape.normalizeScrapedEntry zeroTotalScrape] in
  let day := reconcileDay scrapedByDate ∅ plainRecord in
  (get plainRecord (u "date") = VString (u "2024-03-07")
   ∧ u "2024-03-07" ≠ []
   ∧ scrapedByDate !! u "2024-03-07"
     = Some (EnergyScrape.normalizeScrapedEntry zeroTotalScrape)
   ∧ raw_energyBurned zeroTotalScrape = Some 0%Q
   ∧ (0 == 0)%Q)
  ∧ burnedSource day = u "scrape_energy_burned_total"
  ∧ (burnedCalories day == 0)%Q
  ∧ burnedSource day ≠ u "none"
  ∧ (netCalories day == consumedCalories day)%Q
  ∧ ∃ summary, aggregate sampleContext [day] = inr summary
               ∧ totalBurnedCalories (totals summary) = burnedCalories day.
Proof.
  intros scrapedByDate day.
  assert (get plainRecord (u "date") = VString (u "2024-03-07"))
    as Hdate by (vm_compute; reflexivity).
  assert (u "2024-03-07" ≠ []) as Hne by (vm_compute; discriminate).
  assert (scrapedByDate !! u "2024-03-07"
          = Some (EnergyScrape.normalizeScrapedEntry zeroTotalScrape))
    as Hscraped by (vm_compute; reflexivity).
  assert (raw_energyBurned zeroTotalScrape = Some 0%Q)
    as Hraw by reflexivity.
  assert (0 == 0)%Q as Hzero by reflexivity.
  split; [by repeat (split; [assumption|])|].
  exact (zero_scraped_total_selected scrapedByDate ∅ plainRecord
           (u "2024-03-07") zeroTotalScrape 0%Q sampleContext
           Hdate Hne Hscraped Hraw Hzero).
Defined.

(** Whatever the page shows as Energy Burned, the raw figure of the day
    is its magnitude: the scrape tier never reports a negative raw
    total. *)
Lemma scraped_total_raw_is_magnitude
    (scrapedByDate : gmap jstring EnergyScrape.ScrapedEntry)
    (burnedByDate : gmap jstring Aggregate) (entry : Row) (date : jstring)
    (raw : RawEntry) (shown : Q) :
  get entry (u "date") = VString date → date ≠ [] →
  scrapedByDate !! date = Some (EnergyScrape.normalizeScrapedEntry raw) →
  raw_energyBurned raw = Some shown →
  let day := reconcileDay scrapedByDate burnedByDate entry in
  burnedSource day = u "scrape_energy_burned_total"
  ∧ burnedRawCalories day = Qabs shown
  ∧ (0 <= burnedRawCalories day)%Q.
Proof.
  intros Hdate Hne Hscraped Hraw day.
  assert (burnedSource day = u "scrape_energy_burned_total"
          ∧ burnedRawCalories day = Qabs shown) as [Hsrc Hrawday].
  { subst day. unfold reconcileDay.
    assert (EnergyScrape.energyBurned (EnergyScrape.normalizeScrapedEntry raw)
            = Some (Qabs shown)) as Hdirect.
    { unfold EnergyScrape.normalizeScrapedEntry.
      cbn [EnergyScrape.energyBurned]. by rewrite Hraw. }
    rewrite Hdate, !getByDate_string by done. rewrite Hscraped, Hdirect.
    split; reflexivity. }
  split; [done|]. split; [done|]. rewrite Hrawday. apply Qabs_nonneg.
Qed.

(** C8, at the input where it fails.  The page scraped for a day shows
    an Energy Burned of -500: the day is tagged
    [scrape_energy_burned_total] and [burnedCalories] is 500, but
    [burnedRawCalories] is 500 too, the sign having been dropped when the
    entry was normalized.  And a day whose only figure is an export
    burned total of -2500 keeps -2500 as its [burnedCalories]. *)
Theorem scraped_total_sign_dropped :
  let scrapedByDate :=
    mapEnergyScrapeByDate
      [EnergyScrape.normalizeScrapedEntry negativeTotalScrape] in
  let day := reconcileDay scrapedByDate ∅ plainRecord in
  let inferred := reconcileDay ∅ ∅ negativeInferredRecord in
  raw_energyBurned negativeTotalScrape = Some (-500)%Q
  ∧ EnergyScrape.energyBurned
      (EnergyScrape.normalizeScrapedEntry negativeTotalScrape) = Some 500%Q
  ∧ burnedSource day = u "scrape_energy_burned_total"
  ∧ burnedCalories day = 500%Q
  ∧ burnedRawCalories day = 500%Q
  ∧ burnedSource inferred = u "entry:Energy Burned (kcal)"
  ∧ burnedCalories inferred = (-2500)%Q
  ∧ burnedRawCalories inferred = (-2500)%Q.
Proof. by vm_compute. Qed.

End ScrapedTotal.

(** ** The requested dates of a scrape *)

Section RequestedDates.

Lemma strLt_irrefl (a : jstring) : strLt a a = false.
Proof.
  induction a as [|x a IH]; [done|]. simpl.
  by rewrite N.ltb_irrefl, N.eqb_refl, IH.
Qed.

Lemma strLt_trans (a b c : jstring) :
  strLt a b = true → strLt b c = true → strLt a c = true.
Proof.
  revert b c. induction a as [|x a IH]; intros [|y b] [|z c]; simpl; try done.
  rewrite !orb_true_iff, !andb_true_iff, !N.ltb_lt, !N.eqb_eq.
  intros [Hxy|[-> Hab]] [Hyz|[-> Hbc]]; try (left; lia).
  right. split; [done|]. by eapply IH.
Qed.

Lemma strLt_trichotomy (a b : jstring) :
  strLt a b = true ∨ a = b ∨ strLt b a = true.
Proof.
  revert b. induction a as [|x a IH]; intros [|y b]; simpl; auto.
  rewrite !orb_true_iff, !andb_true_iff, !N.ltb_lt, !N.eqb_eq.
  destruct (N.lt_trichotomy x y) as [Hlt|[->|Hgt]]; auto.
  destruct (IH b) as [Hlt|[->|Hgt]]; auto.
Qed.

Lemma strLt_asym (a b : jstring) : strLt a b = true → strLt b a = false.
Proof.
  intros Hab. destruct (strLt b a) eqn:Hba; [|done].
  pose proof (strLt_trans _ _ _ Hab Hba) as Haa.
  by rewrite strLt_irrefl in Haa.
Qed.

Lemma descending_before (a b : jstring) :
  EnergyScrape.descending a b ≠ Gt ↔ strLt a b = false.
Proof.
  unfold EnergyScrape.descending.
  destruct (strLt a b); [done|]. by destruct (strLt b a).
Qed.

Lemma descending_trans (a b c : jstring) :
  EnergyScrape.descending a b ≠ Gt → EnergyScrape.descending b c ≠ Gt →
  EnergyScrape.descending a c ≠ Gt.
Proof.
  rewrite !descending_before. intros Hab Hbc.
  destruct (strLt a c) eqn:Hac; [|done].
  destruct (strLt_trichotomy a b) as [H|[->|H]]; [congruence|congruence|].
  pose proof (strLt_trans _ _ _ H Hac). congruence.
Qed.

Lemma descending_total (a b : jstring) :
  EnergyScrape.descending a b = Gt → EnergyScrape.descending b a ≠ Gt.
Proof.
  rewrite descending_before. unfold EnergyScrape.descending.
  destruct (strLt a b) eqn:Hab; [by intros _; apply strLt_asym|].
  by destruct (strLt b a).
Qed.

Lemma elem_of_setAdd (x d : jstring) (s : list jstring) :
  d ∈ EnergyScrape.setAdd x s ↔ d = x ∨ d ∈ s.
Proof.
  unfold EnergyScrape.setAdd. case_bool_decide as Hx.
  - split; [by right|]. by intros [->|].
  - rewrite elem_of_app, list_elem_of_singleton. tauto.
Qed.

Lemma NoDup_setAdd (x : jstring) (s : list jstring) :
  NoDup s → NoDup (EnergyScrape.setAdd x s).
Proof.
  intros Hs. unfold EnergyScrape.setAdd. case_bool_decide as Hx; [done|].
  apply NoDup_app. split; [done|]. split; [|apply NoDup_singleton].
  intros y Hy Hyx. apply list_elem_of_singleton in Hyx as ->. done.
Qed.

(** The dates a request keeps: the trimmed texts that match the
    pattern, each once. *)
Lemma normalizeDates_unique (dates : list value) (acc : list jstring) :
  let unique :=
    fold_left
      (λ unique date,
         match date with
         | VString date =>
             let trimmed := trim date in
             if EnergyScrape.DATE_RE_test trimmed
             then EnergyScrape.setAdd trimmed unique
             else unique
         | _ => unique
         end)
      dates acc in
  (NoDup acc → NoDup unique)
  ∧ ∀ d, d ∈ unique ↔
         d ∈ acc
         ∨ ∃ s, VString s ∈ dates ∧ d = trim s
                ∧ EnergyScrape.DATE_RE_test d = true.
Proof.
  revert acc. induction dates as [|date dates IH]; intros acc; cbn zeta.
  { cbn [fold_left]. split; [done|]. intros d. split; [by left|].
    intros [?|(s & Hs & _)]; [done|]. by apply elem_of_nil in Hs. }
  cbn [fold_left].
  match goal with
  | |- context [fold_left ?f dates ?acc'] =>
      destruct (IH acc') as [Hnodup Hmem]
  end.
  split.
  - intros Hacc. apply Hnodup.
    destruct date as [| | | |s|]; try done.
    cbv zeta. destruct (EnergyScrape.DATE_RE_test (trim s)); [|done].
    by apply NoDup_setAdd.
  - intros d. rewrite Hmem. clear Hnodup Hmem IH.
    setoid_rewrite elem_of_cons.
    destruct date as [| | | |s|];
      try (split; [intros [?|(s' & Hs' & ?)]; [by left|right; eauto]
                  |intros [?|(s' & [?|Hs'] & ?)];
                     [by left|done|right; eauto]]).
    cbv zeta. destruct (EnergyScrape.DATE_RE_test (trim s)) eqn:Hre.
    + rewrite elem_of_setAdd. split.
      * intros [[->|?]|(s' & Hs' & ?)]; [right|by left|right]; eauto.
      * intros [?|(s' & [[= ->]|Hs'] & -> & ?)]; [by left; right| |right];
          eauto.
    + split.
      * intros [?|(s' & Hs' & ?)]; [by left|right; eauto].
      * intros [?|(s' & [[= ->]|Hs'] & -> & ?)];
          [by left|congruence|right; eauto].
Qed.

Lemma isDigit_bounds (c : N) :
  EnergyScrape.isDigit c = true ↔ (48 <= c ∧ c <= 57)%N.
Proof.
  unfold EnergyScrape.isDigit. by rewrite andb_true_iff, !N.leb_le.
Qed.

Lemma strLt_cons (x y : N) (a b : jstring) :
  strLt (x :: a) (y :: b) = true ↔ (x < y)%N ∨ x = y ∧ strLt a b = true.
Proof.
  cbn [strLt]. by rewrite orb_true_iff, andb_true_iff, N.ltb_lt, N.eqb_eq.
Qed.

(** One position of the comparison: the heads differ and decide, or
    they agree and the tails decide. *)
Ltac compare_heads :=
  rewrite strLt_cons;
  match goal with
  | |- (?x < ?y)%N ∨ ?x = ?y ∧ ?rest ↔ _ =>
      destruct (N.lt_trichotomy x y) as [?|[?|?]];
      [ split; [intros _; lia | intros _; by left]
      | subst; transitivity rest;
        [ split; [intros [?|[_ ?]]; [lia|done] | intros ?; by right] | ]
      | split; [intros [?|[? _]]; lia | intros ?; lia] ]
  end.

(** On texts that match the pattern, the order of strings is the order
    of the calendar. *)
Lemma strLt_dateOrdinal (a b : jstring) :
  EnergyScrape.DATE_RE_test a = true → EnergyScrape.DATE_RE_test b = true →
  strLt a b = true ↔ (dateOrdinal a < dateOrdinal b)%N.
Proof.
  destruct a as [|a1 [|a2 [|a3 [|a4 [|a5 [|a6 [|a7 [|a8 [|a9 [|a10 [|]]]]]]]]]]];
    try done.
  destruct b as [|b1 [|b2 [|b3 [|b4 [|b5 [|b6 [|b7 [|b8 [|b9 [|b10 [|]]]]]]]]]]];
    try done.
  unfold EnergyScrape.DATE_RE_test. cbn [forallb].
  rewrite !andb_true_iff, !isDigit_bounds, !N.eqb_eq.
  intros [[(?&?&?&?&?&?&?&?&_) ->] ->] [[(?&?&?&?&?&?&?&?&_) ->] ->].
  repeat
    match goal with
    | H : (48 <= ?c ∧ ?c <= 57)%N |- _ =>
        let d := fresh "d" in
        assert (∃ d, c = (d + 48)%N ∧ (d <= 9)%N) as (d & -> & ?)
          by (exists (c - 48)%N; lia);
        clear H
    end.
  unfold dateOrdinal, digitValue. rewrite !N.add_sub.
  do 10 compare_heads.
  cbn [strLt]. split; [done | lia].
Qed.

Lemma StronglySorted_strict {A : Type} (R R' : A → A → Prop) (l : list A) :
  StronglySorted R l → NoDup l →
  (∀ a b, a ∈ l → b ∈ l → R a b → a ≠ b → R' a b) →
  StronglySorted R' l.
Proof.
  induction 1 as [|x l Hl IH Hx]; intros Hnodup Hstrict; [constructor|].
  apply NoDup_cons in Hnodup as [Hnotin Hnodup].
  constructor.
  - apply IH; [done|]. intros a b Ha Hb. apply Hstrict; by right.
  - rewrite Forall_forall in Hx |- *. intros y Hy.
    apply Hstrict; [by left | by right | by apply Hx |].
    by intros ->.
Qed.

(** C10: the requested dates are normalized first.  The normalized list
    holds exactly the trimmed texts of the string entries that match
    YYYY-MM-DD, each once, in strictly descending order, of the strings
    and of the calendar alike; and when it is empty the scrape returns
    the empty array at once: no command is issued, so no credential is
    loaded and no browser session is created. *)
Theorem scrape_normalizes_requested_dates (dates : list value)
    (onStatus : bool) :
  let normalized := EnergyScrape.normalizeDates dates in
  (∀ d, d ∈ normalized ↔
        ∃ s, VString s ∈ dates ∧ d = trim s
             ∧ EnergyScrape.DATE_RE_test d = true)
  ∧ NoDup normalized
  ∧ StronglySorted (λ a b, strLt b a = true) normalized
  ∧ StronglySorted (λ a b, (dateOrdinal b < dateOrdinal a)%N) normalized
  ∧ (normalized = [] →
     EnergyScrape.scrapeEnergySummaryForDates dates onStatus = Ret []
     ∧ ∀ (W : Type) (answer : ∀ X, Cmd X → W → (Exn + X) * W) (w : W),
         run answer (EnergyScrape.scrapeEnergySummaryForDates dates onStatus) w
         = (inr [], w)
         ∧ trace answer
             (EnergyScrape.scrapeEnergySummaryForDates dates onStatus) w
           = [])
  ∧ (normalized ≠ [] →
     ∃ k, EnergyScrape.scrapeEnergySummaryForDates dates onStatus
          = Do LoadCredentialsModule k)
  ∧ EnergyScrape.normalizeDates requestedDates
    = [u "2024-01-05"; u "2024-01-02"; u "2023-12-31"].
Proof.
  intros normalized.
  pose proof (normalizeDates_unique dates []) as Hunique.
  cbv zeta in Hunique. destruct Hunique as [Hnodup Hmem].
  specialize (Hnodup (NoDup_nil_2 (A:=jstring))).
  assert (∀ d, d ∈ normalized ↔
               ∃ s, VString s ∈ dates ∧ d = trim s
                    ∧ EnergyScrape.DATE_RE_test d = true) as Hin.
  { intros d. subst normalized. unfold EnergyScrape.normalizeDates.
    rewrite sort_Permutation, Hmem. split; [|by right].
    intros [H|H]; [by apply elem_of_nil in H | done]. }
  assert (NoDup normalized) as Hnd.
  { subst normalized. unfold EnergyScrape.normalizeDates.
    by rewrite sort_Permutation. }
  assert (StronglySorted (λ a b, strLt b a = true) normalized) as Hsorted.
  { apply (StronglySorted_strict (λ a b, EnergyScrape.descending a b ≠ Gt));
      [|done|].
    - subst normalized. unfold EnergyScrape.normalizeDates.
      apply sort_sorted; [apply descending_trans | apply descending_total].
    - intros a b _ _ Hab Hne. apply descending_before in Hab.
      destruct (strLt_trichotomy a b) as [H|[H|H]]; [congruence|done|done]. }
  split; [done|]. split; [done|]. split; [done|]. split.
  { eapply StronglySorted_strict; [exact Hsorted|done|].
    intros a b Ha Hb Hlt _. cbv beta in Hlt.
    apply Hin in Ha as (sa & _ & _ & Ha). apply Hin in Hb as (sb & _ & _ & Hb).
    by apply strLt_dateOrdinal. }
  split.
  { intros Hnil.
    assert (EnergyScrape.scrapeEnergySummaryForDates dates onStatus = Ret [])
      as ->.
    { unfold EnergyScrape.scrapeEnergySummaryForDates.
      fold normalized. by rewrite Hnil. }
    done. }
  split.
  { intros Hne. unfold EnergyScrape.scrapeEnergySummaryForDates.
    fold normalized. destruct normalized; [done|]. cbn [length Nat.eqb].
    unfold call at 1. by eexists. }
  by vm_compute.
Qed.

End RequestedDates.

(** ** Further properties of the field extractor *)

Section AliasPriority.

Lemma getNumericField_None (entry : Row) (keys : list jstring) :
  getNumericField entry keys = None
  ↔ ∀ key v, key ∈ keys → entry !! key = Some v → parseNumber v = None.
Proof.
  induction keys as [|key keys IH]; simpl.
  { split; [|done]. intros _ key v Hin. by apply elem_of_nil in Hin. }
  destruct (entry !! key) as [v|] eqn:Hk.
  - destruct (parseNumber v) as [q|] eqn:Hv.
    + split; [done|]. intros H.
      assert (key ∈ key :: keys) as Hin by (by left).
      specialize (H key v Hin Hk). congruence.
    + rewrite IH. split.
      * intros H key' v' Hin Hk'. apply elem_of_cons in Hin as [->|Hin].
        -- congruence.
        -- by eapply H.
      * intros H key' v' Hin. apply H. by right.
  - rewrite IH. split.
    + intros H key' v' Hin Hk'. apply elem_of_cons in Hin as [->|Hin].
      * congruence.
      * by eapply H.
    + intros H key' v' Hin. apply H. by right.
Qed.

(** The aliases are tried in the order given: the field found is the
    first alias that the record has with a value that parses, whatever
    aliases follow it; nothing is found exactly when no alias of the list
    is present with a value that parses. *)
Theorem getNumericField_first_match (entry : Row) (keys : list jstring) :
  (∀ found,
     getNumericField entry keys = Some found ↔
     ∃ earlier later v,
       keys = earlier ++ found_key found :: later
       ∧ entry !! found_key found = Some v
       ∧ parseNumber v = Some (found_value found)
       ∧ getNumericField entry earlier = None)
  ∧ (getNumericField entry keys = None
     ↔ ∀ key v, key ∈ keys → entry !! key = Some v → parseNumber v = None).
Proof.
  split; [|apply getNumericField_None].
  induction keys as [|key keys IH]; intros found.
  { split; [done|]. intros (earlier & later & v & Hkeys & _).
    by destruct earlier. }
  cbn [getNumericField].
  destruct (entry !! key) as [v|] eqn:Hk.
  - destruct (parseNumber v) as [q|] eqn:Hv.
    + split.
      * intros [= <-]. exists [], keys, v. by cbn.
      * intros (earlier & later & v' & Hkeys & Hk' & Hv' & Hnone).
        destruct earlier as [|key' earlier].
        -- cbn in Hkeys. injection Hkeys as Hkey _.
           destruct found as [fv fk]. cbn in *. subst fk.
           f_equal. congruence.
        -- cbn in Hkeys. injection Hkeys as <- _.
           cbn [getNumericField] in Hnone. by rewrite Hk, Hv in Hnone.
    + rewrite IH. split.
      * intros (earlier & later & v' & -> & Hk' & Hv' & Hnone).
        exists (key :: earlier), later, v'. cbn [getNumericField].
        by rewrite Hk, Hv.
      * intros (earlier & later & v' & Hkeys & Hk' & Hv' & Hnone).
        destruct earlier as [|key' earlier].
        -- cbn in Hkeys. injection Hkeys as Hkey _. congruence.
        -- cbn in Hkeys. injection Hkeys as <- ->.
           cbn [getNumericField] in Hnone. rewrite Hk, Hv in Hnone.
           by exists earlier, later, v'.
  - rewrite IH. split.
    + intros (earlier & later & v' & -> & Hk' & Hv' & Hnone).
      exists (key :: earlier), later, v'. cbn [getNumericField].
      by rewrite Hk.
    + intros (earlier & later & v' & Hkeys & Hk' & Hv' & Hnone).
      destruct earlier as [|key' earlier].
      * cbn in Hkeys. injection Hkeys as Hkey _. congruence.
      * cbn in Hkeys. injection Hkeys as <- ->.
        cbn [getNumericField] in Hnone. rewrite Hk in Hnone.
        by exists earlier, later, v'.
Qed.

End AliasPriority.

(** ** Totals of the export components *)

Section Totals.

Lemma Qabs_sum_le (a b a' b' : Q) :
  (Qabs a <= a')%Q → (Qabs b <= b')%Q → (Qabs (a + b) <= a' + b')%Q.
Proof.
  intros Ha Hb. eapply Qle_trans; [apply Qabs_triangle|].
  by apply Qplus_le_compat.
Qed.

(** What a loop of [extractBurnedComponents] adds to the totals and to
    the components. *)
Lemma extractStep_fold_totals (entry : Row)
    (table : list (jstring * list jstring))
    (acc : gmap jstring Component * list jstring * Q * Q) :
  let result := fold_left (extractStep entry) table acc in
  (result.1.2 == acc.1.2 + Qsum (List.map (λ ck, foundMagnitude entry ck.2) table))%Q
  ∧ (result.2 == acc.2 + Qsum (List.map (λ ck, foundRaw entry ck.2) table))%Q
  ∧ ∀ c, is_Some (result.1.1.1 !! c) ↔
         is_Some (acc.1.1.1 !! c)
         ∨ ∃ keys, (c, keys) ∈ table ∧ is_Some (getNumericField entry keys).
Proof.
  revert acc. induction table as [|[component keys] table IH]; intros acc.
  { destruct acc as [[[comps missing] t0] r0].
    cbv zeta. cbn [fold_left List.map Qsum fold_right fst snd].
    split; [ring|]. split; [ring|]. intros c. split; [by left|].
    intros [?|(keys & Hin & _)]; [done|]. by apply elem_of_nil in Hin. }
  cbn [fold_left List.map].
  destruct (IH (extractStep entry acc (component, keys))) as (Ht & Hr & Hc).
  cbv zeta. rewrite Ht, Hr. clear Ht Hr IH.
  change (Qsum (?x :: ?l)) with (x + Qsum l)%Q.
  generalize (Qsum (List.map (λ ck, foundMagnitude entry ck.2) table)).
  generalize (Qsum (List.map (λ ck, foundRaw entry ck.2) table)).
  intros sumRaw sumMagnitude.
  destruct acc as [[[comps missing] t0] r0].
  assert (∀ c, is_Some ((extractStep entry (comps, missing, t0, r0)
                           (component, keys)).1.1.1 !! c)
               ↔ is_Some (comps !! c)
                 ∨ (c = component ∧ is_Some (getNumericField entry keys)))
    as Hstep.
  { intros c. unfold extractStep.
    destruct (getNumericField entry keys) as [found|]; cbn [fst snd].
    - destruct (decide (component = c)) as [->|Hne].
      + rewrite lookup_insert_eq. split; [by right|by intros _; eexists].
      + rewrite lookup_insert_ne by done. split; [by left|].
        by intros [?|[-> _]].
    - split; [by left|]. intros [?|[_ Hsome]]; [done|by destruct Hsome]. }
  split; [|split].
  - unfold extractStep, foundMagnitude, foundRaw. cbn [fst snd].
    destruct (getNumericField entry keys); cbn [fst snd]; [ring|].
    change (Qabs 0) with 0%Q. ring.
  - unfold extractStep, foundMagnitude, foundRaw. cbn [fst snd].
    destruct (getNumericField entry keys); cbn [fst snd]; ring.
  - intros c. rewrite Hc, Hstep. cbn [fst snd]. split.
    + intros [[?|[-> Hsome]]|(keys' & Hin & Hsome)]; [by left|right..].
      * exists keys. split; [by left|done].
      * exists keys'. split; [by right|done].
    + intros [?|(keys' & Hin & Hsome)]; [by left; left|].
      apply elem_of_cons in Hin as [[= -> ->]|Hin]; [by left; right|].
      right; eauto.
Qed.

Lemma Qabs_Qsum_le {A : Type} (f : A → Q) (l : list A) :
  (Qabs (Qsum (List.map f l)) <= Qsum (List.map (λ x, Qabs (f x)) l))%Q.
Proof.
  induction l as [|x l IH]; cbn; [done|].
  apply Qabs_sum_le; [apply Qle_refl | done].
Qed.

Lemma Qsum_nonneg (l : list Q) : Forall (λ q, (0 <= q)%Q) l → (0 <= Qsum l)%Q.
Proof.
  induction 1 as [|q l Hq _ IH]; cbn; [done|].
  replace 0%Q with (0 + 0)%Q by done. by apply Qplus_le_compat.
Qed.

Lemma Qsum_app (a b : list Q) : (Qsum (a ++ b) == Qsum a + Qsum b)%Q.
Proof.
  unfold Qsum. induction a as [|x a IHa]; cbn [app fold_right]; [ring|].
  rewrite IHa. ring.
Qed.

(** The two totals and the components of a record, over the five
    tables. *)
Lemma extractBurnedComponents_sums (entry : Row) :
  let export := extractBurnedComponents entry in
  (total export
   == Qsum (List.map (λ ck, foundMagnitude entry ck.2) burnTables))%Q
  ∧ (rawTotal export
     == Qsum (List.map (λ ck, foundRaw entry ck.2) burnTables))%Q
  ∧ ∀ c, is_Some (components export !! c) ↔
         ∃ keys, (c, keys) ∈ burnTables
                 ∧ is_Some (getNumericField entry keys).
Proof.
  intros export.
  pose proof (extractStep_fold_totals entry BURN_COMPONENT_KEYS
                (∅, [], 0%Q, 0%Q)) as H1.
  subst export. unfold extractBurnedComponents.
  destruct (fold_left (extractStep entry) BURN_COMPONENT_KEYS _)
    as [[[comps missing] total1] raw1].
  cbv zeta in H1. cbn [fst snd] in H1. destruct H1 as (Ht1 & Hr1 & Hc1).
  pose proof (extractStep_fold_totals entry OPTIONAL_BURN_COMPONENT_KEYS
                (comps, [], total1, raw1)) as H2.
  destruct (fold_left (extractStep entry) OPTIONAL_BURN_COMPONENT_KEYS _)
    as [[[comps' missing'] total2] raw2].
  cbv zeta in H2. cbn [fst snd] in H2. destruct H2 as (Ht2 & Hr2 & Hc2).
  cbn [total rawTotal components]. unfold burnTables.
  rewrite !List.map_app, !Qsum_app, Ht2, Hr2, Ht1, Hr1.
  split; [ring|]. split; [ring|].
  intros c. rewrite Hc2, Hc1, lookup_empty. split.
  - intros [[Hempty|(keys & Hin & Hsome)]|(keys & Hin & Hsome)].
    + by destruct Hempty.
    + exists keys. rewrite elem_of_app. eauto.
    + exists keys. rewrite elem_of_app. eauto.
  - intros (keys & Hin & Hsome). apply elem_of_app in Hin as [Hin|Hin].
    + left. right. eauto.
    + right. eauto.
Qed.

Lemma extractBurnedComponents_total_bounds (entry : Row) :
  (0 <= total (extractBurnedComponents entry))%Q
  ∧ (Qabs (rawTotal (extractBurnedComponents entry))
     <= total (extractBurnedComponents entry))%Q.
Proof.
  destruct (extractBurnedComponents_sums entry) as (Htotal & Hraw & _).
  cbv zeta in Htotal, Hraw. rewrite Htotal, Hraw. split.
  - apply Qsum_nonneg, Forall_forall.
    intros q Hq. apply list_elem_of_In, in_map_iff in Hq as (ck & <- & _).
    apply Qabs_nonneg.
  - apply Qabs_Qsum_le.
Qed.


End Totals.

(** ** The exercise log, by date and by exercise *)

Section ExerciseLog.

Lemma orZero_Qeq (v : option Q) :
  (EnergyScrape.orZero v == default 0 v)%Q.
Proof.
  destruct v as [q|]; cbn; [|done].
  destruct (Qeq_bool q 0) eqn:Hq; [|done].
  apply Qeq_bool_iff in Hq. by rewrite Hq.
Qed.



End ExerciseLog.

(** ** The scraped entries, by date *)

Section ScrapeByDate.

Lemma mapEnergyScrapeByDate_lookup
    (entries : list EnergyScrape.ScrapedEntry) (date : jstring) :
  mapEnergyScrapeByDate entries !! date = last (entriesOn date entries).
Proof.
  induction entries as [|entry entries IH] using rev_ind; [done|].
  unfold mapEnergyScrapeByDate, entriesOn in *.
  rewrite fold_left_app, List.filter_app. cbn [fold_left List.filter].
  destruct (dateKey (EnergyScrape.date entry)) as [d|] eqn:Hd.
  - destruct (decide (d = date)) as [->|Hne].
    + rewrite lookup_insert_eq, bool_decide_eq_true_2 by done.
      by rewrite last_snoc.
    + rewrite lookup_insert_ne by done.
      rewrite bool_decide_eq_false_2 by congruence. by rewrite app_nil_r.
  - rewrite bool_decide_eq_false_2 by done. by rewrite app_nil_r.
Qed.

Lemma mapEnergyScrapeByDate_elem
    (entries : list EnergyScrape.ScrapedEntry) (date : jstring)
    (scraped : EnergyScrape.ScrapedEntry) :
  mapEnergyScrapeByDate entries !! date = Some scraped →
  scraped ∈ entries ∧ dateKey (EnergyScrape.date scraped) = Some date.
Proof.
  rewrite mapEnergyScrapeByDate_lookup. intros Hlast.
  apply last_Some in Hlast as (before & Hfilter).
  assert (In scraped (entriesOn date entries)) as Hin.
  { rewrite Hfilter. apply in_app_iff. right. by left. }
  apply filter_In in Hin as [Hin Hdate].
  split; [by apply list_elem_of_In|]. by apply bool_decide_eq_true in Hdate.
Qed.

Lemma dateKey_nonempty (v : value) : dateKey v ≠ Some [].
Proof.
  unfold dateKey. destruct v as [| | | |s|]; try done.
  destruct (strEqb s []) eqn:Hs; [done|].
  intros [= ->]. unfold strEqb in Hs.
  by rewrite bool_decide_eq_true_2 in Hs.
Qed.

(** The map of scraped entries holds, for a date, the last entry scraped
    for it: a date scraped twice keeps the later reading, and an entry
    whose date is not a non-empty string is under no key. *)
Theorem mapEnergyScrapeByDate_last_wins
    (entries : list EnergyScrape.ScrapedEntry) (date : jstring) :
  mapEnergyScrapeByDate entries !! date = last (entriesOn date entries)
  ∧ (date = [] → mapEnergyScrapeByDate entries !! date = None).
Proof.
  split; [apply mapEnergyScrapeByDate_lookup|]. intros ->.
  destruct (mapEnergyScrapeByDate entries !! []) as [scraped|] eqn:Hlookup;
    [|done].
  apply mapEnergyScrapeByDate_elem in Hlookup as [_ Hdate].
  by apply dateKey_nonempty in Hdate.
Qed.

End ScrapeByDate.

(** ** The totals of a scraped day *)

Section ScrapedTotals.

Lemma magnitudeOf_orZero (v : option Q) :
  (Qabs (EnergyScrape.orZero v) == magnitudeOf v)%Q.
Proof. unfold magnitudeOf. by rewrite orZero_Qeq. Qed.

Lemma magnitudeOf_nonneg (v : option Q) : (0 <= magnitudeOf v)%Q.
Proof. apply Qabs_nonneg. Qed.

Lemma componentTotals_sum (entry : RawEntry) :
  let normal := EnergyScrape.normalizeScrapedEntry entry in
  (EnergyScrape.componentTotalCore normal
   == magnitudeOf (raw_bmr entry) + magnitudeOf (raw_tef entry)
      + magnitudeOf (raw_exercise entry)
      + magnitudeOf (raw_trackerActivity entry))%Q
  ∧ (EnergyScrape.componentTotalWithBaseline normal
     == EnergyScrape.componentTotalCore normal
        + magnitudeOf (raw_baseline entry))%Q.
Proof.
  intros normal. subst normal. unfold EnergyScrape.normalizeScrapedEntry.
  cbn [EnergyScrape.componentTotalCore EnergyScrape.componentTotalWithBaseline
         List.map fold_left snd].
  rewrite !magnitudeOf_orZero. split; [ring|done].
Qed.

Lemma componentTotals_nonneg (entry : RawEntry) :
  let normal := EnergyScrape.normalizeScrapedEntry entry in
  (0 <= EnergyScrape.componentTotalCore normal)%Q
  ∧ (EnergyScrape.componentTotalCore normal
     <= EnergyScrape.componentTotalWithBaseline normal)%Q.
Proof.
  intros normal. destruct (componentTotals_sum entry) as [Hcore Hbase].
  cbv zeta in Hcore, Hbase. fold normal in Hcore, Hbase.
  rewrite Hbase, Hcore.
  pose proof (magnitudeOf_nonneg (raw_bmr entry)).
  pose proof (magnitudeOf_nonneg (raw_tef entry)).
  pose proof (magnitudeOf_nonneg (raw_exercise entry)).
  pose proof (magnitudeOf_nonneg (raw_trackerActivity entry)).
  pose proof (magnitudeOf_nonneg (raw_baseline entry)). split; lra.
Qed.

(** The totals of a normalized entry are ordered: the total of the four
    core components is the sum of their magnitudes, the total with the
    baseline adds the magnitude of the baseline, and the resolved total
    is below neither it nor the total shown on the page; it is 0 exactly
    when no candidate was selected. *)
Theorem normalizeScrapedEntry_totals_ordered (entry : RawEntry) :
  let normal := EnergyScrape.normalizeScrapedEntry entry in
  (EnergyScrape.componentTotalCore normal
   == magnitudeOf (raw_bmr entry) + magnitudeOf (raw_tef entry)
      + magnitudeOf (raw_exercise entry)
      + magnitudeOf (raw_trackerActivity entry))%Q
  ∧ (EnergyScrape.componentTotalWithBaseline normal
     == EnergyScrape.componentTotalCore normal
        + magnitudeOf (raw_baseline entry))%Q
  ∧ (0 <= EnergyScrape.componentTotalCore normal)%Q
  ∧ (EnergyScrape.componentTotalCore normal
     <= EnergyScrape.componentTotalWithBaseline normal)%Q
  ∧ (EnergyScrape.componentTotalWithBaseline normal
     <= EnergyScrape.resolvedBurnedTotal normal)%Q
  ∧ (∀ shown, EnergyScrape.energyBurned normal = Some shown →
       (0 <= shown)%Q
       ∧ (shown <= EnergyScrape.resolvedBurnedTotal normal)%Q)
  ∧ (EnergyScrape.resolvedBurnedSource normal = None
     ↔ (EnergyScrape.resolvedBurnedTotal normal == 0)%Q).
Proof.
  intros normal.
  destruct (componentTotals_sum entry) as [Hcore Hbase].
  destruct (componentTotals_nonneg entry) as [Hcore0 Hle].
  cbv zeta in Hcore, Hbase, Hcore0, Hle.
  fold normal in Hcore, Hbase, Hcore0, Hle.
  destruct (burnCandidates_shape entry) as (balance & Hshape & _).
  pose proof (resolved_selection entry) as Hsel. cbv zeta in Hsel, Hshape.
  fold normal in Hsel, Hshape. rewrite Hshape in Hsel.
  assert (∀ name v,
            (name, Some v)
            ∈ [(u "energyBurned", option_map Qabs (raw_energyBurned entry));
               (u "energyBalance", balance);
               (u "componentTotalWithBaseline",
                Some (EnergyScrape.componentTotalWithBaseline normal))] →
            (v <= EnergyScrape.resolvedBurnedTotal normal)%Q
            ∧ (0 <= EnergyScrape.resolvedBurnedTotal normal)%Q) as Hmax.
  { intros name v Hin.
    destruct (EnergyScrape.resolvedBurnedSource normal) as [chosen|].
    - destruct Hsel as (best & _ & Hbest & -> & Hall).
      split; [|lra].
      destruct (Qlt_le_dec 0 v) as [Hv|Hv]; [by eapply Hall|lra].
    - destruct Hsel as (-> & Hall). split; [|lra].
      destruct (Qlt_le_dec 0 v) as [Hv|Hv]; [by apply Hall in Hin|done]. }
  split; [done|]. split; [done|]. split; [done|]. split; [done|].
  split.
  { eapply (Hmax (u "componentTotalWithBaseline")).
    rewrite !elem_of_cons. auto. }
  split.
  { intros shown Hshown.
    assert (option_map Qabs (raw_energyBurned entry) = Some shown) as Hraw
      by done.
    split.
    - destruct (raw_energyBurned entry) as [raw|]; [|done].
      injection Hraw as <-. apply Qabs_nonneg.
    - eapply (Hmax (u "energyBurned")). rewrite Hraw.
      rewrite !elem_of_cons. auto. }
  destruct (EnergyScrape.resolvedBurnedSource normal) as [chosen|].
  - destruct Hsel as (best & _ & Hbest & -> & _). split; [done|].
    intros Hzero. rewrite Hzero in Hbest. by apply Qlt_irrefl in Hbest.
  - destruct Hsel as (-> & _). done.
Qed.

End ScrapedTotals.

(** ** The sign of the burned figure of a day *)

Section BurnedSign.

Lemma getByDate_Some {A : Type} (map : gmap jstring A) (date : value) (a : A) :
  getByDate map date = Some a →
  ∃ d, date = VString d ∧ d ≠ [] ∧ map !! d = Some a.
Proof.
  unfold getByDate. destruct (truthy date) eqn:Htruthy; [|done].
  destruct date as [| | | |d|]; try done. intros Hlookup.
  exists d. split; [done|]. split; [|done]. by intros ->.
Qed.

Lemma scraped_lookup_normal (raws : list RawEntry) (date : value)
    (scraped : EnergyScrape.ScrapedEntry) :
  getByDate
    (mapEnergyScrapeByDate (List.map EnergyScrape.normalizeScrapedEntry raws))
    date = Some scraped →
  ∃ raw, raw ∈ raws ∧ scraped = EnergyScrape.normalizeScrapedEntry raw.
Proof.
  intros Hget. apply getByDate_Some in Hget as (d & _ & _ & Hlookup).
  apply mapEnergyScrapeByDate_elem in Hlookup as [Hin _].
  apply list_elem_of_In, in_map_iff in Hin as (raw & <- & Hin).
  exists raw. split; [by apply list_elem_of_In|done].
Qed.

Lemma aggregate_lookup_bounds (exercises : list Row) (date : value)
    (agg : Aggregate) :
  getByDate (aggregateBurnedByDate exercises) date = Some agg →
  (0 <= agg_burnedCalories agg)%Q
  ∧ (Qabs (agg_burnedRawCalories agg) <= agg_burnedCalories agg)%Q.
Proof.
  intros Hget. apply getByDate_Some in Hget as (d & _ & _ & Hlookup).
  pose proof (aggregateBurnedByDate_lookup exercises d) as Hsums.
  rewrite Hlookup in Hsums. destruct Hsums as (_ & Habs & Hraw).
  assert (Qabs (agg_burnedRawCalories agg) <= agg_burnedCalories agg)%Q
    as Hbound.
  { rewrite Habs, Hraw. apply Qabs_Qsum_le. }
  split; [|done]. eapply Qle_trans; [apply Qabs_nonneg|done].
Qed.

(** [burnedCalories] of a reconciled day is negative only for a day that
    took the burned total of its export record: every other tier reports
    a magnitude.  The raw figure is never larger in magnitude than the
    reported one. *)
Theorem reconcileDay_negative_only_inferred (raws : list RawEntry)
    (exercises : list Row) (entry : Row) :
  let scrapedByDate :=
    mapEnergyScrapeByDate (List.map EnergyScrape.normalizeScrapedEntry raws) in
  let day :=
    reconcileDay scrapedByDate (aggregateBurnedByDate exercises) entry in
  ((0 <= burnedCalories day)%Q
   ∨ ∃ inferred, inferBurnedCalories entry = Some inferred
                 ∧ burnedSource day = source inferred
                 ∧ burnedCalories day = burned inferred
                 ∧ (burned inferred < 0)%Q)
  ∧ (Qabs (burnedRawCalories day) <= Qabs (burnedCalories day))%Q.
Proof.
  intros scrapedByDate day.
  assert (∀ s, getByDate scrapedByDate (orNull (get entry (u "date"))) = Some s →
            (0 <= EnergyScrape.componentTotalWithBaseline s)%Q
            ∧ ∀ e, EnergyScrape.energyBurned s = Some e → (0 <= e)%Q)
    as Hscraped.
  { intros s Hs. apply scraped_lookup_normal in Hs as (raw & _ & ->).
    destruct (componentTotals_nonneg raw) as [Hcore Hle].
    split; [by eapply Qle_trans|].
    unfold EnergyScrape.normalizeScrapedEntry.
    cbn [EnergyScrape.energyBurned]. intros e He.
    destruct (raw_energyBurned raw); [|done].
    injection He as <-. apply Qabs_nonneg. }
  pose proof (aggregate_lookup_bounds exercises
                (orNull (get entry (u "date")))) as Hagg.
  destruct (extractBurnedComponents_total_bounds entry) as [Htotal Hraw].
  assert (∀ q, 0 <= q → Qabs q <= Qabs q)%Q as Hrefl
    by (intros; apply Qle_refl).
  assert (∀ q r, 0 <= q → Qabs r <= q → Qabs r <= Qabs q)%Q as Hmag.
  { intros q r Hq Hr. by rewrite (Qabs_pos q). }
  subst day. unfold reconcileDay.
  destruct (getByDate scrapedByDate _) as [s|].
  { destruct (Hscraped s eq_refl) as [Hwith Hshown].
    destruct (EnergyScrape.energyBurned s) as [e|].
    { cbn [burnedCalories burnedRawCalories default from_option id].
      split; [left; apply Qabs_nonneg|].
      rewrite (Qabs_pos (Qabs e)) by apply Qabs_nonneg. apply Qle_refl. }
    destruct (EnergyScrape.hasAllCoreComponents s
              && Qltb 0 (EnergyScrape.componentTotalWithBaseline s)).
    { cbn [burnedCalories burnedRawCalories default from_option id].
      split; [by left|apply Qle_refl]. }
    destruct (Qltb 0 (EnergyScrape.componentTotalWithBaseline s)).
    { cbn [burnedCalories burnedRawCalories default from_option id].
      split; [by left|apply Qle_refl]. }
    destruct (hasAny (extractBurnedComponents entry)).
    { cbn [burnedCalories burnedRawCalories default from_option id].
      split; [by left|by apply Hmag]. }
    destruct (inferBurnedCalories entry) as [inferred|].
    { cbn [burnedCalories burnedRawCalories burnedSource
             default from_option id].
      split; [|apply Qle_refl].
      destruct (Qlt_le_dec (burned inferred) 0) as [Hneg|Hpos]; [|by left].
      right. by exists inferred. }
    destruct (getByDate (aggregateBurnedByDate exercises) _) as [agg|].
    { destruct (Hagg agg eq_refl) as [Hpos Hbound].
      cbn [burnedCalories burnedRawCalories default from_option id].
      split; [by left|by apply Hmag]. }
    cbn [burnedCalories burnedRawCalories default from_option id].
    split; [by left|apply Qle_refl]. }
  destruct (hasAny (extractBurnedComponents entry)).
  { cbn [burnedCalories burnedRawCalories default from_option id].
    split; [by left|by apply Hmag]. }
  destruct (inferBurnedCalories entry) as [inferred|].
  { cbn [burnedCalories burnedRawCalories burnedSource
           default from_option id].
    split; [|apply Qle_refl].
    destruct (Qlt_le_dec (burned inferred) 0) as [Hneg|Hpos]; [|by left].
    right. by exists inferred. }
  destruct (getByDate (aggregateBurnedByDate exercises) _) as [agg|].
  { destruct (Hagg agg eq_refl) as [Hpos Hbound].
    cbn [burnedCalories burnedRawCalories default from_option id].
    split; [by left|by apply Hmag]. }
  cbn [burnedCalories burnedRawCalories default from_option id].
  split; [by left|apply Qle_refl].
Qed.

End BurnedSign.

(** ** Days the exercise log is not asked for *)

Section FallbackTest.

Lemma inferred_source_not_none (entry : Row) (inferred : InferredBurned) :
  inferBurnedCalories entry = Some inferred → source inferred ≠ u "none".
Proof.
  unfold inferBurnedCalories.
  destruct (getNumericField entry _) as [found|]; [|done].
  intros [= <-]. cbn [source]. intros Heq. by vm_compute in Heq.
Qed.

Lemma magnitudeOf_zero (v : option Q) :
  (magnitudeOf v == 0)%Q → v = None ∨ ∃ q, v = Some q ∧ (q == 0)%Q.
Proof.
  unfold magnitudeOf. destruct v as [q|]; [|by left].
  cbn [default from_option id]. intros Hzero. right. exists q. split; [done|].
  destruct (Qlt_le_dec q 0) as [Hneg|Hpos].
  - rewrite Qabs_neg in Hzero by lra. lra.
  - rewrite Qabs_pos in Hzero by done. done.
Qed.

(** A completed day for which the exercise log is judged unnecessary is
    left without a burn source in one case only: the page scraped for it
    shows the four core components, every one of them reading 0, and no
    total, while its export record has neither a component nor a burned
    total. *)
Theorem fallback_skipped_day_without_source (raws : list RawEntry)
    (entry : Row) :
  let scrapedByDate :=
    mapEnergyScrapeByDate (List.map EnergyScrape.normalizeScrapedEntry raws) in
  lacksBurnSource scrapedByDate entry = false →
  burnedSource (reconcileDay scrapedByDate ∅ entry) = u "none" →
  ∃ date raw,
    get entry (u "date") = VString date
    ∧ raw ∈ raws
    ∧ scrapedByDate !! date = Some (EnergyScrape.normalizeScrapedEntry raw)
    ∧ Forall (λ reading, ∃ q, reading = Some q ∧ (q == 0)%Q) (coreReadings raw)
    ∧ (magnitudeOf (raw_baseline raw) == 0)%Q
    ∧ raw_energyBurned raw = None
    ∧ hasAny (extractBurnedComponents entry) = false
    ∧ inferBurnedCalories entry = None.
Proof.
  intros scrapedByDate. unfold lacksBurnSource, reconcileDay.
  unfold orNull, getByDate.
  destruct (truthy (get entry (u "date"))) eqn:Htruthy; [|done].
  cbn [negb]. rewrite Htruthy.
  assert (∀ (tag : jstring) P, tag ≠ u "none" → tag = u "none" → P) as Hclash
    by (by intros tag P Hne Heq).
  destruct (get entry (u "date")) as [| | | |date|] eqn:Hdate.
  1-4,6: destruct (hasAny (extractBurnedComponents entry));
    [destruct (hasAll (extractBurnedComponents entry));
     intros _; by apply Hclash|];
    destruct (inferBurnedCalories entry) as [inferred|] eqn:Hinferred;
    [intros _; by apply Hclash, (inferred_source_not_none entry)|];
    intros Hlacks; exfalso; revert Hlacks; cbn [negb andb];
    by rewrite bool_decide_eq_false_2 by (by intros [? ?]).
  destruct (scrapedByDate !! date) as [s|] eqn:Hlookup.
  2:{ destruct (hasAny (extractBurnedComponents entry));
        [destruct (hasAll (extractBurnedComponents entry));
         intros _; by apply Hclash|].
      destruct (inferBurnedCalories entry) as [inferred|] eqn:Hinferred;
        [intros _; by apply Hclash, (inferred_source_not_none entry)|].
      intros Hlacks. exfalso. revert Hlacks. cbn [negb andb].
      by rewrite bool_decide_eq_false_2 by (by intros [? ?]). }
  pose proof Hlookup as Hin.
  apply mapEnergyScrapeByDate_elem in Hin as [Hin _].
  apply list_elem_of_In, in_map_iff in Hin as (raw & <- & Hin).
  apply list_elem_of_In in Hin.
  destruct (componentTotals_sum raw) as [Hcore Hbase].
  destruct (componentTotals_nonneg raw) as [Hcore0 Hle].
  pose proof (normalizeScrapedEntry_missing raw) as Hmissing.
  cbv zeta in Hcore, Hbase, Hcore0, Hle.
  assert (EnergyScrape.componentTotal (EnergyScrape.normalizeScrapedEntry raw)
          = EnergyScrape.componentTotalWithBaseline
              (EnergyScrape.normalizeScrapedEntry raw)) as -> by done.
  assert (EnergyScrape.energyBurned (EnergyScrape.normalizeScrapedEntry raw)
          = option_map Qabs (raw_energyBurned raw)) as Hshown by done.
  destruct (EnergyScrape.energyBurned _) as [e|] eqn:He.
  { intros _. by apply Hclash. }
  destruct (Qltb 0 (EnergyScrape.componentTotalWithBaseline _)) eqn:Hpos.
  { rewrite andb_true_r.
    destruct (EnergyScrape.hasAllCoreComponents _); intros _; by apply Hclash. }
  rewrite andb_false_r, orb_false_r.
  destruct (hasAny (extractBurnedComponents entry)) eqn:Hany.
  { destruct (hasAll (extractBurnedComponents entry));
      intros _; by apply Hclash. }
  destruct (inferBurnedCalories entry) as [inferred|] eqn:Hinferred.
  { intros _. by apply Hclash, (inferred_source_not_none entry). }
  rewrite lookup_empty.
  rewrite (bool_decide_eq_false_2 (is_Some _)) by (by intros [? ?]).
  rewrite (bool_decide_eq_false_2 (_ ≠ _)) by (by intros Hne; apply Hne).
  cbn [negb andb]. rewrite orb_false_r.
  destruct (EnergyScrape.hasAllCoreComponents _) eqn:Hcomplete; [|done].
  intros _ _. exists date, raw.
  apply Qltb_ge in Hpos.
  assert (magnitudeOf (raw_bmr raw) == 0
          ∧ magnitudeOf (raw_tef raw) == 0
          ∧ magnitudeOf (raw_exercise raw) == 0
          ∧ magnitudeOf (raw_trackerActivity raw) == 0
          ∧ magnitudeOf (raw_baseline raw) == 0)%Q
    as (Hbmr & Htef & Hexercise & Htracker & Hbaseline).
  { pose proof (magnitudeOf_nonneg (raw_bmr raw)).
    pose proof (magnitudeOf_nonneg (raw_tef raw)).
    pose proof (magnitudeOf_nonneg (raw_exercise raw)).
    pose proof (magnitudeOf_nonneg (raw_trackerActivity raw)).
    pose proof (magnitudeOf_nonneg (raw_baseline raw)).
    rewrite Hbase, Hcore in Hpos. repeat split; lra. }
  assert ((length (EnergyScrape.missingComponents
                     (EnergyScrape.normalizeScrapedEntry raw)) =? 0)%nat
          = true) as Hzero by exact Hcomplete.
  clear Hcomplete. apply length_zero_nil in Hzero as Hcomplete.
  rewrite Hmissing in Hcomplete.
  assert (raw_bmr raw ≠ None ∧ raw_tef raw ≠ None
          ∧ raw_exercise raw ≠ None ∧ raw_trackerActivity raw ≠ None)
    as (Nbmr & Ntef & Nexercise & Ntracker).
  { cbn [List.filter snd] in Hcomplete.
    destruct (raw_bmr raw), (raw_tef raw), (raw_exercise raw),
      (raw_trackerActivity raw); done. }
  split; [done|]. split; [done|]. split; [done|]. split.
  { unfold coreReadings. repeat apply Forall_cons_2; [..|apply Forall_nil_2].
    - by destruct (magnitudeOf_zero _ Hbmr).
    - by destruct (magnitudeOf_zero _ Htef).
    - by destruct (magnitudeOf_zero _ Hexercise).
    - by destruct (magnitudeOf_zero _ Htracker). }
  split; [done|]. split; [|done].
  rewrite Hshown in He. by destruct (raw_energyBurned raw).
Qed.

Lemma fallback_skipped_day_without_source_witness :
  let scrapedByDate :=
    mapEnergyScrapeByDate
      [EnergyScrape.normalizeScrapedEntry allZeroScrape] in
  (lacksBurnSource scrapedByDate plainRecord = false
   ∧ burnedSource (reconcileDay scrapedByDate ∅ plainRecord) = u "none")
  ∧ ∃ date raw,
      get plainRecord (u "date") = VString date
      ∧ raw ∈ [allZeroScrape]
      ∧ scrapedByDate !! date = Some (EnergyScrape.normalizeScrapedEntry raw)
      ∧ Forall (λ reading, ∃ q, reading = Some q ∧ (q == 0)%Q)
          (coreReadings raw)
      ∧ (magnitudeOf (raw_baseline raw) == 0)%Q
      ∧ raw_energyBurned raw = None
      ∧ hasAny (extractBurnedComponents plainRecord) = false
      ∧ inferBurnedCalories plainRecord = None.
Proof.
  assert (lacksBurnSource
            (mapEnergyScrapeByDate
               [EnergyScrape.normalizeScrapedEntry allZeroScrape])
            plainRecord = false) as Hskipped by (by vm_compute).
  assert (burnedSource
            (reconcileDay
               (mapEnergyScrapeByDate
                  [EnergyScrape.normalizeScrapedEntry allZeroScrape])
               ∅ plainRecord) = u "none") as Hnone by (by vm_compute).
  split; [done|].
  exact (fallback_skipped_day_without_source [allZeroScrape] plainRecord
           Hskipped Hnone).
Defined.

End FallbackTest.

(** ** Trimmed text *)

Section TrimmedText.

Lemma trimStart_idemp (s : jstring) : trimStart (trimStart s) = trimStart s.
Proof.
  induction s as [|c s IH]; [done|]. cbn [trimStart].
  destruct (isWhiteSpace c) eqn:Hc; [done|]. cbn [trimStart]. by rewrite Hc.
Qed.

Lemma trimStart_snoc (s : jstring) (c : N) :
  isWhiteSpace c = false → trimStart (s ++ [c]) = trimStart s ++ [c].
Proof.
  intros Hc. induction s as [|x s IH]; cbn [app trimStart].
  - by rewrite Hc.
  - by destruct (isWhiteSpace x).
Qed.

Lemma trimEnd_cons (c : N) (s : jstring) :
  isWhiteSpace c = false → trimEnd (c :: s) = c :: trimEnd s.
Proof.
  intros Hc. unfold trimEnd. cbn [rev].
  by rewrite trimStart_snoc, rev_app_distr.
Qed.

Lemma trimEnd_idemp (s : jstring) : trimEnd (trimEnd s) = trimEnd s.
Proof. unfold trimEnd. by rewrite rev_involutive, trimStart_idemp. Qed.

Lemma trimStart_head (s : jstring) :
  trimStart s = [] ∨ ∃ c r, trimStart s = c :: r ∧ isWhiteSpace c = false.
Proof.
  induction s as [|c s IH]; [by left|]. cbn [trimStart].
  destruct (isWhiteSpace c) eqn:Hc; [done|]. right. by exists c, s.
Qed.

Lemma trimStart_trim (s : jstring) : trimStart (trim s) = trim s.
Proof.
  unfold trim. destruct (trimStart_head s) as [->|(c & r & -> & Hc)]; [done|].
  rewrite trimEnd_cons by done. cbn [trimStart]. by rewrite Hc.
Qed.

Lemma trim_idemp (s : jstring) : trim (trim s) = trim s.
Proof.
  unfold trim at 1. rewrite trimStart_trim. unfold trim.
  apply trimEnd_idemp.
Qed.

Lemma trimStart_no_space (s : jstring) :
  Forall (λ c, isWhiteSpace c = false) s → trimStart s = s.
Proof.
  destruct 1 as [|c s Hc _]; [done|]. cbn [trimStart]. by rewrite Hc.
Qed.

Lemma trim_no_space (s : jstring) :
  Forall (λ c, isWhiteSpace c = false) s → trim s = s.
Proof.
  intros Hs. unfold trim, trimEnd. rewrite (trimStart_no_space s Hs).
  rewrite trimStart_no_space, rev_involutive; [done|].
  apply Forall_forall. intros c Hc. rewrite Forall_forall in Hs.
  apply Hs. by apply list_elem_of_In, in_rev, list_elem_of_In in Hc.
Qed.

Lemma nonBlank_trimmed (v : value) (s : jstring) :
  EnergyScrape.nonBlank v = Some s → trimmedNonEmpty s.
Proof.
  unfold EnergyScrape.nonBlank. destruct v as [| | | |t|]; try done.
  destruct (strEqb (trim t) []) eqn:Hblank; [done|]. intros [= <-].
  split; [apply trim_idemp|]. intros Hnil. unfold strEqb in Hblank.
  by rewrite bool_decide_eq_true_2 in Hblank.
Qed.

End TrimmedText.

(** ** The summary of a range *)

Section SummaryFacts.

Lemma complete_partial_disjoint (tag : jstring) :
  has completeBurnSources tag = true → has partialBurnSources tag = false.
Proof.
  unfold has. intros Hcomplete. apply bool_decide_eq_true in Hcomplete.
  apply bool_decide_eq_false. intros Hpartial.
  unfold completeBurnSources in Hcomplete.
  unfold partialBurnSources in Hpartial.
  rewrite !elem_of_cons in Hcomplete. rewrite !elem_of_cons in Hpartial.
  destruct Hpartial as [Heq | [Heq | Hnil]];
    [| |by apply elem_of_nil in Hnil].
  all: destruct Hcomplete as [Htag | [Htag | [Htag | Hnil]]];
    [| | |by apply elem_of_nil in Hnil].
  all: rewrite Htag in Heq; by vm_compute in Heq.
Qed.

Lemma sources_partition (perDay : list ReconciledDay) :
  (length (List.filter (λ d, has completeBurnSources (burnedSource d)) perDay)
   + length (List.filter (λ d, has partialBurnSources (burnedSource d)) perDay)
   + length
       (List.filter
          (λ d, negb (has completeBurnSources (burnedSource d))
                && negb (has partialBurnSources (burnedSource d)))
          perDay)
   = length perDay)%nat.
Proof.
  induction perDay as [|day perDay IH]; [done|]. cbn [List.filter].
  destruct (has completeBurnSources (burnedSource day)) eqn:Hcomplete.
  - rewrite (complete_partial_disjoint _ Hcomplete). cbn [negb andb length].
    lia.
  - destruct (has partialBurnSources (burnedSource day));
      cbn [negb andb length]; lia.
Qed.

Lemma filter_all_length {A : Type} (f : A → bool) (l : list A) :
  length (List.filter f l) = length l ↔ Forall (λ x, f x = true) l.
Proof.
  induction l as [|x l IH]; cbn [List.filter]; [by split|].
  pose proof (filter_length_le f l) as Hle.
  destruct (f x) eqn:Hx; cbn [length].
  - rewrite Forall_cons. split.
    + intros Hlen. split; [done|]. apply IH. lia.
    + intros [_ Hall]. f_equal. by apply IH.
  - split; [lia|]. intros Hall. apply Forall_cons in Hall as [Hfalse _].
    congruence.
Qed.

Lemma sumOf_snoc (field : ReconciledDay → Q) (perDay : list ReconciledDay)
    (day : ReconciledDay) :
  sumOf field (perDay ++ [day]) = (sumOf field perDay + field day)%Q.
Proof. unfold sumOf. by rewrite fold_left_app. Qed.

(** What a summary says of the days it was built from: the three counts
    of days partition them, the data quality tells whether every day has
    a complete source, some day has not, or there is no day; the net
    total is the consumed total less the burned one, the average is the
    quotient of the net total by the number of days, as the route
    divides them (nothing is said of multiplying it back), and of the
    average deficit and the average surplus one at most is not 0. *)
Theorem aggregate_summary_consistent (ctx : Context)
    (perDay : list ReconciledDay) (summary : Summary) :
  aggregate ctx perDay = inr summary →
  let report := diagnostics summary in
  let average := averageNetCaloriesPerDay summary in
  (daysWithCompleteComponents report + daysWithPartialComponents report
   + daysUsingFallback report = daysUsed summary)%nat
  ∧ (dataQuality report = u "component_complete"
     ↔ perDay ≠ []
       ∧ Forall (λ day, burnedSource day ∈ completeBurnSources) perDay)
  ∧ (dataQuality report = u "no_completed_days" ↔ perDay = [])
  ∧ (dataQuality report = u "component_incomplete"
     ↔ ∃ day, day ∈ perDay ∧ burnedSource day ∉ completeBurnSources)
  ∧ (is_Some (fallbackReason report)
     ↔ dataQuality report = u "component_incomplete")
  ∧ totalNetCalories (totals summary)
    = (totalConsumedCalories (totals summary)
       - totalBurnedCalories (totals summary))%Q
  ∧ daysUsed summary = length perDay
  ∧ (perDay ≠ [] →
     average
     = (totalNetCalories (totals summary)
        / inject_Z (Z.of_nat (daysUsed summary)))%Q)
  ∧ (perDay = [] → average = 0%Q)
  ∧ (0 <= averageDeficitPerDay summary)%Q
  ∧ (0 <= averageSurplusPerDay summary)%Q
  ∧ (average
     == averageSurplusPerDay summary - averageDeficitPerDay summary)%Q
  ∧ ((averageDeficitPerDay summary == 0)%Q
     ∨ (averageSurplusPerDay summary == 0)%Q).
Proof.
  unfold aggregate.
  destruct (0 <? length _)%nat; [done|]. intros [= <-].
  cbv zeta.
  cbn [diagnostics averageNetCaloriesPerDay daysWithCompleteComponents
         daysWithPartialComponents daysUsingFallback daysUsed dataQuality
         fallbackReason totals totalNetCalories totalConsumedCalories
         totalBurnedCalories averageDeficitPerDay averageSurplusPerDay].
  pose proof (sources_partition perDay) as Hpartition.
  pose proof (filter_all_length
                (λ d, has completeBurnSources (burnedSource d)) perDay)
    as Hall.
  set (complete := length (List.filter _ perDay)) in *.
  set (partial := length (List.filter
                            (λ d, has partialBurnSources (burnedSource d))
                            perDay)) in *.
  set (fallback := length (List.filter _ perDay)) in Hpartition |- *.
  set (net := (sumOf consumedCalories perDay - sumOf burnedCalories perDay)%Q).
  assert (∀ day, burnedSource day ∈ completeBurnSources
                 ↔ has completeBurnSources (burnedSource day) = true)
    as Hhas.
  { intros day. unfold has. by rewrite bool_decide_eq_true. }
  assert (Forall (λ day, burnedSource day ∈ completeBurnSources) perDay
          ↔ complete = length perDay) as Hcomplete.
  { rewrite Hall. apply Forall_iff. intros day. apply Hhas. }
  assert ((∃ day, day ∈ perDay ∧ burnedSource day ∉ completeBurnSources)
          ↔ complete ≠ length perDay) as Hsome.
  { rewrite <- Hcomplete. split.
    - intros (day & Hin & Hnot) Hforall.
      rewrite Forall_forall in Hforall. by apply Hnot, Hforall.
    - intros Hnot. apply not_Forall_Exists in Hnot; [|solve_decision].
      apply Exists_exists in Hnot as (day & Hin & Hnot). by exists day. }
  assert (perDay = [] ↔ length perDay = 0%nat) as Hnil.
  { by destruct perDay. }
  split; [done|].
  assert (u "component_complete" ≠ u "no_completed_days") as N1
    by (intros Heq; by vm_compute in Heq).
  assert (u "component_complete" ≠ u "component_incomplete") as N2
    by (intros Heq; by vm_compute in Heq).
  assert (u "component_incomplete" ≠ u "no_completed_days") as N3
    by (intros Heq; by vm_compute in Heq).
  assert (strEqb (u "component_complete") (u "component_incomplete") = false)
    as E1 by (by vm_compute).
  assert (strEqb (u "component_incomplete") (u "component_incomplete") = true)
    as E2 by (by vm_compute).
  assert (strEqb (u "no_completed_days") (u "component_incomplete") = false)
    as E3 by (by vm_compute).
  rewrite Hsome, Hcomplete, Hnil.
  set (quality := if (complete =? length perDay)%nat && _ then _ else _).
  assert (quality = u "component_complete"
          ∧ complete = length perDay ∧ length perDay ≠ 0%nat
          ∨ quality = u "component_incomplete" ∧ complete ≠ length perDay
          ∨ quality = u "no_completed_days"
            ∧ complete = length perDay ∧ length perDay = 0%nat) as Hquality.
  { subst quality.
    destruct (complete =? length perDay)%nat eqn:Hc;
      [apply Nat.eqb_eq in Hc|apply Nat.eqb_neq in Hc]; cbn [andb].
    - destruct (0 <? length perDay)%nat eqn:Hd;
        [apply Nat.ltb_lt in Hd|apply Nat.ltb_ge in Hd].
      + left. split; [done|]. split; [done|lia].
      + assert (partial = 0 ∧ fallback = 0)%nat as [-> ->] by lia.
        right. right. split; [done|]. split; [done|lia].
    - assert ((0 <? partial)%nat || (0 <? fallback)%nat = true) as ->.
      { apply orb_true_iff. rewrite !Nat.ltb_lt. lia. }
      right. by left. }
  assert (is_Some (@None jstring) ↔ False) as Hnone
    by (split; [by intros [? ?]|done]).
  split.
  { destruct Hquality as [(-> & ? & ?) | [(-> & ?) | (-> & ? & ?)]];
      split; try done; try lia; intros; exfalso; congruence. }
  split.
  { destruct Hquality as [(-> & ? & ?) | [(-> & ?) | (-> & ? & ?)]];
      split; try done; try lia; intros; exfalso; congruence. }
  split.
  { destruct Hquality as [(-> & ? & ?) | [(-> & ?) | (-> & ? & ?)]];
      split; try done; try lia; intros; exfalso; congruence. }
  split.
  { destruct Hquality as [(-> & ? & ?) | [(-> & ?) | (-> & ? & ?)]];
      rewrite ?E1, ?E2, ?E3, ?Hnone; split; try done;
      intros; exfalso; congruence. }
  clearbody quality complete partial fallback. clear.
  set (average := if (length perDay =? 0)%nat then _ else _).
  split; [done|]. split; [done|]. split.
  { intros Hdays. subst average.
    assert (length perDay ≠ 0%nat) as Hlength by (by destruct perDay).
    by rewrite (proj2 (Nat.eqb_neq _ _) Hlength). }
  split.
  { intros Hdays. subst average. by rewrite Hdays. }
  clearbody average.
  destruct (Qltb average 0) eqn:Hneg;
    [apply Qltb_lt in Hneg|apply Qltb_ge in Hneg];
    (destruct (Qltb 0 average) eqn:Hpos;
       [apply Qltb_lt in Hpos|apply Qltb_ge in Hpos]).
  - lra.
  - rewrite Qabs_neg by lra. repeat split; lra.
  - repeat split; lra.
  - repeat split; lra.
Qed.

Lemma aggregate_summary_consistent_witness :
  ∃ summary,
    aggregate sampleContext oneInferredDay = inr summary
    ∧ let report := diagnostics summary in
      let average := averageNetCaloriesPerDay summary in
      (daysWithCompleteComponents report + daysWithPartialComponents report
       + daysUsingFallback report = daysUsed summary)%nat
      ∧ (dataQuality report = u "component_complete"
         ↔ oneInferredDay ≠ []
           ∧ Forall (λ day, burnedSource day ∈ completeBurnSources)
               oneInferredDay)
      ∧ (dataQuality report = u "no_completed_days" ↔ oneInferredDay = [])
      ∧ (dataQuality report = u "component_incomplete"
         ↔ ∃ day, day ∈ oneInferredDay
                  ∧ burnedSource day ∉ completeBurnSources)
      ∧ (is_Some (fallbackReason report)
         ↔ dataQuality report = u "component_incomplete")
      ∧ totalNetCalories (totals summary)
        = (totalConsumedCalories (totals summary)
           - totalBurnedCalories (totals summary))%Q
      ∧ daysUsed summary = length oneInferredDay
      ∧ (oneInferredDay ≠ [] →
         average
         = (totalNetCalories (totals summary)
            / inject_Z (Z.of_nat (daysUsed summary)))%Q)
      ∧ (oneInferredDay = [] → average = 0%Q)
      ∧ (0 <= averageDeficitPerDay summary)%Q
      ∧ (0 <= averageSurplusPerDay summary)%Q
      ∧ (average
         == averageSurplusPerDay summary - averageDeficitPerDay summary)%Q
      ∧ ((averageDeficitPerDay summary == 0)%Q
         ∨ (averageSurplusPerDay summary == 0)%Q).
Proof.
  destruct (aggregate sampleContext oneInferredDay) as [e|summary] eqn:Hsummary;
    [by vm_compute in Hsummary|].
  exists summary. split; [done|].
  exact (aggregate_summary_consistent sampleContext oneInferredDay summary
           Hsummary).
Defined.

End SummaryFacts.

(** ** The tallies of a summary *)

Section Tallies.

Lemma bump_fold_lookup (perDay : list ReconciledDay) (counts : gmap jstring Z)
    (tag : jstring) :
  fold_left (λ counts day, bump (burnedSource day) counts) perDay counts !! tag
  = match length (daysTagged tag perDay) with
    | O => counts !! tag
    | S n => Some (default 0 (counts !! tag) + Z.of_nat (S n))%Z
    end.
Proof.
  revert counts. induction perDay as [|day perDay IH]; intros counts; [done|].
  cbn [fold_left]. rewrite IH. unfold daysTagged. cbn [List.filter].
  unfold bump at 1 2.
  destruct (decide (burnedSource day = tag)) as [->|Hne].
  - rewrite bool_decide_eq_true_2, !lookup_insert_eq by done.
    cbn [length default from_option id].
    destruct (length (List.filter _ perDay)); [f_equal; lia|f_equal; lia].
  - rewrite bool_decide_eq_false_2, !lookup_insert_ne by done. done.
Qed.

Lemma missing_step_lookup (components : list jstring)
    (counts : gmap jstring Z) (component : jstring) :
  fold_left
    (λ counts component,
       match counts !! component with
       | Some n => <[component := (n + 1)%Z]> counts
       | None => counts
       end)
    components counts !! component
  = match counts !! component with
    | Some n =>
        Some (n + Z.of_nat
                    (length (List.filter (λ c, bool_decide (c = component))
                               components)))%Z
    | None => None
    end.
Proof.
  revert counts.
  induction components as [|c components IH]; intros counts.
  { cbn. destruct (counts !! component); [f_equal; lia|done]. }
  cbn [fold_left List.filter]. rewrite IH.
  destruct (decide (c = component)) as [->|Hne].
  - rewrite bool_decide_eq_true_2 by done.
    destruct (counts !! component) as [n|] eqn:Hn.
    + rewrite lookup_insert_eq. cbn [length]. f_equal. lia.
    + by rewrite Hn.
  - rewrite bool_decide_eq_false_2 by done.
    destruct (counts !! c) as [n|]; [|done].
    by rewrite lookup_insert_ne.
Qed.

Lemma missing_fold_lookup (perDay : list ReconciledDay)
    (counts : gmap jstring Z) (component : jstring) :
  fold_left
    (λ counts day,
       fold_left
         (λ counts component,
            match counts !! component with
            | Some n => <[component := (n + 1)%Z]> counts
            | None => counts
            end)
         (missingBurnComponents day) counts)
    perDay counts !! component
  = match counts !! component with
    | Some n => Some (n + Z.of_nat (timesMissing component perDay))%Z
    | None => None
    end.
Proof.
  revert counts. induction perDay as [|day perDay IH]; intros counts.
  { cbn. destruct (counts !! component); [f_equal; lia|done]. }
  cbn [fold_left]. rewrite IH, missing_step_lookup.
  unfold timesMissing. cbn [List.map concat].
  rewrite List.filter_app, length_app.
  destruct (counts !! component); [f_equal; lia|done].
Qed.

(** The two tallies of a summary.  Under a burn source (the names every
    object inherits apart) is the number of days tagged with it, and no
    entry when no day is; under each of the four core components is the
    number of times the days report it missing, and there is no other
    key. *)
Theorem aggregate_tallies (ctx : Context) (perDay : list ReconciledDay)
    (summary : Summary) :
  aggregate ctx perDay = inr summary →
  (∀ tag, tag ∉ inheritedNames →
     burnSourceCounts (diagnostics summary) !! tag
     = match length (daysTagged tag perDay) with
       | O => None
       | S n => Some (Z.of_nat (S n))
       end)
  ∧ (∀ component,
       missingComponentCounts (diagnostics summary) !! component
       = if bool_decide (component ∈ coreComponents)
         then Some (Z.of_nat (timesMissing component perDay))
         else None).
Proof.
  unfold aggregate.
  destruct (0 <? length _)%nat; [done|]. intros [= <-].
  cbv zeta. cbn [diagnostics burnSourceCounts missingComponentCounts].
  split.
  - intros tag _. rewrite bump_fold_lookup, lookup_empty.
    cbn [default from_option id].
    destruct (length (daysTagged tag perDay)); [done|]. f_equal.
  - intros component. rewrite missing_fold_lookup.
    cbn [list_to_map foldr fst snd]. unfold coreComponents.
    destruct (decide (component = u "bmr")) as [->|N1].
    { rewrite lookup_insert_eq, bool_decide_eq_true_2; [done|].
      rewrite !elem_of_cons. auto. }
    rewrite lookup_insert_ne by done.
    destruct (decide (component = u "tef")) as [->|N2].
    { rewrite lookup_insert_eq, bool_decide_eq_true_2; [done|].
      rewrite !elem_of_cons. auto. }
    rewrite lookup_insert_ne by done.
    destruct (decide (component = u "exercise")) as [->|N3].
    { rewrite lookup_insert_eq, bool_decide_eq_true_2; [done|].
      rewrite !elem_of_cons. auto. }
    rewrite lookup_insert_ne by done.
    destruct (decide (component = u "trackerActivity")) as [->|N4].
    { rewrite lookup_insert_eq, bool_decide_eq_true_2; [done|].
      rewrite !elem_of_cons. auto. }
    rewrite lookup_insert_ne, lookup_empty by done.
    rewrite bool_decide_eq_false_2; [done|].
    rewrite !elem_of_cons. intros [? | [? | [? | [? | Hnil]]]]; try done.
    by apply elem_of_nil in Hnil.
Qed.

Lemma aggregate_tallies_witness :
  ∃ summary,
    aggregate sampleContext oneInferredDay = inr summary
    ∧ (∀ tag, tag ∉ inheritedNames →
         burnSourceCounts (diagnostics summary) !! tag
         = match length (daysTagged tag oneInferredDay) with
           | O => None
           | S n => Some (Z.of_nat (S n))
           end)
    ∧ (∀ component,
         missingComponentCounts (diagnostics summary) !! component
         = if bool_decide (component ∈ coreComponents)
           then Some (Z.of_nat (timesMissing component oneInferredDay))
           else None).
Proof.
  destruct (aggregate sampleContext oneInferredDay) as [e|summary] eqn:Hsummary;
    [by vm_compute in Hsummary|].
  exists summary. split; [done|].
  exact (aggregate_tallies sampleContext oneInferredDay summary Hsummary).
Defined.

End Tallies.

(** ** The route, from the query to the answer *)

Section Route.

Context {W : Type} (answer : ∀ X, Cmd X → W → (Exn + X) * W).

Lemma history_tryCatch {A B : Type} (body : Prog A) (k : Exn + A → Prog B)
    (w : W) :
  history answer (tryCatch body k) w
  = history answer body w
    ++ (let '(r, w') := run answer body w in history answer (k r) w').
Proof.
  revert w. induction body as [a|e|X c k' IH]; intros w; cbn; try done.
  destruct (answer X c w) as [r w']. cbn. f_equal. apply IH.
Qed.

Lemma trunc_below_one (q : Q) : (trunc q <= 0)%Z ↔ (q < 1)%Q.
Proof.
  unfold trunc, Qlt. destruct q as [n d]. cbn [Qnum Qden].
  rewrite Z.mul_1_r, Z.mul_1_l.
  destruct (Z.le_gt_cases 0 n) as [Hn|Hn].
  - rewrite Z.quot_div_nonneg by lia. split.
    + intros Hq. destruct (Z.lt_ge_cases n (Z.pos d)) as [|Hge]; [done|].
      assert (1 <= n / Z.pos d)%Z; [|lia].
      apply Z.div_le_lower_bound; lia.
    + intros Hlt. rewrite Z.div_small by lia. done.
  - split; [lia|]. intros _.
    rewrite <- (Z.opp_involutive n), Z.quot_opp_l by lia.
    assert (0 <= Z.quot (- n) (Z.pos d))%Z; [|lia].
    apply Z.quot_pos; lia.
Qed.

Lemma trunc_above (q : Q) (bound : Z) :
  (0 <= bound)%Z → (bound < trunc q)%Z ↔ (inject_Z (bound + 1) <= q)%Q.
Proof.
  intros Hbound. unfold trunc, Qle. destruct q as [n d]. cbn [Qnum Qden inject_Z].
  rewrite Z.mul_1_r.
  destruct (Z.le_gt_cases 0 n) as [Hn|Hn].
  - rewrite Z.quot_div_nonneg by lia. split.
    + intros Hq.
      assert (Z.pos d * (n / Z.pos d) <= n)%Z
        by (apply Z.mul_div_le; lia). nia.
    + intros Hle.
      assert (bound + 1 <= n / Z.pos d)%Z; [|lia].
      apply Z.div_le_lower_bound; lia.
  - split.
    + intros Hq.
      rewrite <- (Z.opp_involutive n), Z.quot_opp_l in Hq by lia.
      assert (0 <= Z.quot (- n) (Z.pos d))%Z by (apply Z.quot_pos; lia). lia.
    + nia.
Qed.

(** The [days] of a query are validated on their integer part: a number
    below 1 or from 366 on is refused with status 400 before anything is
    asked of the outside, every number from 1 up to (but excluding) 366
    opens a trailing window of its integer part, and a query without a
    readable number asks for 7 days. *)
Theorem weeklyAverageDeficit_days_validated (query : Query) (w : W) :
  (∀ q, parseNumber (query_days query) = Some q →
     ((q < 1 ∨ 366 <= q)%Q →
      run answer (weeklyAverageDeficit query) w
      = (inl (HttpError 400 (Text (u "days must be between 1 and 365")) None),
         w)
      ∧ history answer (weeklyAverageDeficit query) w = [])
     ∧ ((1 <= q ∧ q < 366)%Q →
        (1 <= trunc q <= 365)%Z
        ∧ ∃ outcome,
            head (history answer (weeklyAverageDeficit query) w)
            = Some (event (TrailingRange (trunc q)) outcome)))
  ∧ (parseNumber (query_days query) = None →
     ∃ outcome,
       head (history answer (weeklyAverageDeficit query) w)
       = Some (event (TrailingRange 7) outcome)).
Proof.
  unfold weeklyAverageDeficit. split.
  - intros q ->. split.
    + intros Hout.
      assert ((trunc q <=? 0)%Z || (365 <? trunc q)%Z = true) as ->; [|done].
      apply orb_true_iff. rewrite Z.leb_le, Z.ltb_lt.
      rewrite trunc_below_one, (trunc_above q 365) by lia. done.
    + intros [Hlow Hhigh].
      assert ((trunc q <=? 0)%Z = false ∧ (365 <? trunc q)%Z = false)
        as [Hl Hh].
      { rewrite Z.leb_gt, Z.ltb_ge. split.
        - apply Z.nle_gt. rewrite trunc_below_one. lra.
        - apply Z.nlt_ge. rewrite (trunc_above q 365) by lia.
          change (inject_Z (365 + 1)) with 366%Q. lra. }
      rewrite Hl, Hh. cbn [orb]. split.
      { apply Z.leb_gt in Hl. apply Z.ltb_ge in Hh. lia. }
      unfold call at 1. cbn [history].
      destruct (answer _ (TrailingRange _) w) as [outcome w1]. by eexists.
  - intros ->. cbn [orb Z.leb Z.ltb Z.compare Pos.compare Pos.compare_cont].
    unfold call at 1. cbn [history].
    destruct (answer _ (TrailingRange _) w) as [outcome w1]. by eexists.
Qed.

Lemma run_call {A X : Type} (c : Cmd X) (k : X → Prog A) (w : W) :
  run answer (call c k) w
  = match answer _ c w with
    | (inl e, w') => (inl e, w')
    | (inr x, w') => run answer (k x) w'
    end.
Proof. cbn. by destruct (answer X c w) as [[e|x] w']. Qed.

Lemma history_call {A X : Type} (c : Cmd X) (k : X → Prog A) (w : W) :
  history answer (call c k) w
  = event c (answer _ c w).1
    :: match answer _ c w with
       | (inl e, w') => []
       | (inr x, w') => history answer (k x) w'
       end.
Proof. cbn. by destruct (answer X c w) as [[e|x] w']. Qed.

(** The route fails in three ways only: the [days] of the query are
    refused, a day with a date has no burn source, or the clock or the
    export of the nutrition records failed, the exception being the one
    that was raised there.  A failure of the scrape or of the export of
    the exercise log is never the failure of the route. *)
Theorem weeklyAverageDeficit_failures (query : Query) (w w' : W) (e : Exn) :
  run answer (weeklyAverageDeficit query) w = (inl e, w') →
  e = HttpError 400 (Text (u "days must be between 1 and 365")) None
  ∨ (∃ extra,
       e = HttpError 503
             (Text
                (u "Unable to determine burned calories for one or more completed days."))
             (Some extra)
       ∧ daysWithoutBurnSource extra ≠ []
       ∧ Forall (λ date, truthy date = true) (daysWithoutBurnSource extra))
  ∨ (∃ ev, last (history answer (weeklyAverageDeficit query) w) = Some ev
           ∧ raised ev = Some e
           ∧ beforeSources ev = true).
Proof.
  unfold weeklyAverageDeficit.
  destruct (_ || _); [intros [= <- <-]; by left|].
  rewrite run_call, history_call.
  destruct (answer _ (TrailingRange _) w) as [[e1|trailing] w1].
  { intros [= <- <-]. right. right. by eexists. }
  rewrite run_call, history_call.
  destruct (answer _ TodayLocal w1) as [[e2|todayLocal] w2].
  { intros [= <- <-]. right. right. by eexists. }
  rewrite run_call, history_call.
  destruct (answer _ (ExportJson _ _) w2) as [[e3|nutritionRaw] w3].
  { intros [= <- <-]. right. right. by eexists. }
  rewrite run_tryCatch.
  destruct (run answer _ w3) as [scrapeOutcome w4].
  rewrite run_tryCatch.
  destruct (run answer _ w4) as [exercisesOutcome w5].
  destruct (aggregate _ _) as [e4|summary] eqn:Hagg; [|done].
  cbn [run]. intros [= <- <-]. right. left.
  revert Hagg. unfold aggregate.
  destruct (0 <? length _)%nat eqn:Hdays; [|done]. intros [= <-].
  eexists. split; [done|]. cbn [daysWithoutBurnSource].
  apply Nat.ltb_lt in Hdays. split.
  - intros Hnil. rewrite Hnil in Hdays. cbn in Hdays. lia.
  - apply Forall_forall. intros date Hin.
    by apply list_elem_of_In, filter_In in Hin as [_ Htruthy].
Qed.

Lemma reconcileDay_date_consumed
    (scrapedByDate : gmap jstring EnergyScrape.ScrapedEntry)
    (burnedByDate : gmap jstring Aggregate) (entry : Row) :
  date (reconcileDay scrapedByDate burnedByDate entry)
  = orNull (get entry (u "date"))
  ∧ consumedCalories (reconcileDay scrapedByDate burnedByDate entry)
    = default 0%Q (parseNumber (get entry (u "calories"))).
Proof.
  unfold reconcileDay.
  destruct (getByDate scrapedByDate _) as [s|].
  - destruct (EnergyScrape.energyBurned s) as [direct|]; [done|].
    destruct (EnergyScrape.hasAllCoreComponents s),
      (Qltb 0 (EnergyScrape.componentTotalWithBaseline s));
      cbn [andb]; try done.
    all: destruct (hasAny (extractBurnedComponents entry)); [done|].
    all: destruct (inferBurnedCalories entry) as [i|]; [done|].
    all: by destruct (getByDate burnedByDate _).
  - destruct (hasAny (extractBurnedComponents entry)); [done|].
    destruct (inferBurnedCalories entry) as [i|]; [done|].
    by destruct (getByDate burnedByDate _).
Qed.

Lemma completed_not_today (todayLocal : jstring) (entry : Row) :
  isCompletedNotToday todayLocal entry = true →
  orNull (get entry (u "date")) ≠ VString todayLocal.
Proof.
  unfold isCompletedNotToday, orNull.
  intros Hkept. apply andb_true_iff in Hkept as [_ Hnot].
  apply negb_true_iff in Hnot. unfold strEqb in Hnot.
  apply bool_decide_eq_false in Hnot.
  destruct (get entry (u "date")) as [| | | |d|];
    cbn [default from_option id stringOr] in Hnot.
  1-4,6: by destruct (truthy _).
  destruct (truthy (VString d)); [|done]. by intros [= ->].
Qed.

(** What an answered summary reports: its days are the records of the
    nutrition export that are marked completed, today's apart, in their
    order; no day of it is today; and its diagnostics tell what was
    asked of the other sources. *)
Theorem weeklyAverageDeficit_days_reported (query : Query) (w w' : W)
    (summary : Summary) :
  run answer (weeklyAverageDeficit query) w = (inr summary, w') →
  ∃ todayLocal nutrition,
    event TodayLocal (inr todayLocal)
    ∈ history answer (weeklyAverageDeficit query) w
    ∧ event (ExportJson (u "nutrition") (range summary)) (inr nutrition)
      ∈ history answer (weeklyAverageDeficit query) w
    ∧ let completed :=
        List.filter (isCompletedNotToday todayLocal)
          (normalizeNutritionList nutrition) in
      List.map date (perDay summary)
      = List.map (λ entry, orNull (get entry (u "date"))) completed
      ∧ List.map consumedCalories (perDay summary)
        = List.map (λ entry, default 0%Q (parseNumber (get entry (u "calories"))))
            completed
      ∧ Forall (λ day, date day ≠ VString todayLocal) (perDay summary)
      ∧ daysRequested summary = requestedDays query
      ∧ scrapeDaysRequested (diagnostics summary)
        = length (omap (λ entry, dateKey (get entry (u "date"))) completed)
      ∧ (scrapeAttempted (diagnostics summary) = false →
         scrapeError (diagnostics summary) = None
         ∧ scrapePreview (diagnostics summary) = [])
      ∧ (is_Some (scrapeError (diagnostics summary)) →
         scrapeDaysReturned (diagnostics summary) = 0%nat)
      ∧ (exercisesFallbackAttempted (diagnostics summary) = false →
         exercisesFallbackError (diagnostics summary) = None).
Proof.
  unfold weeklyAverageDeficit, requestedDays.
  destruct (_ || _); [done|].
  rewrite run_call, history_call.
  destruct (answer _ (TrailingRange _) w) as [[e1|trailing] w1]; [done|].
  rewrite run_call, history_call.
  destruct (answer _ TodayLocal w1) as [[e2|todayLocal] w2]; [done|].
  rewrite run_call, history_call.
  destruct (answer _ (ExportJson _ _) w2) as [[e3|nutritionRaw] w3]; [done|].
  rewrite run_tryCatch.
  set (completed := List.filter (isCompletedNotToday todayLocal) _).
  set (rangeSpec := default _ _).
  destruct (run answer _ w3) as [scrapeOutcome w4] eqn:Hscrape.
  rewrite run_tryCatch.
  destruct (run answer _ w4) as [exercisesOutcome w5] eqn:Hexercises.
  destruct (aggregate _ _) as [e4|summary'] eqn:Hagg; [done|].
  cbn [run]. intros [= <- <-].
  revert Hagg. unfold aggregate.
  destruct (0 <? length (List.filter truthy _))%nat; [done|]. intros [= <-].
  cbn [perDay range daysRequested diagnostics scrapeDaysRequested
         scrapeAttempted scrapeError scrapePreview scrapeDaysReturned
         exercisesFallbackAttempted exercisesFallbackError
         ctx_rangeSpec ctx_days ctx_completedDates ctx_scrapedEntries
         ctx_scrapeError ctx_needsExerciseFallback ctx_exercisesError].
  exists todayLocal, nutritionRaw. cbn [fst].
  split; [rewrite !elem_of_cons; auto|].
  split; [rewrite !elem_of_cons; auto|].
  cbv zeta. fold completed. rewrite !List.map_map.
  split; [apply map_ext; intros entry; apply reconcileDay_date_consumed|].
  split; [apply map_ext; intros entry; apply reconcileDay_date_consumed|].
  split.
  { apply Forall_forall. intros day Hin.
    apply list_elem_of_In, in_map_iff in Hin as (entry & <- & Hin).
    apply filter_In in Hin as [_ Hkept].
    rewrite (proj1 (reconcileDay_date_consumed _ _ entry)).
    by apply completed_not_today. }
  split; [done|]. split; [done|].
  split.
  { intros Hnot. rewrite Hnot in Hscrape. cbn [run] in Hscrape.
    by injection Hscrape as <- <-. }
  split.
  { intros Herror. by destruct scrapeOutcome as [failure|entries];
      [|destruct Herror]. }
  intros Hnot. rewrite Hnot in Hexercises. cbn [run] in Hexercises.
  by injection Hexercises as <- <-.
Qed.

End Route.

Lemma weeklyAverageDeficit_failures_witness :
  let world := exportOnlyWorld (JArray [plainRecord]) JNothing in
  ∃ e w',
    run world (weeklyAverageDeficit sevenDays) tt = (inl e, w')
    ∧ (e = HttpError 400 (Text (u "days must be between 1 and 365")) None
       ∨ (∃ extra,
            e = HttpError 503
                  (Text
                     (u "Unable to determine burned calories for one or more completed days."))
                  (Some extra)
            ∧ daysWithoutBurnSource extra ≠ []
            ∧ Forall (λ date, truthy date = true) (daysWithoutBurnSource extra))
       ∨ (∃ ev, last (history world (weeklyAverageDeficit sevenDays) tt)
                = Some ev
                ∧ raised ev = Some e
                ∧ beforeSources ev = true)).
Proof.
  intros world.
  destruct (run world (weeklyAverageDeficit sevenDays) tt) as [[e|summary] w']
    eqn:Hrun; [|by vm_compute in Hrun].
  exists e, w'. split; [done|].
  exact (weeklyAverageDeficit_failures world sevenDays tt w' e Hrun).
Defined.

Lemma weeklyAverageDeficit_days_reported_witness :
  let world := workingWorld (JArray threeDays) JNothing threePages in
  ∃ summary w',
    run world (weeklyAverageDeficit sevenDays) tt = (inr summary, w')
    ∧ ∃ todayLocal nutrition,
        event TodayLocal (inr todayLocal)
        ∈ history world (weeklyAverageDeficit sevenDays) tt
        ∧ event (ExportJson (u "nutrition") (range summary)) (inr nutrition)
          ∈ history world (weeklyAverageDeficit sevenDays) tt
        ∧ let completed :=
            List.filter (isCompletedNotToday todayLocal)
              (normalizeNutritionList nutrition) in
          List.map date (perDay summary)
          = List.map (λ entry, orNull (get entry (u "date"))) completed
          ∧ List.map consumedCalories (perDay summary)
            = List.map
                (λ entry, default 0%Q (parseNumber (get entry (u "calories"))))
                completed
          ∧ Forall (λ day, date day ≠ VString todayLocal) (perDay summary)
          ∧ daysRequested summary = requestedDays sevenDays
          ∧ scrapeDaysRequested (diagnostics summary)
            = length (omap (λ entry, dateKey (get entry (u "date"))) completed)
          ∧ (scrapeAttempted (diagnostics summary) = false →
             scrapeError (diagnostics summary) = None
             ∧ scrapePreview (diagnostics summary) = [])
          ∧ (is_Some (scrapeError (diagnostics summary)) →
             scrapeDaysReturned (diagnostics summary) = 0%nat)
          ∧ (exercisesFallbackAttempted (diagnostics summary) = false →
             exercisesFallbackError (diagnostics summary) = None).
Proof.
  intros world.
  destruct (run world (weeklyAverageDeficit sevenDays) tt) as [[e|summary] w']
    eqn:Hrun; [by vm_compute in Hrun|].
  exists summary, w'. split; [done|].
  exact (weeklyAverageDeficit_days_reported world sevenDays tt w' summary Hrun).
Defined.

(** ** The browser session of a scrape *)

Section Session.

Context {W : Type} (answer : ∀ X, Cmd X → W → (Exn + X) * W).

(** A credential costs one or two reads, and the one that is passed on
    is trimmed and not empty. *)
Lemma history_getRequiredCredential {A : Type} (envKey credKey : jstring)
    (k : jstring → Prog A) (w : W) :
  ∃ reads,
    Forall (λ ev, credentialRead ev = true) reads
    ∧ (history answer (EnergyScrape.getRequiredCredential envKey credKey k) w
       = reads
       ∨ ∃ credential w',
           trimmedNonEmpty credential
           ∧ history answer
               (EnergyScrape.getRequiredCredential envKey credKey k) w
             = reads ++ history answer (k credential) w').
Proof.
  unfold EnergyScrape.getRequiredCredential. cbn [history call].
  destruct (answer _ (ReadEnv envKey) w) as [[failure|envValue] w1].
  { exists [event (ReadEnv envKey) (inl failure)].
    split; [by apply Forall_singleton|left; reflexivity]. }
  destruct (EnergyScrape.nonBlank envValue) as [credential|] eqn:Henv.
  { exists [event (ReadEnv envKey) (inr envValue)].
    split; [by apply Forall_singleton|]. right.
    exists credential, w1. split; [by eapply nonBlank_trimmed|reflexivity]. }
  cbn [history call].
  destruct (answer _ (GetCredential credKey) w1) as [[failure|fromStore] w2].
  { exists [event (ReadEnv envKey) (inr envValue);
            event (GetCredential credKey) (inl failure)].
    split; [by repeat apply Forall_cons_2|left; reflexivity]. }
  exists [event (ReadEnv envKey) (inr envValue);
          event (GetCredential credKey) (inr fromStore)].
  split; [by repeat apply Forall_cons_2|].
  destruct (EnergyScrape.nonBlank fromStore) as [credential|] eqn:Hstore;
    [|left; reflexivity].
  right. exists credential, w2. split; [by eapply nonBlank_trimmed|reflexivity].
Qed.

Lemma omap_reads {B : Type} (f : Event → option B) (reads : list Event) :
  (∀ ev, credentialRead ev = true → f ev = None) →
  Forall (λ ev, credentialRead ev = true) reads → omap f reads = [].
Proof.
  intros Hf. induction 1 as [|ev reads Hev _ IH]; [done|].
  cbn [omap list_omap]. rewrite (Hf ev Hev). apply IH.
Qed.

Lemma reads_sessionCreated ev : credentialRead ev = true → sessionCreated ev = None.
Proof. destruct ev as [X [c outcome]]. by destruct c. Qed.

Lemma reads_sessionDeleted ev : credentialRead ev = true → sessionDeleted ev = None.
Proof. destruct ev as [X [c outcome]]. by destruct c. Qed.

Lemma reads_loginRequested ev : credentialRead ev = true → loginRequested ev = None.
Proof. destruct ev as [X [c outcome]]. by destruct c. Qed.

Lemma reads_scrapeRequested ev : credentialRead ev = true → scrapeRequested ev = None.
Proof. destruct ev as [X [c outcome]]. by destruct c. Qed.

Lemma existsb_reads (reads : list Event) :
  Forall (λ ev, credentialRead ev = true) reads → existsb loggedIn reads = false.
Proof.
  induction 1 as [|ev reads Hev _ IH]; [done|]. cbn [existsb]. rewrite IH.
  destruct ev as [X [c outcome]]. by destruct c.
Qed.

Lemma last_app_cons {B : Type} (l1 l2 : list B) (x : B) :
  last (l1 ++ x :: l2) = last (x :: l2).
Proof.
  rewrite last_app. by destruct (last (x :: l2)) eqn:Hlast;
    [|apply last_None in Hlast].
Qed.

(** One step through the scrape driver: the outcome of the next command
    or of the next test. *)
Ltac scrape_step :=
  cbn [history run call tryFinally tryCatch EnergyScrape.status fst snd];
  match goal with
  | |- context [history answer
                  (EnergyScrape.getRequiredCredential ?envKey ?credKey ?k) ?w] =>
      let reads := fresh "reads" in
      let Hreads := fresh "Hreads" in
      let Hcredential := fresh "Hcredential" in
      destruct (history_getRequiredCredential envKey credKey k w)
        as (reads & Hreads & [-> | (?credential & ?w' & Hcredential & ->)])
  | |- context [answer ?X ?c ?w] =>
      destruct (answer X c w) as [[?failure|?answered] ?w']
  | |- context [if negb (truthy ?a) || negb (truthy ?b) then _ else _] =>
      let Hlogin := fresh "Hlogin" in
      destruct (negb (truthy a) || negb (truthy b)) eqn:Hlogin
  | |- context [if negb (truthy ?a) then _ else _] =>
      destruct (negb (truthy a))
  | |- context [match exec_result ?r with _ => _ end] =>
      destruct (exec_result r) as [?data|]
  end.

(** The readings of a record of events, the reads of credentials
    dropping out. *)
Ltac read_events :=
  repeat
    first
      [ progress
          cbn [history omap sessionDeleted sessionCreated loginRequested
                 scrapeRequested loggedIn existsb event last length
                 list_omap mbind option_bind orb app]
      | rewrite omap_app
      | rewrite existsb_app
      | rewrite (omap_reads sessionCreated) by (auto using reads_sessionCreated)
      | rewrite (omap_reads sessionDeleted) by (auto using reads_sessionDeleted)
      | rewrite (omap_reads loginRequested) by (auto using reads_loginRequested)
      | rewrite (omap_reads scrapeRequested)
          by (auto using reads_scrapeRequested)
      | rewrite existsb_reads by done
      | rewrite last_cons
      | rewrite last_app ].

Lemma login_accepted (result : ExecResult LoginData) :
  negb (truthy (exec_success result))
  || negb
       (truthy
          (login_loggedIn
             match exec_result result with
             | Some data => data
             | None =>
                 {| login_loggedIn := VUndefined; login_error := VUndefined;
                    login_loginError := VUndefined |}
             end)) = false →
  truthy (exec_success result)
  && match exec_result result with
     | Some data => truthy (login_loggedIn data)
     | None => false
     end = true.
Proof.
  intros Haccepted. apply orb_false_iff in Haccepted as [Hsuccess Hlogged].
  apply negb_false_iff in Hsuccess, Hlogged. rewrite Hsuccess.
  by destruct (exec_result result).
Qed.

(** The commands of a scrape.  Without a valid date nothing is asked of
    the outside.  Otherwise at most one browser session is created; a
    session that was created is deleted, whatever happened in between,
    and the deletion is the last thing the scrape does; nothing else is
    deleted.  The login is asked once at most, in that session, with
    credentials that are trimmed and not empty; the pages are asked
    once at most, in that session, after a login that succeeded, for the
    normalized dates. *)
Theorem scrape_session_discipline (dates : list value) (onStatus : bool)
    (w : W) :
  let events :=
    history answer (EnergyScrape.scrapeEnergySummaryForDates dates onStatus) w
  in
  (EnergyScrape.normalizeDates dates = [] → events = [])
  ∧ omap sessionDeleted events = omap sessionCreated events
  ∧ (length (omap sessionCreated events) <= 1)%nat
  ∧ (∀ session, session ∈ omap sessionCreated events →
       last events ≫= sessionDeleted = Some session)
  ∧ (length (omap loginRequested events) <= 1)%nat
  ∧ (∀ session username password timeout,
       (session, username, password, timeout) ∈ omap loginRequested events →
       omap sessionCreated events = [session] ∧ timeout = 90%Z
       ∧ trimmedNonEmpty username ∧ trimmedNonEmpty password)
  ∧ (length (omap scrapeRequested events) <= 1)%nat
  ∧ (∀ session requested timeout,
       (session, requested, timeout) ∈ omap scrapeRequested events →
       omap sessionCreated events = [session] ∧ timeout = 180%Z
       ∧ requested = EnergyScrape.normalizeDates dates ∧ requested ≠ []
       ∧ existsb loggedIn events = true).
Proof.
  intros events. subst events.
  unfold EnergyScrape.scrapeEnergySummaryForDates.
  destruct (length (EnergyScrape.normalizeDates dates) =? 0)%nat eqn:Hdates.
  { split; [done|]. split; [done|]. split; [cbn; lia|].
    split; [by intros session Hin; apply elem_of_nil in Hin|].
    split; [cbn; lia|].
    split; [by intros ???? Hin; apply elem_of_nil in Hin|].
    split; [cbn; lia|]. by intros ??? Hin; apply elem_of_nil in Hin. }
  assert (EnergyScrape.normalizeDates dates ≠ []) as Hvalid.
  { intros Hnil. by rewrite Hnil in Hdates. }
  split; [done|]. clear Hdates.
  destruct onStatus.
  all: repeat scrape_step.
  all: read_events.
  all: split; [done|]; split; [lia|].
  all: split;
    [intros session Hin;
     first [by apply elem_of_nil in Hin
           |apply elem_of_cons in Hin as [-> | Hnil];
            [done|by apply elem_of_nil in Hnil]]|].
  all: split; [lia|].
  all: split;
    [intros session username password timeout Hin;
     first [by apply elem_of_nil in Hin
           |apply elem_of_cons in Hin as [[= -> -> -> ->] | Hnil];
            [|by apply elem_of_nil in Hnil];
            split; [done|]; split; [done|];
            split; done]|].
  all: split; [lia|].
  all: intros session requested timeout Hin;
    first [by apply elem_of_nil in Hin
          |apply elem_of_cons in Hin as [[= -> -> ->] | Hnil];
           [|by apply elem_of_nil in Hnil];
           split; [done|]; split; [done|]; split; [done|]; split; [done|];
           rewrite ?orb_false_r; by apply login_accepted].
Qed.

End Session.

(** ** Normalizing dates twice *)

Section DatesAgain.

Lemma digit_not_space (c : N) :
  EnergyScrape.isDigit c = true → isWhiteSpace c = false.
Proof.
  intros Hc. apply isDigit_bounds in Hc.
  assert (c = 48 ∨ c = 49 ∨ c = 50 ∨ c = 51 ∨ c = 52 ∨ c = 53 ∨ c = 54
          ∨ c = 55 ∨ c = 56 ∨ c = 57)%N as Hcases by lia.
  repeat destruct Hcases as [->|Hcases]; try done. by subst.
Qed.

Lemma date_trimmed (d : jstring) :
  EnergyScrape.DATE_RE_test d = true → trim d = d.
Proof.
  intros Hd. apply trim_no_space.
  destruct d as [|y1 [|y2 [|y3 [|y4 [|h1 [|m1 [|m2 [|h2 [|d1 [|d2 [|]]]]]]]]]]];
    try done.
  unfold EnergyScrape.DATE_RE_test in Hd. cbn [forallb] in Hd.
  rewrite !andb_true_iff, !N.eqb_eq in Hd.
  destruct Hd as [[(?&?&?&?&?&?&?&?&_) ->] ->].
  repeat apply Forall_cons_2; try by apply digit_not_space. all: done.
Qed.

Lemma sort_sorted_id {A : Type} (cmp : A → A → comparison) (l : list A) :
  StronglySorted (λ a b, cmp a b ≠ Gt) l → EnergyScrape.sort cmp l = l.
Proof.
  induction 1 as [|x l Hl IH Hx]; [done|].
  unfold EnergyScrape.sort in *. cbn [fold_right]. rewrite IH.
  destruct l as [|y r]; [done|]. cbn [EnergyScrape.insertSorted].
  apply Forall_cons in Hx as [Hxy _]. by destruct (cmp x y).
Qed.

Lemma unique_dates_again (l acc : list jstring) :
  NoDup (acc ++ l) → Forall (λ d, EnergyScrape.DATE_RE_test d = true) l →
  fold_left
    (λ unique date,
       match date with
       | VString date =>
           let trimmed := trim date in
           if EnergyScrape.DATE_RE_test trimmed
           then EnergyScrape.setAdd trimmed unique
           else unique
       | _ => unique
       end)
    (List.map VString l) acc
  = acc ++ l.
Proof.
  revert acc. induction l as [|d l IH]; intros acc Hnodup Hdates.
  { by rewrite app_nil_r. }
  apply Forall_cons in Hdates as [Hd Hdates].
  cbn [List.map fold_left]. cbv zeta.
  rewrite (date_trimmed d Hd), Hd. unfold EnergyScrape.setAdd.
  rewrite bool_decide_eq_false_2.
  - rewrite IH; [by rewrite <- app_assoc| by rewrite <- app_assoc|done].
  - apply NoDup_app in Hnodup as (_ & Hdisjoint & _).
    intros Hin. apply (Hdisjoint d Hin). by left.
Qed.

Lemma normalizeDates_sorted (dates : list value) :
  let normalized := EnergyScrape.normalizeDates dates in
  NoDup normalized
  ∧ StronglySorted (λ a b, EnergyScrape.descending a b ≠ Gt) normalized
  ∧ Forall (λ d, EnergyScrape.DATE_RE_test d = true) normalized.
Proof.
  intros normalized.
  pose proof (normalizeDates_unique dates []) as Hunique.
  cbv zeta in Hunique. destruct Hunique as [Hnodup Hmem].
  specialize (Hnodup (NoDup_nil_2 (A:=jstring))).
  subst normalized. unfold EnergyScrape.normalizeDates.
  split; [by rewrite sort_Permutation|]. split.
  - apply sort_sorted; [apply descending_trans | apply descending_total].
  - apply Forall_forall. intros d Hd.
    rewrite sort_Permutation in Hd. apply Hmem in Hd as [Hd|(s & _ & _ & Hd)];
      [by apply elem_of_nil in Hd|done].
Qed.

(** Normalizing the normalized dates changes nothing: the route hands
    the scrape the dates of the completed days, which the scrape
    normalizes, and a list that went through once is a fixed point. *)
Theorem normalizeDates_idempotent (dates : list value) :
  EnergyScrape.normalizeDates
    (List.map VString (EnergyScrape.normalizeDates dates))
  = EnergyScrape.normalizeDates dates.
Proof.
  destruct (normalizeDates_sorted dates) as (Hnodup & Hsorted & Hdates).
  cbv zeta in Hnodup, Hsorted, Hdates.
  unfold EnergyScrape.normalizeDates at 1.
  rewrite (unique_dates_again _ []) by done. cbn [app].
  by apply sort_sorted_id.
Qed.

End DatesAgain.

(** ** The two readers of numbers *)

Section TwoReaders.

Lemma StringToNumber_trim (s : jstring) :
  StringToNumber (trim s) = StringToNumber s.
Proof. unfold StringToNumber. by rewrite trim_idemp. Qed.

(** The reader of the extraction script against the reader of the
    server.  On a text, [num] reads what [parseNumber] reads once the
    Unicode dashes are replaced and the commas removed, except for a
    text that is blank by then: [num] reads 0 where [parseNumber] reads
    nothing.  On a value that is not a text [num] reads nothing, where
    [parseNumber] reads a finite number as itself. *)
Theorem num_reads_cleaned_text (s : jstring) :
  let cleaned := EnergyScrape.stripCommas (EnergyScrape.normalizeMinus s) in
  (trim cleaned ≠ [] →
   EnergyScrape.num (VString s) = parseNumber (VString cleaned))
  ∧ (trim cleaned = [] →
     EnergyScrape.num (VString s) = Some 0%Q
     ∧ parseNumber (VString cleaned) = None)
  ∧ (∀ q, EnergyScrape.num (VNumber (Finite q)) = None
          ∧ parseNumber (VNumber (Finite q)) = Some q).
Proof.
  intros cleaned. unfold EnergyScrape.num, parseNumber. fold cleaned.
  rewrite StringToNumber_trim. split; [|split; [|done]].
  - intros Hne. unfold strEqb. by rewrite bool_decide_eq_false_2.
  - intros Hblank. unfold strEqb. rewrite bool_decide_eq_true_2 by done.
    unfold StringToNumber. by rewrite Hblank.
Qed.

End TwoReaders.

(** ** The calorie-balance summary *)

Section CalorieBalance.

Lemma fold_sum {A : Type} (f : A → Q) (l : list A) (start : Q) :
  (fold_left (λ sum x, sum + f x) l start == start + Qsum (List.map f l))%Q.
Proof.
  revert start. induction l as [|x l IH]; intros start; cbn [fold_left List.map].
  - unfold Qsum. cbn [fold_right]. ring.
  - rewrite IH. unfold Qsum. cbn [fold_right]. ring.
Qed.

Lemma complete_nets (perDay : list Balance.Day) :
  List.map Balance.net
    (List.filter (λ d, bool_decide (Balance.netCalories d ≠ None)) perDay)
  = omap Balance.netCalories perDay.
Proof.
  induction perDay as [|d perDay IH]; [done|].
  cbn [List.filter omap list_omap].
  destruct (Balance.netCalories d) as [n|] eqn:Hn.
  - rewrite bool_decide_eq_true_2 by done. cbn [List.map].
    unfold Balance.net at 1. rewrite Hn. cbn [EnergyScrape.toNumber].
    by f_equal.
  - by rewrite bool_decide_eq_false_2 by (by intros H).
Qed.

Lemma map_filter_net (test : Q → bool) (perDay : list Balance.Day) :
  List.map Balance.net (List.filter (λ d, test (Balance.net d)) perDay)
  = List.filter test (List.map Balance.net perDay).
Proof.
  induction perDay as [|d perDay IH]; [done|]. cbn [List.filter List.map].
  destruct (test (Balance.net d)); cbn [List.map]; by rewrite IH.
Qed.

Lemma signed_sums (nets : list Q) :
  (Qsum nets
   == Qsum (List.filter (λ n, Qltb 0 n) nets)
      - Qsum (List.map Qabs (List.filter (λ n, Qltb n 0) nets)))%Q
  ∧ (0 <= Qsum (List.filter (λ n, Qltb 0 n) nets))%Q
  ∧ (0 <= Qsum (List.map Qabs (List.filter (λ n, Qltb n 0) nets)))%Q.
Proof.
  induction nets as [|n nets (IH & Hpos & Hneg)].
  { unfold Qsum. cbn. repeat split; lra. }
  cbn [List.filter].
  destruct (Qltb 0 n) eqn:Hp; [apply Qltb_lt in Hp|apply Qltb_ge in Hp];
    (destruct (Qltb n 0) eqn:Hn; [apply Qltb_lt in Hn|apply Qltb_ge in Hn]).
  - lra.
  - unfold Qsum in *. cbn [fold_right List.map]. repeat split; lra.
  - unfold Qsum in *. cbn [fold_right List.map].
    rewrite (Qabs_neg n) by lra. repeat split; lra.
  - unfold Qsum in *. cbn [fold_right List.map]. repeat split; lra.
Qed.

Lemma sumLeft_map {A : Type} (f : A → Q) (l : list A) :
  fold_left (λ sum x, sum + f x)%Q l 0%Q = sumLeft (List.map f l).
Proof.
  unfold sumLeft. generalize 0%Q.
  induction l as [|x l IH]; intros start; cbn [fold_left List.map]; [done|].
  apply IH.
Qed.

Lemma sumLeft_Qsum (l : list Q) : (sumLeft l == Qsum l)%Q.
Proof.
  unfold sumLeft.
  rewrite (fold_sum id l 0). rewrite List.map_id. ring.
Qed.

Lemma positive_sum (nets : list Q) :
  (0 < Qsum (List.filter (λ n, Qltb 0 n) nets))%Q
  ↔ ∃ n, n ∈ nets ∧ (0 < n)%Q.
Proof.
  induction nets as [|n nets IH].
  { unfold Qsum. cbn. split; [lra|]. intros (n & Hin & _).
    by apply elem_of_nil in Hin. }
  destruct (signed_sums nets) as (_ & Hpos & _).
  cbn [List.filter].
  destruct (Qltb 0 n) eqn:Hp; [apply Qltb_lt in Hp|apply Qltb_ge in Hp].
  - unfold Qsum in *. cbn [fold_right]. split.
    + intros _. exists n. split; [by left|done].
    + intros _. lra.
  - rewrite IH. split.
    + intros (m & Hin & Hm). exists m. split; [by right|done].
    + intros (m & Hin & Hm). apply elem_of_cons in Hin as [-> | Hin]; [lra|].
      by exists m.
Qed.

Lemma negative_sum (nets : list Q) :
  (0 < Qsum (List.map Qabs (List.filter (λ n, Qltb n 0) nets)))%Q
  ↔ ∃ n, n ∈ nets ∧ (n < 0)%Q.
Proof.
  induction nets as [|n nets IH].
  { unfold Qsum. cbn. split; [lra|]. intros (n & Hin & _).
    by apply elem_of_nil in Hin. }
  destruct (signed_sums nets) as (_ & _ & Hneg).
  cbn [List.filter].
  destruct (Qltb n 0) eqn:Hn; [apply Qltb_lt in Hn|apply Qltb_ge in Hn].
  - unfold Qsum in *. cbn [fold_right List.map].
    rewrite (Qabs_neg n) by lra. split.
    + intros _. exists n. split; [by left|done].
    + intros _. lra.
  - rewrite IH. split.
    + intros (m & Hin & Hm). exists m. split; [by right|done].
    + intros (m & Hin & Hm). apply elem_of_cons in Hin as [-> | Hin]; [lra|].
      by exists m.
Qed.

(** The totals of a balance.  The net total is the sum of the net
    calories of the days that have a target and an intake, the surplus
    total the sum of the positive ones and the deficit total the sum of
    the magnitudes of the negative ones, each added from the left as the
    code adds them.  Neither the surplus nor the deficit is negative,
    and each is positive exactly when some day has a net of its sign.
    The trend is the sign of the net total: a trend of surplus needs a
    day in surplus, and a trend of deficit a day in deficit. *)
Theorem computeCalorieBalance_totals (entries : list Row)
    (explicitTarget : option Q) :
  let balance := Balance.computeCalorieBalance entries explicitTarget in
  let nets := netsOf balance in
  let net := Balance.totalNetCalories balance in
  let deficit := Balance.totalDeficitCalories balance in
  let surplus := Balance.totalSurplusCalories balance in
  Balance.days balance = length entries
  ∧ Balance.daysWithTarget balance = length nets
  ∧ (Balance.daysWithTarget balance <= Balance.days balance)%nat
  ∧ net = sumLeft nets
  ∧ surplus = sumLeft (List.filter (λ n, Qltb 0 n) nets)
  ∧ deficit = sumLeft (List.map Qabs (List.filter (λ n, Qltb n 0) nets))
  ∧ (0 <= deficit)%Q ∧ (0 <= surplus)%Q
  ∧ ((0 < surplus)%Q ↔ ∃ n, n ∈ nets ∧ (0 < n)%Q)
  ∧ ((0 < deficit)%Q ↔ ∃ n, n ∈ nets ∧ (n < 0)%Q)
  ∧ (Balance.trend balance = u "surplus" ↔ (0 < net)%Q)
  ∧ (Balance.trend balance = u "deficit" ↔ (net < 0)%Q)
  ∧ (Balance.trend balance = u "at_target" ↔ (net == 0)%Q)
  ∧ (Balance.trend balance = u "surplus" → (0 < surplus)%Q)
  ∧ (Balance.trend balance = u "deficit" → (0 < deficit)%Q).
Proof.
  intros balance nets net deficit surplus.
  subst deficit surplus net nets balance.
  unfold netsOf, Balance.computeCalorieBalance.
  cbn [Balance.days Balance.daysWithTarget Balance.totalNetCalories
         Balance.totalDeficitCalories Balance.totalSurplusCalories
         Balance.trend Balance.perDay].
  set (perDay := List.map _ entries).
  set (complete := List.filter _ perDay).
  pose proof (complete_nets perDay) as Hnets. fold complete in Hnets.
  set (nets := omap Balance.netCalories perDay) in *.
  destruct (signed_sums nets) as (Hsigned & Hpos & Hneg).
  assert (fold_left (λ sum d, sum + Balance.net d)%Q complete 0%Q
          = sumLeft nets) as Hnet.
  { by rewrite sumLeft_map, Hnets. }
  assert (fold_left (λ sum d, sum + Balance.net d)%Q
            (List.filter (λ d, Qltb 0 (Balance.net d)) complete) 0%Q
          = sumLeft (List.filter (λ n, Qltb 0 n) nets)) as Hsurplus.
  { by rewrite sumLeft_map, (map_filter_net (λ n, Qltb 0 n)), Hnets. }
  assert (fold_left (λ sum d, sum + Qabs (Balance.net d))%Q
            (List.filter (λ d, Qltb (Balance.net d) 0) complete) 0%Q
          = sumLeft (List.map Qabs (List.filter (λ n, Qltb n 0) nets)))
    as Hdeficit.
  { rewrite sumLeft_map, <- Hnets, <- (map_filter_net (λ n, Qltb n 0)).
    by rewrite List.map_map. }
  rewrite Hnet, Hsurplus, Hdeficit.
  pose proof (sumLeft_Qsum nets) as Enet.
  pose proof (sumLeft_Qsum (List.filter (λ n, Qltb 0 n) nets)) as Esurplus.
  pose proof (sumLeft_Qsum (List.map Qabs (List.filter (λ n, Qltb n 0) nets)))
    as Edeficit.
  pose proof (positive_sum nets) as Hsome_pos.
  pose proof (negative_sum nets) as Hsome_neg.
  split; [by subst perDay; rewrite length_map|].
  split; [by rewrite <- Hnets, length_map|].
  split; [subst complete; apply filter_length_le|].
  split; [done|]. split; [done|]. split; [done|].
  split; [by rewrite Edeficit|]. split; [by rewrite Esurplus|].
  split; [by rewrite Esurplus|]. split; [by rewrite Edeficit|].
  assert (u "surplus" ≠ u "deficit") as N1
    by (intros Heq; by vm_compute in Heq).
  assert (u "surplus" ≠ u "at_target") as N2
    by (intros Heq; by vm_compute in Heq).
  assert (u "deficit" ≠ u "at_target") as N3
    by (intros Heq; by vm_compute in Heq).
  rewrite Esurplus, Edeficit.
  destruct (Qltb 0 _) eqn:Hp; [apply Qltb_lt in Hp|apply Qltb_ge in Hp].
  { split; [done|].
    split; [split; [intros Heq; exfalso; congruence|intros; lra]|].
    split; [split; [intros Heq; exfalso; congruence|intros; lra]|].
    split; [intros _; lra|intros Heq; exfalso; congruence]. }
  destruct (Qltb _ 0) eqn:Hn; [apply Qltb_lt in Hn|apply Qltb_ge in Hn].
  - split; [split; [intros Heq; exfalso; congruence|intros; lra]|].
    split; [done|].
    split; [split; [intros Heq; exfalso; congruence|intros; lra]|].
    split; [intros Heq; exfalso; congruence|intros _; lra].
  - split; [split; [intros Heq; exfalso; congruence|intros; lra]|].
    split; [split; [intros Heq; exfalso; congruence|intros; lra]|].
    split; [split; [intros _; lra|done]|].
    split; intros Heq; exfalso; congruence.
Qed.

(** Where the target of a day comes from.  An explicit target is the
    target of every day, whatever the record says.  Without one, a
    target column of the record is taken, under its name; and without
    one of those, the target is the intake plus what the record says
    remains, the net calories of the day being the intake less that
    sum: such a day is never in surplus when calories remain, and never
    in deficit when the remainder is negative.  A day with no target at
    all has no net calories. *)
Theorem balanceDay_target (explicitTarget : option Q) (entry : Row) :
  let day := Balance.balanceDay explicitTarget entry in
  let intake := parseNumber (get entry (u "calories")) in
  (∀ explicit, explicitTarget = Some explicit →
     Balance.targetCalories day = Some explicit
     ∧ Balance.targetSource day = u "explicit"
     ∧ Balance.netCalories day = option_map (λ i, i - explicit)%Q intake)
  ∧ (explicitTarget = None →
     (∀ found, getNumericField entry Balance.targetKeys = Some found →
        Balance.targetCalories day = Some (found_value found)
        ∧ Balance.targetSource day = u "entry:" ++ found_key found
        ∧ Balance.netCalories day
          = option_map (λ i, i - found_value found)%Q intake)
     ∧ (getNumericField entry Balance.targetKeys = None →
        (∀ remaining i,
           getNumericField entry Balance.remainingKeys = Some remaining →
           intake = Some i →
           Balance.targetSource day
           = u "derived:calories+" ++ found_key remaining
           ∧ Balance.targetCalories day = Some (i + found_value remaining)%Q
           ∧ Balance.netCalories day
             = Some (i - (i + found_value remaining))%Q
           ∧ ((0 <= found_value remaining)%Q →
              Balance.status day ≠ u "surplus")
           ∧ ((found_value remaining <= 0)%Q →
              Balance.status day ≠ u "deficit"))
        ∧ (getNumericField entry Balance.remainingKeys = None
           ∨ intake = None →
           Balance.targetCalories day = None
           ∧ Balance.netCalories day = None
           ∧ Balance.status day = u "unknown"
           ∧ Balance.targetSource day = u "none"))).
Proof.
  intros day intake. subst day intake. unfold Balance.balanceDay.
  split.
  { intros explicit ->.
    cbn [Balance.targetCalories Balance.targetSource Balance.netCalories].
    by destruct (parseNumber _). }
  intros ->. unfold Balance.inferTargetCalories.
  cbn [Balance.targetCalories Balance.targetSource Balance.netCalories
         Balance.status].
  split.
  { intros found ->. cbn [option_map Balance.target Balance.source].
    by destruct (parseNumber _). }
  intros ->. cbv zeta. split.
  - intros remaining i -> ->. cbn [option_map Balance.target Balance.source].
    split; [done|]. split; [done|]. split; [done|].
    assert (u "deficit" ≠ u "surplus") as N1
      by (intros Heq; by vm_compute in Heq).
    assert (u "at_target" ≠ u "surplus") as N2
      by (intros Heq; by vm_compute in Heq).
    assert (u "surplus" ≠ u "deficit") as N3
      by (intros Heq; by vm_compute in Heq).
    assert (u "at_target" ≠ u "deficit") as N4
      by (intros Heq; by vm_compute in Heq).
    destruct (Qltb 0 _) eqn:Hp; [apply Qltb_lt in Hp|apply Qltb_ge in Hp].
    { split; [intros; lra|done]. }
    destruct (Qltb _ 0) eqn:Hn; [apply Qltb_lt in Hn|apply Qltb_ge in Hn].
    + split; [done|intros; lra].
    + by split.
  - intros [-> | ->]; [by destruct (parseNumber _)|].
    by destruct (getNumericField entry Balance.remainingKeys).
Qed.

End CalorieBalance.

(** ** Retrying the export command *)

Section RetryFacts.

Lemma startsWith_separator (a b search : jstring) (separator : N) :
  separator ∉ search →
  Cli.startsWith (a ++ separator :: b) search = Cli.startsWith a search.
Proof.
  revert search. induction a as [|c a IH]; intros search Hsep.
  - destruct search as [|p search]; [done|]. cbn.
    apply not_elem_of_cons in Hsep as [Hne _].
    by rewrite (proj2 (N.eqb_neq _ _) Hne).
  - destruct search as [|p search]; [done|]. cbn [app Cli.startsWith].
    apply not_elem_of_cons in Hsep as [_ Hsep]. by rewrite IH.
Qed.

Lemma includes_separator (a b search : jstring) (separator : N) :
  separator ∉ search →
  Cli.includes (a ++ separator :: b) search
  = Cli.includes a search || Cli.includes b search.
Proof.
  intros Hsep. induction a as [|c a IH].
  - pose proof (startsWith_separator [] b search separator Hsep) as Hhead.
    cbn [app] in Hhead. cbn [app Cli.includes]. rewrite Hhead.
    by rewrite orb_false_r.
  - pose proof (startsWith_separator (c :: a) b search separator Hsep)
      as Hhead.
    cbn [app] in Hhead. cbn [app Cli.includes]. rewrite IH, Hhead.
    by rewrite orb_assoc.
Qed.

(** A rate limit is recognised in any of the three texts of an error,
    whatever the case of its letters, and never across two of them:
    joining them with line ends creates no match. *)
Theorem isRateLimitError_by_part (error : Cli.CliError) :
  Cli.isRateLimitError error
  = Cli.includes (toLowerCase (Cli.orEmpty (Cli.stdout error)))
      (u "rate limit")
    || Cli.includes (toLowerCase (Cli.orEmpty (Cli.stderr error)))
         (u "rate limit")
    || Cli.includes (toLowerCase (Cli.orEmpty (Cli.message error)))
         (u "rate limit").
Proof.
  unfold Cli.isRateLimitError. cbv zeta. unfold toLowerCase.
  rewrite !List.map_app. cbn [List.map app].
  change (lowerUnit 10) with 10%N.
  assert (10%N ∉ u "rate limit") as Hsep.
  { intros Hin. vm_compute in Hin. 
    repeat (apply elem_of_cons in Hin as [Hin|Hin]; [done|]).
    by apply elem_of_nil in Hin. }
  rewrite !includes_separator by done. by rewrite orb_assoc.
Qed.

Lemma retryLoop_scripted (args : list jstring) (delayMs : Z)
    (limited : list (Cli.CliError + Json)) (outcome : Cli.CliError + Json)
    (rest : list (Cli.CliError + Json)) (remaining made : nat)
    (taken : list Z) (lastError : option Cli.CliError) :
  Forall (λ o, rateLimited o = true) limited →
  (length limited < remaining)%nat →
  rateLimited outcome = false ∨ S (length limited) = remaining →
  Cli.retryLoop scriptedRun scriptedSleep args delayMs remaining lastError
    {| script := limited ++ outcome :: rest; calls := made; pauses := taken |}
  = (seen outcome,
     {| script := rest; calls := made + S (length limited);
        pauses := taken ++ replicate (length limited) delayMs |}).
Proof.
  revert remaining made taken lastError.
  induction limited as [|first limited IH];
    intros remaining made taken lastError Hlimited Hlength Hlast.
  - destruct remaining as [|remaining]; [cbn in Hlength; lia|].
    cbn [Cli.retryLoop app]. unfold scriptedRun at 1. cbn [script calls pauses].
    rewrite app_nil_r, Nat.add_1_r.
    destruct outcome as [error|json]; [|done]. cbn [seen].
    destruct Hlast as [Hother|Hlast].
    + cbn [rateLimited] in Hother. by rewrite Hother.
    + injection Hlast as <-. cbn [Nat.ltb Nat.leb]. by rewrite andb_false_r.
  - apply Forall_cons in Hlimited as [Hfirst Hlimited].
    destruct remaining as [|remaining]; [cbn in Hlength; lia|].
    cbn [length] in Hlength, Hlast.
    cbn [Cli.retryLoop app]. unfold scriptedRun at 1. cbn [script calls pauses].
    destruct first as [error|json]; [|done]. cbn [rateLimited] in Hfirst.
    rewrite Hfirst. cbn [andb].
    assert ((0 <? remaining)%nat = true) as -> by (apply Nat.ltb_lt; lia).
    unfold scriptedSleep. cbn [script calls pauses].
    rewrite IH; [|done|lia|destruct Hlast; [by left|right; lia]].
    cbn [length replicate]. f_equal. f_equal; [lia|].
    by rewrite <- app_assoc.
Qed.

(** The export command is retried after a rate-limit error only, with a
    pause before each retry, and at most to the number of attempts: the
    caller sees the first outcome that is not a rate-limit error, or the
    outcome of the last attempt.  With no attempt allowed nothing is run
    and [null] is thrown. *)
Theorem runCronoJsonWithRetry_outcome (args : list jstring) (attempts : nat)
    (delayMs : Z) (limited : list (Cli.CliError + Json))
    (outcome : Cli.CliError + Json) (rest : list (Cli.CliError + Json)) :
  Forall (λ o, rateLimited o = true) limited →
  (length limited < attempts)%nat →
  rateLimited outcome = false ∨ S (length limited) = attempts →
  Cli.runCronoJsonWithRetry scriptedRun scriptedSleep args attempts delayMs
    (startOf (limited ++ outcome :: rest))
  = (seen outcome,
     {| script := rest; calls := S (length limited);
        pauses := replicate (length limited) delayMs |})
  ∧ Cli.runCronoJsonWithRetry scriptedRun scriptedSleep args 0 delayMs
      (startOf (limited ++ outcome :: rest))
    = (inl None, startOf (limited ++ outcome :: rest)).
Proof.
  intros Hlimited Hlength Hlast. split; [|done].
  unfold Cli.runCronoJsonWithRetry, startOf.
  by rewrite (retryLoop_scripted args delayMs limited outcome rest attempts 0 []).
Qed.

Lemma runCronoJsonWithRetry_outcome_witness :
  let limited := [inl rateLimitError; inl rateLimitError] in
  (Forall (λ o, rateLimited o = true) limited
   ∧ (length limited < 3)%nat
   ∧ (rateLimited (inl rateLimitError) = false ∨ S (length limited) = 3%nat))
  ∧ Cli.runCronoJsonWithRetry scriptedRun scriptedSleep [u "export"] 3 12000
      (startOf (limited ++ inl rateLimitError :: [inr JNothing]))
    = (seen (inl rateLimitError),
       {| script := [inr JNothing]; calls := 3;
          pauses := [12000%Z; 12000%Z] |})
  ∧ Cli.runCronoJsonWithRetry scriptedRun scriptedSleep [u "export"] 0 12000
      (startOf (limited ++ inl rateLimitError :: [inr JNothing]))
    = (inl None, startOf (limited ++ inl rateLimitError :: [inr JNothing])).
Proof.
  intros limited.
  assert (Forall (λ o, rateLimited o = true) limited) as Hlimited.
  { subst limited. repeat apply Forall_cons_2; [by vm_compute..|done]. }
  assert (length limited < 3)%nat as Hlength by (cbn; lia).
  assert (rateLimited (inl rateLimitError) = false ∨ S (length limited) = 3%nat)
    as Hlast by (by right).
  split; [done|].
  exact (runCronoJsonWithRetry_outcome [u "export"] 3 12000 limited
           (inl rateLimitError) [inr JNothing] Hlimited Hlength Hlast).
Defined.

End RetryFacts.

(** ** The API key *)

Section ApiKey.

Lemma pickApiKey_trimmed (req : Auth.Request) :
  trim (Auth.pickApiKey req) = Auth.pickApiKey req.
Proof.
  unfold Auth.pickApiKey.
  assert (trim [] = ([] : jstring)) as Hempty by done.
  destruct (Auth.x_api_key req) as [header|].
  - destruct (strEqb header []); [|apply trim_idemp].
    destruct (Auth.authorization req) as [auth|]; [|done].
    destruct (_ && _); [apply trim_idemp|done].
  - destruct (Auth.authorization req) as [auth|]; [|done].
    destruct (_ && _); [apply trim_idemp|done].
Qed.

Lemma middleware_passes (config : Auth.Config) (req : Auth.Request) :
  Auth.REQUIRE_API_KEY config = true →
  Auth.apiKeyMiddleware config req = None
  ↔ Auth.pickApiKey req = Auth.API_KEY config.
Proof.
  intros Hrequired. unfold Auth.apiKeyMiddleware. rewrite Hrequired.
  cbn [negb]. unfold strEqb.
  destruct (decide (Auth.pickApiKey req = Auth.API_KEY config)) as [Heq|Hne].
  - by rewrite bool_decide_eq_true_2.
  - by rewrite bool_decide_eq_false_2.
Qed.

(** Who passes the API key check.  Without a configured key, or with
    the check waived, everyone does.  Otherwise a request passes exactly
    when the key it provides is the configured one: the [x-api-key]
    header when it is not empty, trimmed, whatever [Authorization] says,
    and nothing when both headers are absent.  What a request provides
    is always trimmed, so that a configured key with white space around
    it lets no one in. *)
Theorem apiKeyMiddleware_access (config : Auth.Config) (req : Auth.Request) :
  (Auth.REQUIRE_API_KEY config = false →
   Auth.apiKeyMiddleware config req = None)
  ∧ (Auth.REQUIRE_API_KEY config = true →
     (Auth.apiKeyMiddleware config req = None
      ↔ Auth.pickApiKey req = Auth.API_KEY config)
     ∧ (trim (Auth.API_KEY config) ≠ Auth.API_KEY config →
        Auth.apiKeyMiddleware config req ≠ None)
     ∧ (∀ header, Auth.x_api_key req = Some header → header ≠ [] →
          Auth.apiKeyMiddleware config req = None
          ↔ trim header = Auth.API_KEY config)
     ∧ (Auth.x_api_key req = None → Auth.authorization req = None →
        Auth.apiKeyMiddleware config req ≠ None))
  ∧ (∀ flag, Auth.REQUIRE_API_KEY (Auth.configOf None flag) = false
             ∧ Auth.REQUIRE_API_KEY (Auth.configOf (Some []) flag) = false).
Proof.
  split.
  { intros Hopen. unfold Auth.apiKeyMiddleware. by rewrite Hopen. }
  split.
  2:{ intros flag. unfold Auth.REQUIRE_API_KEY, Auth.configOf.
      cbn [Auth.API_KEY default from_option id length Nat.ltb Nat.leb].
      by rewrite andb_false_r. }
  intros Hrequired. pose proof (middleware_passes config req Hrequired) as Hpass.
  split; [done|]. split.
  { intros Hpadded. rewrite Hpass. intros Heq.
    apply Hpadded. rewrite <- Heq. apply pickApiKey_trimmed. }
  split.
  { intros header Hheader Hne. rewrite Hpass. unfold Auth.pickApiKey.
    rewrite Hheader. unfold strEqb. by rewrite bool_decide_eq_false_2. }
  intros Hkey Hauth. rewrite Hpass. unfold Auth.pickApiKey.
  rewrite Hkey, Hauth. intros Hempty.
  unfold Auth.REQUIRE_API_KEY in Hrequired. rewrite <- Hempty in Hrequired.
  cbn in Hrequired. by rewrite andb_false_r in Hrequired.
Qed.

End ApiKey.

(** ** Synchronising the credentials *)

Section SyncFacts.

Lemma required_blank (raw : gmap jstring jstring) (name : jstring) :
  CredentialsSync.required name (raw !! name)
  = if blankIn raw name then inl (CredentialsSync.MissingRequired name)
    else inr (trimmedOf raw name).
Proof.
  unfold CredentialsSync.required, blankIn, trimmedOf.
  destruct (raw !! name) as [value|]; [|done].
  cbn [default from_option id].
  destruct (strEqb (trim value) []) eqn:Hblank; [by rewrite orb_true_r|].
  destruct (strEqb value []) eqn:Hempty; [|done].
  unfold strEqb in Hempty, Hblank. apply bool_decide_eq_true in Hempty.
  subst value. by rewrite bool_decide_eq_true_2 in Hblank.
Qed.

Lemma present_trimmed (raw : gmap jstring jstring) (name : jstring) :
  blankIn raw name = false → trimmedNonEmpty (trimmedOf raw name).
Proof.
  unfold blankIn, trimmedOf. destruct (raw !! name) as [value|]; [|done].
  cbn [default from_option id]. intros Hblank.
  split; [apply trim_idemp|]. intros Hnil. unfold strEqb in Hblank.
  by rewrite bool_decide_eq_true_2 in Hblank.
Qed.

(** The synchronisation checks before it stores, and it is not atomic.
    When one of the three variables is absent or blank nothing is asked
    of the outside, and the error names the first such variable.
    Otherwise the module is imported, the three credentials are stored,
    trimmed, in their order, and the key is put in the environment last:
    what is asked is always a beginning of that sequence, and an answer
    means all of it was.  A request that raises, be it the import or
    one of the three calls of [setCredential], ends the run where it is,
    and nothing is taken back: when the second credential is refused
    the first one stays stored, and the run fails. *)
Theorem syncCredentials_validates_before_storing
    (raw : gmap jstring jstring) :
  (∀ name, firstBlank raw = Some name →
     CredentialsSync.syncCredentials raw
     = CredentialsSync.Fail (CredentialsSync.MissingRequired name))
  ∧ (firstBlank raw = None →
     Forall (λ name, trimmedNonEmpty (trimmedOf raw name)) requiredNames
     ∧ (∀ (W : Type)
          (answer : CredentialsSync.Op → W
                    → (CredentialsSync.Failure + bool) * W) (w : W),
          let made :=
            CredentialsSync.requests answer
              (CredentialsSync.syncCredentials raw) w in
          let outcome :=
            (CredentialsSync.run answer (CredentialsSync.syncCredentials raw)
               w).1 in
          made `prefix_of` fullSync raw
          ∧ head made = Some (CredentialsSync.Import (modulePathOf raw))
          ∧ (∀ updated, outcome = inr updated →
               made = fullSync raw
               ∧ updated
                 = [u "kernel-api-key"; u "cronometer-username";
                    u "cronometer-password"])
          ∧ (made ≠ fullSync raw → ∃ e, outcome = inl e))
     ∧ (∀ n, (n < 4)%nat →
          let made :=
            CredentialsSync.requests (raisingAt n)
              (CredentialsSync.syncCredentials raw) 0%nat in
          let outcome :=
            (CredentialsSync.run (raisingAt n)
               (CredentialsSync.syncCredentials raw) 0%nat).1 in
          made = take (S n) (fullSync raw)
          ∧ outcome = inl (CredentialsSync.Raised (u "refused"))
          ∧ storedBy (take n (fullSync raw))
            = take (n - 1)
                [u "kernel-api-key"; u "cronometer-username";
                 u "cronometer-password"])
     ∧ storedBy (take 2 (fullSync raw)) = [u "kernel-api-key"]).
Proof.
  unfold firstBlank, requiredNames, CredentialsSync.syncCredentials.
  cbn [List.find]. rewrite !required_blank.
  destruct (blankIn raw (u "CRONO_KERNEL_API_KEY")) eqn:Hkey.
  { split; [by intros name [= <-]|done]. }
  destruct (blankIn raw (u "CRONO_CRONOMETER_EMAIL")) eqn:Hemail.
  { split; [by intros name [= <-]|done]. }
  destruct (blankIn raw (u "CRONO_CRONOMETER_PASSWORD")) eqn:Hpassword.
  { split; [by intros name [= <-]|done]. }
  split; [done|]. intros _. split.
  { repeat apply Forall_cons_2; [by apply present_trimmed..|done]. }
  fold (modulePathOf raw). unfold fullSync. split; [|split; [|done]].
  - intros W answer w. cbv zeta.
    cbn [CredentialsSync.requests CredentialsSync.run].
    destruct (answer (CredentialsSync.Import _) w) as [[e|[|]] w1];
      cbn [negb CredentialsSync.requests CredentialsSync.run fst].
    1,3: split; [by eexists|]; split; [done|]; split; [done|]; by eexists.
    destruct (answer (CredentialsSync.SetCredential (u "kernel-api-key") _) w1)
      as [[e|x2] w2]; cbn [CredentialsSync.requests CredentialsSync.run fst].
    { split; [by eexists|]. split; [done|]. split; [done|]. by eexists. }
    destruct (answer (CredentialsSync.SetCredential (u "cronometer-username") _)
                w2) as [[e|x3] w3];
      cbn [CredentialsSync.requests CredentialsSync.run fst].
    { split; [by eexists|]. split; [done|]. split; [done|]. by eexists. }
    destruct (answer (CredentialsSync.SetCredential (u "cronometer-password") _)
                w3) as [[e|x4] w4];
      cbn [CredentialsSync.requests CredentialsSync.run fst].
    { split; [by eexists|]. split; [done|]. split; [done|]. by eexists. }
    destruct (answer (CredentialsSync.SetEnv _ _) w4) as [[e|x5] w5];
      cbn [CredentialsSync.requests CredentialsSync.run fst].
    { split; [by exists []|]. split; [done|]. split; [done|]. by eexists. }
    split; [by exists []|]. split; [done|].
    split; [by intros updated [= <-]|done].
  - intros n Hn. cbv zeta.
    destruct n as [|[|[|[|n]]]]; [..|lia];
      cbn [CredentialsSync.requests CredentialsSync.run raisingAt Nat.eqb
             negb fst take firstn storedBy omap list_omap Nat.sub];
      done.
Qed.

End SyncFacts.

(** ** The burn-related keys of the export *)

Section BurnRelatedKeys.

Lemma ascending_before (a b : jstring) :
  Report.ascending a b ≠ Gt ↔ strLt b a = false.
Proof.
  unfold Report.ascending.
  destruct (strLt a b) eqn:Hab; [|by destruct (strLt b a)].
  split; [intros _; by apply strLt_asym|done].
Qed.

Lemma ascending_trans (a b c : jstring) :
  Report.ascending a b ≠ Gt → Report.ascending b c ≠ Gt →
  Report.ascending a c ≠ Gt.
Proof.
  rewrite !ascending_before. intros Hba Hcb.
  destruct (strLt c a) eqn:Hca; [|done].
  destruct (strLt_trichotomy b a) as [H|[->|H]]; [congruence|congruence|].
  pose proof (strLt_trans _ _ _ Hca H). congruence.
Qed.

Lemma ascending_total (a b : jstring) :
  Report.ascending a b = Gt → Report.ascending b a ≠ Gt.
Proof.
  rewrite ascending_before. unfold Report.ascending.
  destruct (strLt a b) eqn:Hab; [done|]. by destruct (strLt b a).
Qed.

Lemma collect_keys (keys : list jstring) (acc : list jstring) :
  let collected :=
    fold_left
      (λ acc key,
         if Report.burnRelated key then EnergyScrape.setAdd key acc else acc)
      keys acc in
  (NoDup acc → NoDup collected)
  ∧ ∀ key, key ∈ collected
           ↔ key ∈ acc ∨ key ∈ keys ∧ Report.burnRelated key = true.
Proof.
  revert acc. induction keys as [|k keys IH]; intros acc; cbv zeta.
  { cbn [fold_left]. split; [done|]. intros key. split; [by left|].
    intros [?|[Hin _]]; [done|]. by apply elem_of_nil in Hin. }
  cbn [fold_left].
  match goal with
  | |- context [fold_left ?f keys ?acc'] => destruct (IH acc') as [Hnodup Hmem]
  end.
  split.
  - intros Hacc. apply Hnodup.
    destruct (Report.burnRelated k); [by apply NoDup_setAdd|done].
  - intros key. rewrite Hmem, elem_of_cons. clear Hnodup Hmem IH.
    destruct (Report.burnRelated k) eqn:Hk.
    + rewrite elem_of_setAdd. split.
      * intros [[->|?]|[? ?]]; [right|by left|right]; auto.
      * intros [?|[[->|?] ?]]; [left; by right|left; by left|right]; auto.
    + split.
      * intros [?|[? ?]]; [by left|right]; auto.
      * intros [?|[[->|?] ?]]; [by left|congruence|right]; auto.
Qed.

Lemma collect_entries (entries : list Row) (acc : list jstring) :
  let collected :=
    fold_left
      (λ acc entry,
         fold_left
           (λ acc key,
              if Report.burnRelated key then EnergyScrape.setAdd key acc
              else acc)
           (List.map fst (map_to_list entry)) acc)
      entries acc in
  (NoDup acc → NoDup collected)
  ∧ ∀ key, key ∈ collected
           ↔ key ∈ acc
             ∨ Report.burnRelated key = true
               ∧ ∃ entry, entry ∈ entries ∧ is_Some (entry !! key).
Proof.
  revert acc. induction entries as [|entry entries IH]; intros acc; cbv zeta.
  { cbn [fold_left]. split; [done|]. intros key. split; [by left|].
    intros [?|[_ (entry & Hin & _)]]; [done|]. by apply elem_of_nil in Hin. }
  cbn [fold_left].
  match goal with
  | |- context [fold_left ?f entries ?acc'] =>
      destruct (IH acc') as [Hnodup Hmem]
  end.
  destruct (collect_keys (List.map fst (map_to_list entry)) acc)
    as [Hnodup' Hmem'].
  cbv zeta in Hnodup', Hmem'.
  split; [by intros Hacc; apply Hnodup, Hnodup'|].
  intros key. rewrite Hmem, Hmem'. clear Hnodup Hmem Hnodup' Hmem' IH.
  assert (key ∈ List.map fst (map_to_list entry) ↔ is_Some (entry !! key))
    as Hkeys.
  { rewrite list_elem_of_In, in_map_iff. split.
    - intros ([k v] & <- & Hin). apply list_elem_of_In in Hin.
      apply elem_of_map_to_list in Hin. by exists v.
    - intros [v Hv]. exists (key, v). split; [done|].
      by apply list_elem_of_In, elem_of_map_to_list. }
  rewrite Hkeys. setoid_rewrite elem_of_cons. split.
  - intros [[?|[? ?]]|[? (e & ? & ?)]]; [by left|right..].
    + split; [done|]. exists entry. auto.
    + split; [done|]. exists e. auto.
  - intros [?|[? (e & [->|?] & ?)]]; [by left; left|left; by right|right].
    split; [done|]. by exists e.
Qed.

(** The keys reported as burn-related are the keys of the records in
    which one of the ten words occurs, whatever the case of its letters;
    each is listed once, in the ascending order of strings.  A list is
    determined by these three facts, so that the order in which the keys
    of a record are met does not matter. *)
Theorem collectBurnRelatedNutritionKeys_sorted_keys (entries : list Row) :
  let keys := Report.collectBurnRelatedNutritionKeys entries in
  (∀ key, key ∈ keys
          ↔ Report.burnRelated key = true
            ∧ ∃ entry, entry ∈ entries ∧ is_Some (entry !! key))
  ∧ NoDup keys
  ∧ StronglySorted (λ a b, strLt a b = true) keys
  ∧ ∀ other,
      (∀ key, key ∈ other ↔ key ∈ keys) →
      StronglySorted (λ a b, strLt a b = true) other →
      other = keys.
Proof.
  intros keys. subst keys. unfold Report.collectBurnRelatedNutritionKeys.
  destruct (collect_entries entries []) as [Hnodup Hmem].
  cbv zeta in Hnodup, Hmem.
  specialize (Hnodup (NoDup_nil_2 (A:=jstring))).
  set (collected := fold_left _ entries []) in *.
  assert (NoDup (EnergyScrape.sort Report.ascending collected)) as Hnd
    by (by rewrite sort_Permutation).
  assert (StronglySorted (λ a b, strLt a b = true)
            (EnergyScrape.sort Report.ascending collected)) as Hsorted.
  { apply (StronglySorted_strict (λ a b, Report.ascending a b ≠ Gt));
      [|done|].
    - apply sort_sorted; [apply ascending_trans | apply ascending_total].
    - intros a b _ _ Hab Hne. apply ascending_before in Hab.
      destruct (strLt_trichotomy a b) as [H|[H|H]]; [done|done|congruence]. }
  split.
  { intros key. rewrite sort_Permutation, Hmem. split; [|by right].
    intros [Hnil|?]; [by apply elem_of_nil in Hnil|done]. }
  split; [done|]. split; [done|].
  intros other Hsame Hother.
  revert Hsame Hsorted. generalize (EnergyScrape.sort Report.ascending collected).
  induction Hother as [|x other Hother IH Hx]; intros keys Hsame Hkeys.
  { destruct keys as [|y keys]; [done|].
    assert (y ∈ ([] : list jstring)) as Hin by (apply Hsame; by left).
    by apply elem_of_nil in Hin. }
  destruct Hkeys as [|y keys Hkeys Hy].
  { assert (x ∈ ([] : list jstring)) as Hin by (apply Hsame; by left).
    by apply elem_of_nil in Hin. }
  rewrite Forall_forall in Hx, Hy.
  assert (x = y) as ->.
  { assert (x ∈ y :: keys) as Hxin by (apply Hsame; by left).
    assert (y ∈ x :: other) as Hyin by (apply Hsame; by left).
    apply elem_of_cons in Hxin as [?|Hxin]; [done|].
    apply elem_of_cons in Hyin as [?|Hyin]; [done|].
    pose proof (Hx y Hyin) as Hxy. pose proof (Hy x Hxin) as Hyx.
    apply strLt_asym in Hxy. congruence. }
  f_equal. apply IH; [|done].
  intros key. split.
  - intros Hin. assert (key ∈ y :: keys) as Hk by (apply Hsame; by right).
    apply elem_of_cons in Hk as [->|?]; [|done].
    pose proof (Hx y Hin) as Hyy. by rewrite strLt_irrefl in Hyy.
  - intros Hin. assert (key ∈ y :: other) as Hk by (apply Hsame; by right).
    apply elem_of_cons in Hk as [->|?]; [|done].
    pose proof (Hy y Hin) as Hyy. by rewrite strLt_irrefl in Hyy.
Qed.

End BurnRelatedKeys.

(** ** Local dates as text *)

Section LocalDates.

Lemma checked_below (check : N → bool) (bound : N) :
  forallb check (List.map N.of_nat (seq 0 (N.to_nat bound))) = true →
  ∀ n, (n < bound)%N → check n = true.
Proof.
  intros Hall n Hn. rewrite forallb_forall in Hall. apply Hall.
  apply in_map_iff. exists (N.to_nat n). split; [lia|].
  apply in_seq. lia.
Qed.

Lemma decimal_year (n : N) :
  (1000 <= n <= 9999)%N →
  ∃ a b c d,
    Report.decimal n = [a; b; c; d]
    ∧ forallb EnergyScrape.isDigit [a; b; c; d] = true
    ∧ n = (digitValue a * 1000 + digitValue b * 100 + digitValue c * 10
           + digitValue d)%N.
Proof.
  intros Hn.
  pose (check := λ n : N,
          (n <? 1000)%N
          || match Report.decimal n with
             | [a; b; c; d] =>
                 forallb EnergyScrape.isDigit [a; b; c; d]
                 && (n =? digitValue a * 1000 + digitValue b * 100
                          + digitValue c * 10 + digitValue d)%N
             | _ => false
             end).
  assert (check n = true) as Hcheck.
  { apply (checked_below check 10000); [by vm_compute|lia]. }
  subst check. cbv beta in Hcheck.
  rewrite (proj2 (N.ltb_ge _ _)) in Hcheck by lia. cbn [orb] in Hcheck.
  destruct (Report.decimal n) as [|a [|b [|c [|d [|]]]]]; try done.
  apply andb_true_iff in Hcheck as [Hdigits Hvalue].
  apply N.eqb_eq in Hvalue. by exists a, b, c, d.
Qed.

Lemma decimal_short (n : N) :
  (n < 1000)%N → (length (Report.decimal n) <= 3)%nat.
Proof.
  intros Hn.
  pose (check := λ n : N, (length (Report.decimal n) <=? 3)%nat).
  assert (check n = true) as Hcheck.
  { apply (checked_below check 1000); [by vm_compute|lia]. }
  by apply Nat.leb_le in Hcheck.
Qed.

Lemma padded_pair (n : N) :
  (n <= 99)%N →
  ∃ a b,
    Report.padStart2 (Report.decimal n) = [a; b]
    ∧ forallb EnergyScrape.isDigit [a; b] = true
    ∧ n = (digitValue a * 10 + digitValue b)%N.
Proof.
  intros Hn.
  pose (check := λ n : N,
          match Report.padStart2 (Report.decimal n) with
          | [a; b] =>
              forallb EnergyScrape.isDigit [a; b]
              && (n =? digitValue a * 10 + digitValue b)%N
          | _ => false
          end).
  assert (check n = true) as Hcheck.
  { apply (checked_below check 100); [by vm_compute|lia]. }
  subst check. cbv beta in Hcheck.
  destruct (Report.padStart2 (Report.decimal n)) as [|a [|b [|]]]; try done.
  apply andb_true_iff in Hcheck as [Hdigits Hvalue].
  apply N.eqb_eq in Hvalue. by exists a, b.
Qed.

Lemma formatLocalDate_reading (date : Report.LocalDate) :
  fourDigitYear date →
  EnergyScrape.DATE_RE_test (Report.formatLocalDate date) = true
  ∧ dateOrdinal (Report.formatLocalDate date) = ordinalOf date.
Proof.
  intros (Hyear & Hmonth & Hday). unfold Report.formatLocalDate, ordinalOf.
  cbv zeta. unfold Report.decimalZ.
  rewrite (proj2 (Z.ltb_ge _ _)) by lia.
  destruct (decimal_year (Z.to_N (Report.getFullYear date)))
    as (y1 & y2 & y3 & y4 & -> & Hy & Hyv); [lia|].
  destruct (padded_pair (Report.getMonth date + 1))
    as (m1 & m2 & -> & Hm & Hmv); [lia|].
  destruct (padded_pair (Report.getDate date))
    as (d1 & d2 & -> & Hd & Hdv); [lia|].
  change (u "-") with [45%N]. cbn [app].
  cbn [forallb] in Hy, Hm, Hd.
  rewrite !andb_true_iff in Hy. rewrite !andb_true_iff in Hm.
  rewrite !andb_true_iff in Hd.
  destruct Hy as (Hy1 & Hy2 & Hy3 & Hy4 & _).
  destruct Hm as (Hm1 & Hm2 & _). destruct Hd as (Hd1 & Hd2 & _).
  split.
  - unfold EnergyScrape.DATE_RE_test. cbn [forallb].
    by rewrite Hy1, Hy2, Hy3, Hy4, Hm1, Hm2, Hd1, Hd2.
  - unfold dateOrdinal. rewrite Hyv, Hmv, Hdv.
    generalize (digitValue y1) (digitValue y2) (digitValue y3)
      (digitValue y4) (digitValue m1) (digitValue m2) (digitValue d1)
      (digitValue d2).
    intros. lia.
Qed.

Lemma date_pattern_year (s : jstring) :
  EnergyScrape.DATE_RE_test s = true →
  ∃ y1 y2 y3 y4 rest,
    s = y1 :: y2 :: y3 :: y4 :: rest
    ∧ forallb EnergyScrape.isDigit [y1; y2; y3; y4] = true.
Proof.
  destruct s as [|y1 [|y2 [|y3 [|y4 [|h1 [|m1 [|m2 [|h2 [|d1 [|d2 [|]]]]]]]]]]];
    try done.
  unfold EnergyScrape.DATE_RE_test. cbn [forallb].
  rewrite !andb_true_iff. intros [[(?&?&?&?&_) _] _].
  exists y1, y2, y3, y4. eexists. split; [done|]. cbn [forallb].
  by rewrite !andb_true_iff.
Qed.

(** A local date is written as the pattern of the scrape module reads
    it: for a year of four digits the text matches YYYY-MM-DD, reads as
    the date, is left alone by [trim], and two such texts are ordered as
    their dates are.  The year is not padded: before the year 1000 the
    text does not match. *)
Theorem formatLocalDate_matches_pattern (date other : Report.LocalDate) :
  fourDigitYear date → fourDigitYear other →
  EnergyScrape.DATE_RE_test (Report.formatLocalDate date) = true
  ∧ dateOrdinal (Report.formatLocalDate date) = ordinalOf date
  ∧ trim (Report.formatLocalDate date) = Report.formatLocalDate date
  ∧ (strLt (Report.formatLocalDate date) (Report.formatLocalDate other) = true
     ↔ (ordinalOf date < ordinalOf other)%N)
  ∧ ∀ early,
      (0 <= Report.getFullYear early < 1000)%Z →
      EnergyScrape.DATE_RE_test (Report.formatLocalDate early) = false.
Proof.
  intros Hdate Hother.
  destruct (formatLocalDate_reading date Hdate) as [Hpattern Hordinal].
  destruct (formatLocalDate_reading other Hother) as [Hpattern' Hordinal'].
  split; [done|]. split; [done|]. split; [by apply date_trimmed|].
  split; [by rewrite strLt_dateOrdinal, Hordinal, Hordinal'|].
  clear. intros early Hearly. unfold Report.formatLocalDate. cbv zeta.
  unfold Report.decimalZ. rewrite (proj2 (Z.ltb_ge _ _)) by lia.
  assert (length (Report.decimal (Z.to_N (Report.getFullYear early))) <= 3)%nat
    as Hshort by (apply decimal_short; lia).
  destruct (Report.decimal (Z.to_N (Report.getFullYear early)))
    as [|y1 [|y2 [|y3 [|y4 rest]]]].
  5:{ cbn [length] in Hshort. lia. }
  all: change (u "-") with [45%N]; cbn [app].
  all: destruct (EnergyScrape.DATE_RE_test _) eqn:Hmatch; [exfalso|done].
  all: apply date_pattern_year in Hmatch
         as (z1 & z2 & z3 & z4 & tail & Heq & Hdigits).
  all: repeat
         match goal with
         | H : _ :: _ = _ :: _ |- _ => injection H as ? H
         end.
  all: subst; cbn [forallb] in Hdigits; rewrite !andb_true_iff in Hdigits.
  all: destruct Hdigits as (D1 & D2 & D3 & D4 & _).
  all: first [by vm_compute in D1 | by vm_compute in D2
             | by vm_compute in D3 | by vm_compute in D4].
Qed.

Lemma formatLocalDate_matches_pattern_witness :
  (fourDigitYear lastOfDecember ∧ fourDigitYear tenthOfMarch)
  ∧ EnergyScrape.DATE_RE_test (Report.formatLocalDate lastOfDecember) = true
  ∧ dateOrdinal (Report.formatLocalDate lastOfDecember)
    = ordinalOf lastOfDecember
  ∧ trim (Report.formatLocalDate lastOfDecember)
    = Report.formatLocalDate lastOfDecember
  ∧ (strLt (Report.formatLocalDate lastOfDecember)
       (Report.formatLocalDate tenthOfMarch) = true
     ↔ (ordinalOf lastOfDecember < ordinalOf tenthOfMarch)%N)
  ∧ ∀ early,
      (0 <= Report.getFullYear early < 1000)%Z →
      EnergyScrape.DATE_RE_test (Report.formatLocalDate early) = false.
Proof.
  assert (fourDigitYear lastOfDecember) as Hdate.
  { unfold fourDigitYear, lastOfDecember.
    cbn [Report.getFullYear Report.getMonth Report.getDate]. lia. }
  assert (fourDigitYear tenthOfMarch) as Hother.
  { unfold fourDigitYear, tenthOfMarch.
    cbn [Report.getFullYear Report.getMonth Report.getDate]. lia. }
  split; [done|].
  exact (formatLocalDate_matches_pattern lastOfDecember tenthOfMarch
           Hdate Hother).
Defined.

End LocalDates.
